(** * Polychromatic preferences store: [pylib/preferences.py]

    A shallow embedding of the module that loads, validates, saves and
    migrates Polychromatic's JSON documents, and the properties of it that
    the specification states.

    - JSON values are an inductive type whose objects are finite maps
      (Python dictionaries read by [json.load] have string keys, compare
      regardless of order and are written with [sort_keys=True]).
      Numbers with a fraction or an exponent are left out.
    - The file system is a finite map from paths to files, with the two
      permission bits the module consults: whether a file may be written
      ([os.access(p, os.W_OK)]) and whether entries of the configuration
      directory may be created, renamed and removed.
    - Python code runs in a state-and-exception monad over that world.
      A function that mutates a dictionary it was handed returns the
      dictionary's final value.
    - [start_initalization] takes the loop that creates the missing
      folders as a parameter, the world recording no directories;
      [get_custom_icons], a directory listing, is not part of the
      development. *)

From stdpp Require Import gmap strings list fin_maps sorting.
From Stdlib Require Import ZArith Lia Ascii.

#[local] Open Scope string_scope.
#[local] Open Scope Z_scope.

(** ** JSON values as Python sees them *)

#[local] Unset Elimination Schemes.
Inductive json :=
| JNull
| JBool (b : bool)
| JInt (z : Z)
| JStr (s : string)
| JList (l : list json)
| JDict (m : gmap string json).
#[local] Set Elimination Schemes.

(** Python's [type(x)]. *)
Inductive py_type := NoneType | bool_ | int_ | str | list_ | dict.

Definition type (j : json) : py_type :=
  match j with
  | JNull => NoneType
  | JBool _ => bool_
  | JInt _ => int_
  | JStr _ => str
  | JList _ => list_
  | JDict _ => dict
  end.

Definition py_type_eqb (a b : py_type) : bool :=
  match a, b with
  | NoneType, NoneType | bool_, bool_ | int_, int_
  | str, str | list_, list_ | dict, dict => true
  | _, _ => false
  end.

(** Python's [==]: structural, except that [bool] is a subclass of [int]
    ([True == 1], [False == 0]); dictionaries compare by key set and
    values, lists element by element. *)
Fixpoint py_eqb (a b : json) : bool :=
  match a, b with
  | JNull, JNull => true
  | JBool x, JBool y => bool_decide (x = y)
  | JInt x, JInt y => bool_decide (x = y)
  | JBool x, JInt y => bool_decide ((if x then 1 else 0) = y)
  | JInt x, JBool y => bool_decide (x = (if y then 1 else 0))
  | JStr x, JStr y => bool_decide (x = y)
  | JList x, JList y =>
      (fix go (x y : list json) : bool :=
         match x, y with
         | [], [] => true
         | a :: x, b :: y => py_eqb a b && go x y
         | _, _ => false
         end) x y
  | JDict x, JDict y =>
      bool_decide (dom x = dom y) &&
      map_fold (fun k v acc =>
                  acc && match y !! k with
                         | Some w => py_eqb v w
                         | None => false
                         end) true x
  | _, _ => false
  end.

(** ** Exceptions and outcomes *)

(** The exception classes the module can meet, all below [Exception].
    [OSError] stands for [FileNotFoundError] and [PermissionError] too,
    [ValueError] for [json.JSONDecodeError], [OtherError] for what a
    helper of [common] may raise besides. *)
Inductive exn :=
| KeyError
| TypeError
| ValueError
| AttributeError
| OSError
| OtherError.

Inductive outcome (A : Type) :=
| Ret (a : A)
| Raise (e : exn).
Arguments Ret {A} a.
Arguments Raise {A} e.

Definition exn_eqb (a b : exn) : bool :=
  match a, b with
  | KeyError, KeyError | TypeError, TypeError | ValueError, ValueError
  | AttributeError, AttributeError | OSError, OSError
  | OtherError, OtherError => true
  | _, _ => false
  end.

(** [obj[key]] for a string key: only a dictionary can answer; a list or
    a string wants an integer index, the other types are not
    subscriptable. *)
Definition py_getitem (obj : json) (key : string) : outcome json :=
  match obj with
  | JDict m =>
      match m !! key with
      | Some v => Ret v
      | None => Raise KeyError
      end
  | _ => Raise TypeError
  end.

(** [obj[key] = v] for a string key; returns the mutated object. *)
Definition py_setitem (obj : json) (key : string) (v : json) : outcome json :=
  match obj with
  | JDict m => Ret (JDict (<[key := v]> m))
  | _ => Raise TypeError
  end.

(** [obj[k1][k2]]. *)
Definition py_getitem2 (obj : json) (k1 k2 : string) : outcome json :=
  match py_getitem obj k1 with
  | Ret inner => py_getitem inner k2
  | Raise e => Raise e
  end.

(** [obj[k1][k2] = v]: the inner object is fetched and mutated in place,
    so the outer dictionary sees the change. *)
Definition py_setitem2 (obj : json) (k1 k2 : string) (v : json) : outcome json :=
  match obj with
  | JDict m =>
      match m !! k1 with
      | Some inner =>
          match py_setitem inner k2 v with
          | Ret inner' => Ret (JDict (<[k1 := inner']> m))
          | Raise e => Raise e
          end
      | None => Raise KeyError
      end
  | _ => Raise TypeError
  end.

(** Whether a value can be a dictionary key ([hash(x)] succeeds). *)
Definition hashable (j : json) : bool :=
  match j with
  | JList _ | JDict _ => false
  | _ => true
  end.

(** ** The world: files, permissions, diagnostics *)

(** What a file holds: the serialisation of a JSON value, or bytes that
    [json.load] rejects (the empty file among them). *)
Inductive content :=
| Raw (bytes : string)
| Json (j : json).

(** A file: what it holds, and whether [os.access(p, os.W_OK)] holds. *)
Record file := File { data_of : content; w_ok : bool }.

Inductive level := dbg_error | dbg_action | dbg_success | dbg_warning | dbg_plain.

(** One line handed to [dbg.stdout]: the literal text of the call and the
    values formatted into it. *)
Inductive message :=
| Msg (text : string)
| MsgExn (text : string) (e : exn)
| MsgVersion (text : string) (v : Z)
| MsgUpgrading (old new : Z)
| MsgWriteError (value : json) (item group filepath : string).

(** The files by path; whether the process may create, rename and remove
    entries of the configuration directory; and the lines handed to
    [dbg.stdout] so far. *)
Record world := World {
  files : gmap string file;
  dir_w : bool;
  stdout : list (level * message)
}.

Definition with_files (w : world) (fs : gmap string file) : world :=
  {| files := fs; dir_w := dir_w w; stdout := stdout w |}.

(** ** The monad *)

Definition M (A : Type) : Type := world -> world * outcome A.

Definition ret {A} (a : A) : M A := fun w => (w, Ret a).

Definition bind {A B} (c : M A) (k : A -> M B) : M B :=
  fun w =>
    match c w with
    | (w', Ret a) => k a w'
    | (w', Raise e) => (w', Raise e)
    end.

Notation "x <- c ;; k" := (bind c (fun x => k))
  (at level 100, c at next level, right associativity).
Notation "c ;;; k" := (bind c (fun _ => k))
  (at level 100, right associativity).

(** A pure computation that may raise. *)
Definition lift {A} (o : outcome A) : M A := fun w => (w, o).

(** [try: c except E: h], for one exception class. *)
Definition try_except {A} (c : M A) (E : exn) (h : M A) : M A :=
  fun w =>
    match c w with
    | (w', Raise e) => if exn_eqb e E then h w' else (w', Raise e)
    | r => r
    end.

(** [try: c except Exception as e: h e], and the bare [except:]. *)
Definition try_except_all {A} (c : M A) (h : exn -> M A) : M A :=
  fun w =>
    match c w with
    | (w', Raise e) => h e w'
    | r => r
    end.

Definition dbg_stdout (msg : message) (lvl : level) : M unit :=
  fun w => ({| files := files w; dir_w := dir_w w;
               stdout := stdout w ++ [(lvl, msg)] |}, Ret tt).

(** ** The operating system calls the module makes *)

Definition os_path_exists (p : string) : M bool :=
  fun w => (w, Ret (bool_decide (is_Some (files w !! p)))).

(** [with open(p) as stream: json.load(stream)]. *)
Definition json_load (p : string) : M json :=
  fun w =>
    match files w !! p with
    | None => (w, Raise OSError)
    | Some f =>
        match data_of f with
        | Json j => (w, Ret j)
        | Raw _ => (w, Raise ValueError)
        end
    end.

(** [open(p, "w")] followed by writing [c] (possibly nothing) and
    closing: truncates a writable file, creates a missing one when the
    directory allows it. *)
Definition open_w (p : string) (c : content) : M unit :=
  fun w =>
    match files w !! p with
    | Some f =>
        if w_ok f
        then (with_files w (<[p := File c true]> (files w)), Ret tt)
        else (w, Raise OSError)
    | None =>
        if dir_w w
        then (with_files w (<[p := File c true]> (files w)), Ret tt)
        else (w, Raise OSError)
    end.

(** [os.access(p, os.W_OK)]. *)
Definition os_access_W_OK (p : string) : M bool :=
  fun w =>
    (w, Ret match files w !! p with
            | Some f => w_ok f
            | None => false
            end).

(** [os.rename(src, dst)]: replaces [dst] if there is one. *)
Definition os_rename (src dst : string) : M unit :=
  fun w =>
    match files w !! src with
    | Some f =>
        if dir_w w
        then (with_files w (<[dst := f]> (delete src (files w))), Ret tt)
        else (w, Raise OSError)
    | None => (w, Raise OSError)
    end.

(** [os.remove(p)]. *)
Definition os_remove (p : string) : M unit :=
  fun w =>
    match files w !! p with
    | Some _ =>
        if dir_w w
        then (with_files w (delete p (files w)), Ret tt)
        else (w, Raise OSError)
    | None => (w, Raise OSError)
    end.

(** ** What the module takes from outside

    The process environment read by [Paths], Python's [int] on a string,
    and the two helpers of [pylib/common.py] used by the migration. *)
Class Platform := {
  home : string;                         (* os.path.expanduser("~") *)
  XDG_CONFIG_HOME : option string;       (* os.environ, KeyError when unset *)
  XDG_CACHE_HOME : option string;
  int_of_str : string -> option Z;       (* int(s), None for ValueError *)
  get_path_from_gtk_icon_name : json -> outcome json;
  rgb_to_hex : json -> outcome json
}.

Definition startswith_sep (s : string) : bool :=
  match s with
  | String c _ => bool_decide (c = "/"%char)
  | EmptyString => false
  end.

Fixpoint endswith_sep (s : string) : bool :=
  match s with
  | EmptyString => false
  | String c EmptyString => bool_decide (c = "/"%char)
  | String _ s' => endswith_sep s'
  end.

(** [os.path.join(a, b)] on POSIX. *)
Definition os_path_join (a b : string) : string :=
  if startswith_sep b then b
  else if bool_decide (a = "") || endswith_sep a then a +:+ b
  else a +:+ "/" +:+ b.

Definition version : Z := 7.

Section Preferences.
Context `{P : Platform}.

(** *** [class Paths] *)

Definition root : string :=
  let root := os_path_join (os_path_join home ".config") "polychromatic" in
  let root :=
    match XDG_CONFIG_HOME with
    | Some d => os_path_join (os_path_join d ".config") "polychromatic"
    | None => root
    end in
  match XDG_CACHE_HOME with
  | Some d => os_path_join (os_path_join d ".cache") "polychromatic"
  | None => root
  end.

Definition preferences : string := os_path_join root "preferences.json".
Definition colours : string := os_path_join root "colours.json".
Definition old_devicestate : string := os_path_join root "devicestate.json".

(** *** [save_file]

    Returns the final value of [newdata] (which it mutates for the
    preferences path) next to the boolean. *)
Definition save_file (filepath : string) (newdata : json) : M (json * bool) :=
  newdata <- (if bool_decide (filepath = preferences)
              then lift (py_setitem newdata "config_version" (JInt version))
              else ret newdata) ;;
  present <- os_path_exists filepath ;;
  (if negb present then open_w filepath (Raw "") else ret tt) ;;;
  writable <- os_access_W_OK filepath ;;
  if writable
  then open_w filepath (Json newdata) ;;; ret (newdata, true)
  else ret (newdata, false).

(** *** [init_config] *)
Definition init_config (filepath : string) : M unit :=
  try_except_all
    (present <- os_path_exists filepath ;;
     (if present
      then dbg_stdout (Msg (filepath +:+ ": JSON corrupt or unreadable. It will backed up then recreated.")) dbg_error ;;;
           os_rename filepath (filepath +:+ ".bak")
      else ret tt) ;;;
     save_file filepath (JDict ∅) ;;;
     dbg_stdout (Msg (filepath +:+ ": New configuration written.")) dbg_success)
    (fun e =>
       dbg_stdout (Msg (filepath +:+ ": Init write error!")) dbg_error ;;;
       dbg_stdout (MsgExn "Exception: " e) dbg_error).

(** *** [load_file._validate]

    The closure mutates [data] of the enclosing call; here it takes the
    dictionary and returns it. *)
Definition _validate (group item : string) (data_type : py_type)
    (default_value : json) (data : json) : M json :=
  data <- try_except
            (lift (py_getitem data group) ;;; ret data)
            KeyError
            (lift (py_setitem data group (JDict ∅))) ;;
  data <- try_except
            (lift (py_getitem2 data group item) ;;; ret data)
            KeyError
            (data <- lift (py_setitem2 data group item default_value) ;;
             r <- save_file preferences data ;;
             ret (fst r)) ;;
  v <- lift (py_getitem2 data group item) ;;
  if negb (py_type_eqb (type v) data_type)
  then data <- lift (py_setitem2 data group item default_value) ;;
       r <- save_file preferences data ;;
       ret (fst r)
  else ret data.

(** The six calls of [_validate] that [load_file] makes for the
    preferences file. *)
Definition validate_defaults (data : json) : M json :=
  data <- _validate "colours" "primary" str (JStr "#00FF00") data ;;
  data <- _validate "colours" "secondary" str (JStr "#FF0000") data ;;
  data <- _validate "effects" "live_preview" bool_ (JBool true) data ;;
  data <- _validate "general" "landing_tab" str (JStr "devices") data ;;
  data <- _validate "tray" "force_legacy_gtk_status" bool_ (JBool false) data ;;
  _validate "tray" "icon" str (JStr "ui/img/tray/light/polychromatic.svg") data.

(** *** [load_file] *)
Definition load_file (filepath : string) : M json :=
  present <- os_path_exists filepath ;;
  data <- (if present
           then try_except_all
                  (json_load filepath)
                  (fun e =>
                     dbg_stdout (Msg (filepath +:+ ": Read error!")) dbg_error ;;;
                     dbg_stdout (MsgExn "Exception:" e) dbg_error ;;;
                     init_config filepath ;;;
                     ret (JDict ∅))
           else init_config filepath ;;; ret (JDict ∅)) ;;
  if bool_decide (filepath = preferences)
  then validate_defaults data
  else ret data.

(** *** [set], [get], [exists] *)
Definition set (group item : string) (value : json)
    (filepath : option string) : M unit :=
  let filepath := default preferences filepath in
  data <- load_file filepath ;;
  let value := if py_eqb value (JStr "true") then JBool true else value in
  let value := if py_eqb value (JStr "false") then JBool false else value in
  data <- try_except_all
            (lift (py_getitem data group) ;;; ret data)
            (fun _ => lift (py_setitem data group (JDict ∅))) ;;
  try_except_all
    (data <- lift (py_setitem2 data group item value) ;;
     save_file filepath data ;;;
     ret tt)
    (fun _ => dbg_stdout (MsgWriteError value item group filepath) dbg_error).

Definition get (group item : string) (default_value : json)
    (filepath : option string) : M json :=
  let filepath := default preferences filepath in
  data <- load_file filepath ;;
  value <- lift (py_getitem2 data group item) ;;
  ret value.

Definition exists_ (group item : string) (filepath : option string) : M bool :=
  let filepath := default preferences filepath in
  data <- load_file filepath ;;
  try_except_all
    (value <- lift (py_getitem2 data group item) ;;
     ret true)
    (fun _ => ret false).

(** *** [upgrade_old_pref] *)

(** Python's [int(x)]. *)
Definition py_int (j : json) : outcome Z :=
  match j with
  | JInt z => Ret z
  | JBool b => Ret (if b then 1 else 0)
  | JStr s =>
      match int_of_str s with
      | Some z => Ret z
      | None => Raise ValueError
      end
  | _ => Raise TypeError
  end.

(** [for x in l: s = body(s, x)]. *)
Fixpoint for_in {A S : Type} (l : list A) (body : S -> A -> M S) (s : S) : M S :=
  match l with
  | [] => ret s
  | x :: l => s <- body s x ;; for_in l body s
  end.

(** Body of the loop of the v0.3.12 step, for one key of [editor]. *)
Definition upgrade_editor_key (data : json) (key : string) : M json :=
  try_except_all
    (value <- lift (py_getitem2 data "editor" key) ;;
     if py_type_eqb (type value) str
     then if py_eqb value (JStr "true") || py_eqb value (JStr "True")
          then lift (py_setitem2 data "editor" key (JBool true))
          else lift (py_setitem2 data "editor" key (JBool false))
     else ret data)
    (fun _ => ret data).

(** [if config_version < 5: ...] *)
Definition upgrade_step_lt5 : M unit :=
  data <- load_file preferences ;;
  data <- for_in ["activate_on_save"; "live_switch"; "live_preview"]
            upgrade_editor_key data ;;
  save_file preferences data ;;;
  ret tt.

(** [if config_version == 6: ...], up to its [return]. *)
Definition upgrade_step_eq6 : M unit :=
  dbg_stdout (Msg "Development configuration detected. Preferences have been reset.") dbg_warning ;;;
  for_in [preferences; colours; old_devicestate]
    (fun _ filepath =>
       present <- os_path_exists filepath ;;
       if present then os_remove filepath else ret tt) tt.

(** The literal [mapping] of the tray icon migration. *)
Definition mapping : gmap string json :=
  {[ "0" := JStr "ui/img/tray/light/humanity.svg";
     "1" := JStr "ui/img/tray/dark/humanity.svg";
     "2" := JStr "ui/img/tray/animated/chroma.gif";
     "3" := JStr "ui/img/tray/light/breeze.svg";
     "4" := JStr "ui/img/tray/dark/breeze.svg" ]}.

(** [mapping[key]] for a key of any type: lists and dictionaries cannot
    be hashed, and only a string equals one of the keys. *)
Definition mapping_getitem (key : json) : outcome json :=
  if hashable key
  then match key with
       | JStr s =>
           match mapping !! s with
           | Some v => Ret v
           | None => Raise KeyError
           end
       | _ => Raise KeyError
       end
  else Raise TypeError.

(** The value of [new_tray_value] after the first [try] of the v1.0.0
    step. *)
Definition new_tray_value_of (old_data : json) : M json :=
  try_except
    (old_type <- lift (py_getitem2 old_data "tray_icon" "type") ;;
     if py_eqb old_type (JStr "gtk")
     then value <- lift (py_getitem2 old_data "tray_icon" "value") ;;
          lift (get_path_from_gtk_icon_name value)
     else if py_eqb old_type (JStr "custom")
     then lift (py_getitem2 old_data "tray_icon" "value")
     else if py_eqb old_type (JStr "builtin")
     then try_except
            (value <- lift (py_getitem2 old_data "tray_icon" "value") ;;
             lift (mapping_getitem value))
            KeyError
            (ret (JStr ""))
     else ret (JStr ""))
    KeyError
    (ret (JStr "")).

Definition old_colour_json : json :=
  let entry (name : string) (r g b : Z) :=
    JDict {[ "name" := JStr name; "col" := JList [JInt r; JInt g; JInt b] ]} in
  JDict {[ "1" := entry "White" 255 255 255;
           "2" := entry "Red" 255 0 0;
           "3" := entry "Orange" 255 165 0;
           "4" := entry "Yellow" 255 255 0;
           "5" := entry "Signature Green" 0 255 0;
           "6" := entry "Aqua" 0 255 255;
           "7" := entry "Blue" 0 0 255;
           "8" := entry "Purple" 128 0 128;
           "9" := entry "Pink" 255 0 255 ]}.

(** [list(old_colours.keys())] followed by [old_ids.sort()]: Python
    orders strings by code point, character by character. *)
Definition sorted_keys (old_colours : json) : outcome (list string) :=
  match old_colours with
  | JDict m => Ret (merge_sort String.le (elements (dom m)))
  | _ => Raise AttributeError
  end.

(** Body of the loop over [old_ids]. *)
Definition convert_colour (old_colours : json) (new_colours : list json)
    (uuid : string) : M (list json) :=
  new_name <- lift (py_getitem2 old_colours uuid "name") ;;
  col <- lift (py_getitem2 old_colours uuid "col") ;;
  new_hex <- lift (rgb_to_hex col) ;;
  ret (new_colours ++ [JDict {[ "name" := new_name; "hex" := new_hex ]}])%list.

(** The colours part of the v1.0.0 step. *)
Definition upgrade_colours : M unit :=
  old_colours <- load_file colours ;;
  if py_eqb old_colours old_colour_json
  then os_remove colours
  else
    if negb (py_type_eqb (type old_colours) list_)
    then old_ids <- lift (sorted_keys old_colours) ;;
         new_colours <- for_in old_ids (convert_colour old_colours) [] ;;
         save_file colours (JList new_colours) ;;;
         ret tt
    else ret tt.

(** [if config_version < 7: ...] *)
Definition upgrade_step_lt7 : M unit :=
  old_data <- load_file preferences ;;
  new_tray_value <- new_tray_value_of old_data ;;
  old_live_preview <- try_except
                        (lift (py_getitem2 old_data "editor" "live_preview"))
                        KeyError
                        (ret (JBool false)) ;;
  let new_data :=
    JDict {[ "colours" := JDict {[ "primary" := JStr "#00FF00";
                                   "secondary" := JStr "#00FFFF" ]};
             "effects" := JDict {[ "live_preview" := old_live_preview ]};
             "tray" := JDict {[ "force_legacy_gtk_status" := JBool false;
                                "icon" := new_tray_value ]} ]} in
  os_remove preferences ;;;
  save_file preferences new_data ;;;
  present <- os_path_exists old_devicestate ;;
  (if present then os_remove old_devicestate else ret tt) ;;;
  upgrade_colours.

(** The body of [if config_version > version:], up to its [return]: five
    calls of [dbg.stdout] and nothing else. *)
Definition upgrade_warn_newer (config_version : Z) : M unit :=
  dbg_stdout (Msg "\nWARNING: Your preferences file is newer then the application!") dbg_error ;;;
  dbg_stdout (Msg "It's likely you're running an older version. This is unsupported.") dbg_error ;;;
  dbg_stdout (MsgVersion "     Current Config Version:   v." config_version) dbg_error ;;;
  dbg_stdout (MsgVersion "     Installed Config Version: v." version) dbg_error ;;;
  dbg_stdout (Msg "") dbg_plain.

(** [# Write new version number.] and what follows it. *)
Definition upgrade_write_version : M unit :=
  data <- load_file preferences ;;
  data <- lift (py_setitem data "config_version" (JInt version)) ;;
  save_file preferences data ;;;
  dbg_stdout (Msg "Configuration successfully upgraded.") dbg_success.

Definition upgrade_old_pref : M unit :=
  found <- try_except_all
             (data <- json_load preferences ;;
              v <- lift (py_getitem data "config_version") ;;
              config_version <- lift (py_int v) ;;
              ret (Some config_version))
             (fun _ => ret None) ;;
  match found with
  | None => ret tt
  | Some config_version =>
      if bool_decide (version = config_version) then ret tt
      else if bool_decide (config_version > version)
      then upgrade_warn_newer config_version
      else
        dbg_stdout (MsgUpgrading config_version version) dbg_action ;;;
        (if bool_decide (config_version < 5) then upgrade_step_lt5 else ret tt) ;;;
        if bool_decide (config_version = 6) then upgrade_step_eq6
        else
          (if bool_decide (config_version < 7) then upgrade_step_lt7 else ret tt) ;;;
          upgrade_write_version
  end.

(** *** [start_initalization] *)

(** Python's [len(x)]. *)
Definition py_len (j : json) : outcome Z :=
  match j with
  | JStr s => Ret (Z.of_nat (String.length s))
  | JList l => Ret (Z.of_nat (length l))
  | JDict m => Ret (Z.of_nat (size m))
  | _ => Raise TypeError
  end.

(** [default_data] of [start_initalization]; [tr] is the translation
    function [_]. *)
Definition default_data (tr : string → string) : json :=
  let entry (name hex : string) :=
    JDict {[ "name" := JStr (tr name); "hex" := JStr hex ]} in
  JList [ entry "White" "#FFFFFF";
          entry "Red" "#FF0000";
          entry "Green" "#00FF00";
          entry "Blue" "#0000FF";
          entry "Aqua" "#00FFFF";
          entry "Orange" "#FFA500";
          entry "Pink" "#FF00FF";
          entry "Purple" "#8000FF";
          entry "Yellow" "#FFFF00";
          entry "Light Grey" "#C0C0C0";
          entry "Dark Grey" "#7F7F7F";
          entry "Black" "#000000" ].

(** The loop that creates the missing folders works on directories,
    which the world does not record: it is the parameter
    [create_folders]. *)
Definition start_initalization (create_folders : M unit)
    (tr : string → string) : M unit :=
  create_folders ;;;
  for_in [preferences]
    (fun _ json_path =>
       present <- os_path_exists json_path ;;
       if negb present then init_config json_path else ret tt) tt ;;;
  upgrade_old_pref ;;;
  data <- load_file preferences ;;
  n <- lift (py_len data) ;;
  (if bool_decide (n ≤ 2)
   then save_file preferences (JDict ∅) ;;; ret tt
   else ret tt) ;;;
  data <- load_file colours ;;
  n <- lift (py_len data) ;;
  if bool_decide (n ≤ 2)
  then save_file colours (default_data tr) ;;; ret tt
  else ret tt.

End Preferences.

(** * Vocabulary of the specification *)

(** Running [c] from [w] ends in a world and an outcome that satisfy [Q]. *)
Definition wp {A} (c : M A) (Q : world → outcome A → Prop) (w : world) : Prop :=
  Q (c w).1 (c w).2.

(** [save_file] can put something at [p]: the file is there and
    writable, or it is missing from a writable directory. *)
Definition can_write (p : string) (w : world) : Prop :=
  match files w !! p with
  | Some f => w_ok f = true
  | None => dir_w w = true
  end.

(** [save_file] will not raise at [p]. *)
Definition creatable (p : string) (w : world) : Prop :=
  is_Some (files w !! p) ∨ dir_w w = true.

(** The directory part that [os.path.join] puts before a relative name. *)
Definition join_prefix (a : string) : string :=
  if bool_decide (a = "") || endswith_sep a then a else a +:+ "/".

(** The (group, key, expected type, default value) tuples of the calls
    in [validate_defaults]. *)
Definition DefaultEntries : list (string * string * py_type * json) :=
  [ ("colours", "primary", str, JStr "#00FF00");
    ("colours", "secondary", str, JStr "#FF0000");
    ("effects", "live_preview", bool_, JBool true);
    ("general", "landing_tab", str, JStr "devices");
    ("tray", "force_legacy_gtk_status", bool_, JBool false);
    ("tray", "icon", str, JStr "ui/img/tray/light/polychromatic.svg") ].

Definition tray_icon_default : json := JStr "ui/img/tray/light/polychromatic.svg".

Definition entry_key (e : string * string * py_type * json) : string * string :=
  (e.1.1.1, e.1.1.2).

Definition entry_sound (e : string * string * py_type * json) : Prop :=
  e.1.1.1 ≠ "config_version" ∧ type e.2 = e.1.2.

(** [data[group][item]] exists and has type [ty]. *)
Definition entry_ok (group item : string) (ty : py_type) (data : json) : Prop :=
  ∃ v, py_getitem2 data group item = Ret v ∧ type v = ty.

(** Every default entry is present with a value of its type. *)
Definition validated (data : json) : Prop :=
  Forall (λ e, entry_ok e.1.1.1 e.1.1.2 e.1.2 data) DefaultEntries.

(** The contents of [group] as [_validate] finds them: empty when the
    group is missing (it is created), and no answer when the group is
    not a dictionary. *)
Definition group_of (m : gmap string json) (group : string)
    : outcome (gmap string json) :=
  match m !! group with
  | None => Ret ∅
  | Some (JDict gm) => Ret gm
  | Some _ => Raise TypeError
  end.

Definition needs_repair (gm : gmap string json) (item : string)
    (ty : py_type) : bool :=
  match gm !! item with
  | Some v => negb (py_type_eqb (type v) ty)
  | None => true
  end.

(** A mapping whose default groups, where present, are mappings: the
    documents that [validate_defaults] can repair. *)
Definition well_grouped (data : json) : Prop :=
  ∃ m, data = JDict m ∧
       Forall (λ e, ∃ gm, group_of m e.1.1.1 = Ret gm) DefaultEntries.

Definition well_groupedb (data : json) : bool :=
  match data with
  | JDict m =>
      forallb (λ e, match group_of m e.1.1.1 with
                    | Ret _ => true
                    | Raise _ => false
                    end) DefaultEntries
  | _ => false
  end.

(** A key of the document that validation never writes. *)
Definition untouched_key (k : string) : Prop :=
  k ≠ "config_version" ∧ Forall (λ e, e.1.1.1 ≠ k) DefaultEntries.

(** [editor], if present, is a mapping. *)
Definition editor_ok (m : gmap string json) : Prop :=
  m !! "editor" = None ∨ ∃ e, m !! "editor" = Some (JDict e).

(** [ids] are the keys of [cm] in ascending string order. *)
Definition ascending_ids (cm : gmap string json) (ids : list string) : Prop :=
  Sorted String.le ids ∧ NoDup ids ∧ ∀ k, k ∈ ids ↔ is_Some (cm !! k).

(** The number a string of decimal digits writes. *)
Definition digit_value (c : ascii) : option Z :=
  let n := Z.of_N (N_of_ascii c) in
  if bool_decide (48 ≤ n ≤ 57) then Some (n - 48) else None.

Fixpoint digits_value (acc : Z) (s : string) : option Z :=
  match s with
  | EmptyString => Some acc
  | String c s =>
      match digit_value c with
      | Some d => digits_value (10 * acc + d) s
      | None => None
      end
  end.

Definition id_number (s : string) : Z := default 0 (digits_value 0 s).

(** The order of the specification's sentence, read as an order on the
    numbers the IDs write. *)
Definition numeric_le (a b : string) : Prop := id_number a ≤ id_number b.

#[global] Instance numeric_le_dec : RelDecision numeric_le :=
  λ a b, decide (id_number a ≤ id_number b).

(** The document one call of [_validate] leaves: the default is put where
    the value is missing or of another type, and [save_file] stamps the
    version. *)
Definition repaired (m : gmap string json)
    (e : string * string * py_type * json) : gmap string json :=
  match group_of m e.1.1.1 with
  | Ret gm =>
      if needs_repair gm e.1.1.2 e.1.2
      then <["config_version" := JInt version]>
             (<[e.1.1.1 := JDict (<[e.1.1.2 := e.2]> gm)]> m)
      else m
  | Raise _ => m
  end.

(** The document the six calls leave. *)
Definition with_defaults (m : gmap string json) : gmap string json :=
  foldl repaired m DefaultEntries.

(** What [set] stores for [value]: the strings "true" and "false" become
    booleans. *)
Definition coerced (value : json) : json :=
  let value := if py_eqb value (JStr "true") then JBool true else value in
  if py_eqb value (JStr "false") then JBool false else value.

Definition validatedb (data : json) : bool :=
  forallb (λ e, match py_getitem2 data e.1.1.1 e.1.1.2 with
                | Ret v => py_type_eqb (type v) e.1.2
                | Raise _ => false
                end) DefaultEntries.

(** [old_data["editor"]["live_preview"]], [False] where it is missing. *)
Definition old_live_preview_of (md : gmap string json) : json :=
  match md !! "editor" with
  | Some (JDict e) => default (JBool false) (e !! "live_preview")
  | _ => JBool false
  end.

(** What the v0.3.12 step makes of a value of [editor]. *)
Definition as_flag (value : json) : json :=
  match value with
  | JStr s => JBool (bool_decide (s = "true") || bool_decide (s = "True"))
  | _ => value
  end.

(** [new_data] of the v1.0.0 step. *)
Definition new_data (old_live_preview new_tray_value : json)
    : gmap string json :=
  {[ "colours" := JDict {[ "primary" := JStr "#00FF00";
                           "secondary" := JStr "#00FFFF" ]};
     "effects" := JDict {[ "live_preview" := old_live_preview ]};
     "tray" := JDict {[ "force_legacy_gtk_status" := JBool false;
                        "icon" := new_tray_value ]} ]}.

Section Vocabulary.
Context `{P : Platform}.

Definition dir : string := join_prefix root.

(** The document that [save_file] serialises. *)
Definition stamped (filepath : string) (newdata : json) : outcome json :=
  if bool_decide (filepath = preferences)
  then py_setitem newdata "config_version" (JInt version)
  else Ret newdata.

(** One call of [_validate], for an element of [DefaultEntries]. *)
Definition validate_entry (data : json)
    (e : string * string * py_type * json) : M json :=
  _validate e.1.1.1 e.1.1.2 e.1.2 e.2 data.

(** Nothing but the preferences file changed, and that only by being
    rewritten. *)
Definition prefs_written (w w' : world) : Prop :=
  dir_w w' = dir_w w ∧
  (files w' = files w ∨
   ∃ nd, files w' = <[preferences := File (Json nd) true]> (files w)).

(** Either nothing happened, or the preferences file now holds the
    returned document (when it could be written). *)
Definition persisted (w : world) (data : json) (w' : world)
    (r : outcome json) : Prop :=
  (w' = w ∧ r = Ret data) ∨
  (can_write preferences w →
   ∀ data', r = Ret data' →
            files w' !! preferences = Some (File (Json data') true)).

(** The document [init_config] writes, and the files it leaves. *)
Definition fresh_document (filepath : string) : json :=
  JDict (if bool_decide (filepath = preferences)
         then {[ "config_version" := JInt version ]}
         else ∅).

Definition init_files (filepath : string) (w : world) : gmap string file :=
  if dir_w w
  then <[filepath := File (Json (fresh_document filepath)) true]>
         (match files w !! filepath with
          | Some f => <[filepath +:+ ".bak" := f]> (delete filepath (files w))
          | None => files w
          end)
  else files w.

(** [load_file] will call [init_config]: the file is missing or does not
    parse. *)
Definition unreadable (filepath : string) (w : world) : Prop :=
  match files w !! filepath with
  | Some f => ∃ raw, data_of f = Raw raw
  | None => True
  end.

(** The preferences file, if it parses, holds a mapping whose default
    groups are mappings too. *)
Definition preferences_well_formed (w : world) : Prop :=
  ∀ f j, files w !! preferences = Some f → data_of f = Json j → well_grouped j.

(** [record] is the new-style entry for the legacy entry [uuid] of [cm]:
    its name, and the hex string of its [r, g, b] triple. *)
Definition converts (cm : gmap string json) (uuid : string)
    (record : json) : Prop :=
  ∃ e name col hex,
    cm !! uuid = Some (JDict e) ∧ e !! "name" = Some name ∧
    e !! "col" = Some col ∧ rgb_to_hex col = Ret hex ∧
    record = JDict {[ "name" := name; "hex" := hex ]}.

(** A colours document in legacy mapping form: every entry has a name
    and a colour that converts. *)
Definition legacy_palette (cm : gmap string json) : Prop :=
  ∀ uuid, is_Some (cm !! uuid) → ∃ record, converts cm uuid record.

Definition palette_entry_ok (v : json) : bool :=
  match v with
  | JDict e =>
      match e !! "name", e !! "col" with
      | Some _, Some col =>
          match rgb_to_hex col with
          | Ret _ => true
          | Raise _ => false
          end
      | _, _ => false
      end
  | _ => false
  end.

(** The colours file is one the v1.0.0 step can deal with: missing,
    unparsable, a list already, the known legacy palette, or a legacy
    mapping. *)
Definition colours_convertible (w : world) : Prop :=
  match files w !! colours with
  | None => True
  | Some fc =>
      match data_of fc with
      | Raw _ => True
      | Json (JList _) => True
      | Json (JDict cm) =>
          py_eqb (JDict cm) old_colour_json = true ∨ legacy_palette cm
      | Json _ => False
      end
  end.

(** The new-style record of one legacy entry, if it has one. *)
Definition record_of (v : json) : option json :=
  match v with
  | JDict e =>
      match e !! "name", e !! "col" with
      | Some name, Some col =>
          match rgb_to_hex col with
          | Ret hex => Some (JDict {[ "name" := name; "hex" := hex ]})
          | Raise _ => None
          end
      | _, _ => None
      end
  | _ => None
  end.

(** The list the specification's sentence describes when its order is
    read numerically: the entries by ascending ID number. *)
Definition numeric_order_conversion (cm : gmap string json) : list json :=
  omap (λ uuid, cm !! uuid ≫= record_of)
       (merge_sort numeric_le (elements (dom cm))).

(** The derivation of [tray.icon] from the legacy [tray_icon] group does
    not raise. *)
Definition tray_icon_ok (m : gmap string json) : Prop :=
  ∃ t, ∀ w, new_tray_value_of (JDict m) w = (w, Ret t).

(** What every document read back during a pass has in common with the
    document [m] the pass started from. *)
Definition legacy_document (m : gmap string json) (d : json) : Prop :=
  ∃ md, d = JDict md ∧ well_grouped d ∧ editor_ok md ∧
        md !! "tray_icon" = m !! "tray_icon".

(** The preferences file lies in a writable directory and holds a
    document that shares its legacy groups with [m]. *)
Definition preferences_hold (m : gmap string json) (w : world) : Prop :=
  dir_w w = true ∧
  ∃ d ok, files w !! preferences = Some (File (Json d) ok) ∧
          legacy_document m d.

(** [preferences_hold], and the document on disk has [lp] as its
    [editor.live_preview]. *)
Definition preferences_hold_lp (m : gmap string json) (lp : json)
    (w : world) : Prop :=
  dir_w w = true ∧
  ∃ md, files w !! preferences = Some (File (Json (JDict md)) true) ∧
        legacy_document m (JDict md) ∧ old_live_preview_of md = lp.

End Vocabulary.

(** * Inputs to run the module on *)

Definition hex_digit (n : Z) : string :=
  match n with
  | 0 => "0" | 1 => "1" | 2 => "2" | 3 => "3" | 4 => "4" | 5 => "5"
  | 6 => "6" | 7 => "7" | 8 => "8" | 9 => "9" | 10 => "A" | 11 => "B"
  | 12 => "C" | 13 => "D" | 14 => "E" | _ => "F"
  end.

(** A stand-in for [common.rgb_to_hex]: two upper-case hexadecimal digits
    per component, for components between 0 and 255. *)
Definition demo_rgb_to_hex (j : json) : outcome json :=
  match j with
  | JList [JInt r; JInt g; JInt b] =>
      Ret (JStr ("#" +:+ hex_digit (r / 16) +:+ hex_digit (r mod 16)
                     +:+ hex_digit (g / 16) +:+ hex_digit (g mod 16)
                     +:+ hex_digit (b / 16) +:+ hex_digit (b mod 16)))
  | _ => Raise OtherError
  end.

(** [int(s)] for a non-empty string of decimal digits. *)
Definition demo_int_of_str (s : string) : option Z :=
  match s with
  | EmptyString => None
  | _ => digits_value 0 s
  end.

(** A user with no XDG variables set and no icon theme. *)
Definition demo : Platform := {|
  home := "/home/user";
  XDG_CONFIG_HOME := None;
  XDG_CACHE_HOME := None;
  int_of_str := demo_int_of_str;
  get_path_from_gtk_icon_name := fun _ => Ret (JStr "");
  rgb_to_hex := demo_rgb_to_hex
|}.

Definition demo_preferences : string := @preferences demo.
Definition demo_colours : string := @colours demo.

Definition world_of (fs : list (string * file)) (writable_dir : bool) : world :=
  {| files := list_to_map fs; dir_w := writable_dir; stdout := [] |}.

(** No file yet. *)
Definition w_empty : world := world_of [] true.

(** No file, and none can be created. *)
Definition w_read_only : world := world_of [] false.

(** The preferences file holds a JSON list. *)
Definition w_list : world :=
  world_of [(demo_preferences, File (Json (JList [])) true)] true.

(** The preferences file, respectively the colours file, does not parse. *)
Definition w_raw : world :=
  world_of [(demo_preferences, File (Raw "{not json") true)] true.
Definition w_raw_colours : world :=
  world_of [(demo_colours, File (Raw "{not json") true)] true.

(** What [load_file] makes of an empty preferences document. *)
Definition demo_defaults : gmap string json :=
  {[ "colours" := JDict {[ "primary" := JStr "#00FF00";
                           "secondary" := JStr "#FF0000" ]};
     "config_version" := JInt 7;
     "effects" := JDict {[ "live_preview" := JBool true ]};
     "general" := JDict {[ "landing_tab" := JStr "devices" ]};
     "tray" := JDict {[ "force_legacy_gtk_status" := JBool false;
                        "icon" := tray_icon_default ]} ]}.

(** Version 4, with a string where the <5 step wants a boolean. *)
Definition doc_v4 : gmap string json :=
  {[ "config_version" := JInt 4;
     "editor" := JDict {[ "live_preview" := JStr "true" ]} ]}.
Definition w_v4 : world :=
  world_of [(demo_preferences, File (Json (JDict doc_v4)) true)] true.

(** Version 6, next to a colours file. *)
Definition doc_v6 : gmap string json := {[ "config_version" := JInt 6 ]}.
Definition w_v6 : world :=
  world_of [(demo_preferences, File (Json (JDict doc_v6)) true);
            (demo_colours, File (Json (JList [])) true)] true.

(** Version 9, from newer software. *)
Definition doc_v9 : gmap string json := {[ "config_version" := JInt 9 ]}.
Definition w_v9 : world :=
  world_of [(demo_preferences, File (Json (JDict doc_v9)) true)] true.

(** Version 5, next to a legacy palette with the IDs 2 and 10. *)
Definition doc_v5 : gmap string json := {[ "config_version" := JInt 5 ]}.
Definition palette_2_10 : gmap string json :=
  {[ "2" := JDict {[ "name" := JStr "Red";
                     "col" := JList [JInt 255; JInt 0; JInt 0] ]};
     "10" := JDict {[ "name" := JStr "Teal";
                      "col" := JList [JInt 0; JInt 128; JInt 128] ]} ]}.
Definition w_v5 : world :=
  world_of [(demo_preferences, File (Json (JDict doc_v5)) true);
            (demo_colours, File (Json (JDict palette_2_10)) true)] true.

Definition record_red : json :=
  JDict {[ "name" := JStr "Red"; "hex" := JStr "#FF0000" ]}.
Definition record_teal : json :=
  JDict {[ "name" := JStr "Teal"; "hex" := JStr "#008080" ]}.

(** The defaults on disk, next to a palette of one colour. *)
Definition one_colour : list json :=
  [ JDict {[ "name" := JStr "Mine"; "hex" := JStr "#123456" ]} ].
Definition w_current : world :=
  world_of [(demo_preferences, File (Json (JDict demo_defaults)) true);
            (demo_colours, File (Json (JList one_colour)) true)] true.

(** A preferences file that does not parse, in a directory where nothing
    can be created or renamed. *)
Definition w_raw_read_only : world :=
  world_of [(demo_preferences, File (Raw "{not json") true)] false.


(** A setting of the user's own, and a string where a boolean belongs. *)
Definition doc_user : gmap string json :=
  {[ "editor" := JDict {[ "zoom" := JInt 3 ]};
     "effects" := JDict {[ "live_preview" := JStr "yes" ]} ]}.
Definition w_user : world :=
  world_of [(demo_preferences, File (Json (JDict doc_user)) true)] true.


(** * Proofs *)

(** ** Strings and the paths of [Paths] *)

Lemma string_app_assoc (a b c : string) : (a +:+ b) +:+ c = a +:+ (b +:+ c).
Proof.
  induction a as [|x a IH]; [done|].
  change (String x ((a +:+ b) +:+ c) = String x (a +:+ (b +:+ c))).
  by rewrite IH.
Qed.

Lemma string_app_length (a b : string) :
  String.length (a +:+ b) = (String.length a + String.length b)%nat.
Proof.
  induction a as [|x a IH]; [done|].
  change (S (String.length (a +:+ b)) = S (String.length a + String.length b)).
  by rewrite IH.
Qed.

Lemma string_app_neq (a b : string) : b ≠ "" → a +:+ b ≠ a.
Proof.
  intros Hb Heq. apply (f_equal String.length) in Heq.
  rewrite string_app_length in Heq. destruct b; [done|]. cbn in Heq. lia.
Qed.

Lemma os_path_join_relative a b :
  startswith_sep b = false → os_path_join a b = join_prefix a +:+ b.
Proof.
  intros Hb. unfold os_path_join, join_prefix. rewrite Hb.
  destruct (bool_decide (a = "") || endswith_sep a); [done|].
  by rewrite string_app_assoc.
Qed.

Section Paths.
Context `{P : Platform}.

Lemma preferences_eq : preferences = dir +:+ "preferences.json".
Proof. by apply os_path_join_relative. Qed.
Lemma colours_eq : colours = dir +:+ "colours.json".
Proof. by apply os_path_join_relative. Qed.
Lemma old_devicestate_eq : old_devicestate = dir +:+ "devicestate.json".
Proof. by apply os_path_join_relative. Qed.

Lemma dir_app_neq a b : a ≠ b → dir +:+ a ≠ dir +:+ b.
Proof. intros Hne Heq. by apply String.app_inj in Heq. Qed.

Lemma colours_ne_preferences : colours ≠ preferences.
Proof. rewrite colours_eq, preferences_eq. by apply dir_app_neq. Qed.
Lemma old_devicestate_ne_preferences : old_devicestate ≠ preferences.
Proof. rewrite old_devicestate_eq, preferences_eq. by apply dir_app_neq. Qed.
Lemma old_devicestate_ne_colours : old_devicestate ≠ colours.
Proof. rewrite old_devicestate_eq, colours_eq. by apply dir_app_neq. Qed.
Lemma colours_bak_ne_preferences : colours +:+ ".bak" ≠ preferences.
Proof.
  rewrite colours_eq, preferences_eq, string_app_assoc. by apply dir_app_neq.
Qed.
Lemma preferences_bak_ne_colours : preferences +:+ ".bak" ≠ colours.
Proof.
  rewrite colours_eq, preferences_eq, string_app_assoc. by apply dir_app_neq.
Qed.
Lemma bak_ne (p : string) : p +:+ ".bak" ≠ p.
Proof. by apply string_app_neq. Qed.
End Paths.

(** ** The rules of [wp] *)

Section WeakestPrecondition.
Context {A B : Type}.
Implicit Types (w : world).

Lemma wp_elim (c : M A) Q w w' r : wp c Q w → c w = (w', r) → Q w' r.
Proof. unfold wp. intros H Heq. by rewrite Heq in H. Qed.

Lemma wp_intro (c : M A) (Q : world → outcome A → Prop) w :
  (∀ w' r, c w = (w', r) → Q w' r) → wp c Q w.
Proof. intros H. unfold wp. apply H. by destruct (c w). Qed.

Lemma wp_mono (c : M A) (Q Q' : world → outcome A → Prop) w :
  wp c Q w → (∀ w' r, Q w' r → Q' w' r) → wp c Q' w.
Proof. unfold wp. auto. Qed.

Lemma wp_ret (a : A) (Q : world → outcome A → Prop) w : Q w (Ret a) → wp (ret a) Q w.
Proof. done. Qed.

Lemma wp_lift (o : outcome A) (Q : world → outcome A → Prop) w : Q w o → wp (lift o) Q w.
Proof. done. Qed.

Lemma wp_bind (c : M A) (k : A → M B) (Q : world → outcome B → Prop) w :
  wp c (λ w1 r, match r with
                | Ret a => wp (k a) Q w1
                | Raise e => Q w1 (Raise e)
                end) w →
  wp (bind c k) Q w.
Proof. unfold wp, bind. by destruct (c w) as [w1 [a|e]]. Qed.

Lemma wp_try_except (c h : M A) E (Q : world → outcome A → Prop) w :
  wp c (λ w1 r, match r with
                | Raise e => if exn_eqb e E then wp h Q w1 else Q w1 (Raise e)
                | Ret a => Q w1 (Ret a)
                end) w →
  wp (try_except c E h) Q w.
Proof.
  unfold wp, try_except. destruct (c w) as [w1 [a|e]]; [done|].
  simpl. by destruct (exn_eqb e E).
Qed.

Lemma wp_try_except_all (c : M A) (h : exn → M A) (Q : world → outcome A → Prop) w :
  wp c (λ w1 r, match r with
                | Raise e => wp (h e) Q w1
                | Ret a => Q w1 (Ret a)
                end) w →
  wp (try_except_all c h) Q w.
Proof. unfold wp, try_except_all. by destruct (c w) as [w1 [a|e]]. Qed.
End WeakestPrecondition.

#[local] Opaque preferences colours old_devicestate.

Section Proofs.
Context `{P : Platform}.
Implicit Types (w : world) (m : gmap string json).

(** ** [save_file] in closed form *)

Lemma save_file_eq filepath newdata w :
  save_file filepath newdata w =
  match stamped filepath newdata with
  | Raise e => (w, Raise e)
  | Ret nd =>
      match files w !! filepath with
      | Some f =>
          if w_ok f
          then (with_files w (<[filepath := File (Json nd) true]> (files w)), Ret (nd, true))
          else (w, Ret (nd, false))
      | None =>
          if dir_w w
          then (with_files w (<[filepath := File (Json nd) true]> (files w)), Ret (nd, true))
          else (w, Raise OSError)
      end
  end.
Proof.
  assert (Hgo : ∀ nd,
    (present <- os_path_exists filepath ;;
     (if negb present then open_w filepath (Raw "") else ret tt) ;;;
     writable <- os_access_W_OK filepath ;;
     if writable
     then open_w filepath (Json nd) ;;; ret (nd, true)
     else ret (nd, false)) w =
    match files w !! filepath with
    | Some f =>
        if w_ok f
        then (with_files w (<[filepath := File (Json nd) true]> (files w)), Ret (nd, true))
        else (w, Ret (nd, false))
    | None =>
        if dir_w w
        then (with_files w (<[filepath := File (Json nd) true]> (files w)), Ret (nd, true))
        else (w, Raise OSError)
    end).
  { intros nd. unfold bind, os_path_exists, os_access_W_OK, open_w, ret.
    destruct (files w !! filepath) as [f|] eqn:Hf; simpl.
    - rewrite Hf. destruct (w_ok f) eqn:Hw; [|done]. by rewrite Hf, Hw.
    - rewrite Hf. destruct (dir_w w); [|done]. simpl.
      rewrite lookup_insert_eq. simpl. rewrite lookup_insert_eq. simpl.
      unfold with_files. simpl. by rewrite insert_insert_eq. }
  unfold save_file, stamped.
  destruct (bool_decide (filepath = preferences)).
  - destruct (py_setitem _ _ _) as [nd|e]; [|done].
    unfold bind at 1, lift at 1. apply Hgo.
  - unfold bind at 1, ret at 1. apply Hgo.
Qed.

Lemma save_file_preferences_dict m w :
  save_file preferences (JDict m) w =
  let nd := JDict (<["config_version" := JInt version]> m) in
  match files w !! preferences with
  | Some f =>
      if w_ok f
      then (with_files w (<[preferences := File (Json nd) true]> (files w)), Ret (nd, true))
      else (w, Ret (nd, false))
  | None =>
      if dir_w w
      then (with_files w (<[preferences := File (Json nd) true]> (files w)), Ret (nd, true))
      else (w, Raise OSError)
  end.
Proof.
  rewrite save_file_eq. unfold stamped. by rewrite bool_decide_eq_true_2.
Qed.

Lemma save_file_other filepath newdata w :
  filepath ≠ preferences →
  save_file filepath newdata w =
  match files w !! filepath with
  | Some f =>
      if w_ok f
      then (with_files w (<[filepath := File (Json newdata) true]> (files w)), Ret (newdata, true))
      else (w, Ret (newdata, false))
  | None =>
      if dir_w w
      then (with_files w (<[filepath := File (Json newdata) true]> (files w)), Ret (newdata, true))
      else (w, Raise OSError)
  end.
Proof.
  intros Hne. rewrite save_file_eq. unfold stamped.
  by rewrite bool_decide_eq_false_2.
Qed.

(** ** [_validate] and the six default entries *)

Lemma py_type_eqb_eq a b : py_type_eqb a b = true ↔ a = b.
Proof. destruct a, b; simpl; split; congruence. Qed.

Lemma _validate_eq group item ty dflt data w :
  group ≠ "config_version" → type dflt = ty →
  _validate group item ty dflt data w =
  match data with
  | JDict m =>
      match group_of m group with
      | Raise e => (w, Raise e)
      | Ret gm =>
          if needs_repair gm item ty
          then (r <- save_file preferences
                       (JDict (<[group := JDict (<[item := dflt]> gm)]> m)) ;;
                ret (fst r)) w
          else (w, Ret (JDict m))
      end
  | _ => (w, Raise TypeError)
  end.
Proof.
  intros Hg Hty.
  assert (Hself : py_type_eqb (type dflt) ty = true) by by apply py_type_eqb_eq.
  destruct data as [ | | | | |m]; try done.
  unfold _validate, group_of, needs_repair.
  unfold bind, try_except, lift, ret, py_getitem2, py_setitem2, py_getitem, py_setitem.
  destruct (m !! group) as [inner|] eqn:Hm; simpl; rewrite ?Hm; simpl.
  - destruct inner as [ | | | | |gm]; simpl; rewrite ?Hm.  all: try done.
    destruct (gm !! item) as [v|] eqn:Hi; simpl; rewrite ?Hm; simpl; rewrite ?Hi.
    + destruct (py_type_eqb (type v) ty); simpl; [done|].
      rewrite ?Hm.  done.
    + rewrite save_file_preferences_dict.
      destruct (files w !! preferences) as [f|];
        [destruct (w_ok f)|destruct (dir_w w)]; simpl; try done;
        rewrite lookup_insert_ne by done; rewrite lookup_insert_eq; simpl;
        rewrite lookup_insert_eq; by rewrite Hself.
  - rewrite !lookup_insert_eq. simpl. rewrite lookup_empty. simpl.
    rewrite insert_insert_eq.
    rewrite save_file_preferences_dict.
    destruct (files w !! preferences) as [f|];
      [destruct (w_ok f)|destruct (dir_w w)]; simpl; try done;
      rewrite lookup_insert_ne by done; rewrite lookup_insert_eq; simpl;
      rewrite lookup_insert_eq; by rewrite Hself.
Qed.

Lemma prefs_written_refl w : prefs_written w w.
Proof. split; auto. Qed.

Lemma prefs_written_trans w1 w2 w3 :
  prefs_written w1 w2 → prefs_written w2 w3 → prefs_written w1 w3.
Proof.
  intros [Hd1 H1] [Hd2 H2]. split; [congruence|].
  destruct H2 as [->|[nd ->]]; [done|]. right. exists nd.
  destruct H1 as [->|[nd' ->]]; [done|]. by rewrite insert_insert_eq.
Qed.

Lemma prefs_written_can_write w w' :
  prefs_written w w' → can_write preferences w → can_write preferences w'.
Proof.
  unfold can_write. intros [Hd [->|[nd ->]]]; [by rewrite Hd|].
  by rewrite lookup_insert_eq.
Qed.

Lemma prefs_written_creatable w w' :
  prefs_written w w' → creatable preferences w → creatable preferences w'.
Proof.
  unfold creatable. intros [Hd [->|[nd ->]]]; [by rewrite Hd|].
  rewrite lookup_insert_eq. eauto.
Qed.

Lemma prefs_written_frame w w' q :
  prefs_written w w' → q ≠ preferences → files w' !! q = files w !! q.
Proof.
  intros [_ [->|[nd ->]]] Hq; [done|]. by rewrite lookup_insert_ne.
Qed.

Lemma save_file_preferences_written m w :
  wp (save_file preferences (JDict m))
     (λ w' r, prefs_written w w' ∧
              (r = Raise OSError ∨
               ∃ b, r = Ret (JDict (<["config_version" := JInt version]> m), b)))
     w.
Proof.
  unfold wp. rewrite save_file_preferences_dict. unfold prefs_written.
  destruct (files w !! preferences) as [f|];
    [destruct (w_ok f)|destruct (dir_w w) eqn:Hd]; simpl;
    (split; [split; [done|]|]);
    first [by left | by right; eexists].
Qed.

Lemma entry_ok_inv group item ty data :
  entry_ok group item ty data →
  ∃ m gm v, data = JDict m ∧ m !! group = Some (JDict gm) ∧
            gm !! item = Some v ∧ type v = ty.
Proof.
  intros (v & Hv & Hty). destruct data as [ | | | | |m]; try done.
  unfold py_getitem2, py_getitem in Hv.
  destruct (m !! group) as [[ | | | | |gm]|] eqn:Hm; try done.
  destruct (gm !! item) as [v'|] eqn:Hi; [|done].
  exists m, gm, v'. by simplify_eq.
Qed.

Lemma entry_ok_intro group item ty m gm v :
  m !! group = Some (JDict gm) → gm !! item = Some v → type v = ty →
  entry_ok group item ty (JDict m).
Proof.
  intros Hm Hi Hty. exists v. split; [|done].
  unfold py_getitem2, py_getitem. by rewrite Hm, Hi.
Qed.

Lemma _validate_noop group item ty dflt data w :
  group ≠ "config_version" → type dflt = ty →
  entry_ok group item ty data →
  _validate group item ty dflt data w = (w, Ret data).
Proof.
  intros Hg Hd (m & gm & v & -> & Hm & Hi & Hty)%entry_ok_inv.
  rewrite _validate_eq by done. unfold group_of, needs_repair.
  rewrite Hm, Hi. by apply py_type_eqb_eq in Hty as ->.
Qed.

Lemma _validate_spec group item ty dflt data w :
  group ≠ "config_version" → type dflt = ty →
  wp (_validate group item ty dflt data)
     (λ w' r,
        prefs_written w w' ∧
        ∀ data', r = Ret data' →
          entry_ok group item ty data' ∧
          ∀ g i t, entry_ok g i t data → g ≠ "config_version" →
                   (g, i) ≠ (group, item) → entry_ok g i t data')
     w.
Proof.
  intros Hg <-. unfold wp. rewrite _validate_eq by done.
  destruct data as [ | | | | |m]; try (split; [apply prefs_written_refl|done]).
  destruct (group_of m group) as [gm|e] eqn:Hgm;
    [|split; [apply prefs_written_refl|done]].
  destruct (needs_repair gm item (type dflt)) eqn:Hrep.
  - pose proof (save_file_preferences_written
                 (<[group := JDict (<[item := dflt]> gm)]> m) w) as Hs.
    unfold wp in Hs. unfold bind, ret.
    destruct (save_file preferences _ w) as [w1 [[nd b]|e]];
      destruct Hs as [Hw [?|[b' ?]]]; simplify_eq/=; split; try done.
    intros _ [= <-]. split.
    + eapply entry_ok_intro;
        [ rewrite lookup_insert_ne by done; apply lookup_insert_eq
        | apply lookup_insert_eq
        | done ].
    + intros g i t (m' & gm' & v & ? & Hm & Hi & Hty)%entry_ok_inv Hgc Hne.
      simplify_eq. destruct (decide (g = group)) as [->|Hgg].
      * unfold group_of in Hgm. rewrite Hm in Hgm. simplify_eq.
        eapply entry_ok_intro;
          [ rewrite lookup_insert_ne by done; apply lookup_insert_eq
          | rewrite lookup_insert_ne; [done|by intros ->]
          | done ].
      * eapply entry_ok_intro; [by rewrite !lookup_insert_ne by done|done..].
  - split; [apply prefs_written_refl|]. intros _ [= <-].
    unfold group_of, needs_repair in *.
    destruct (m !! group) as [[ | | | | |gm']|] eqn:Hm; simplify_eq.
    destruct (gm !! item) as [v|] eqn:Hi; [|done].
    split; [|done]. eapply entry_ok_intro; [done..|].
    apply py_type_eqb_eq. by destruct (py_type_eqb (type v) (type dflt)).
Qed.

Lemma bind_ret_r {A} (c : M A) w : bind c ret w = c w.
Proof. unfold bind, ret. by destruct (c w) as [w' [a|e]]. Qed.

Lemma bind_ext {A B} (c : M A) (k k' : A → M B) w :
  (∀ a w', k a w' = k' a w') → bind c k w = bind c k' w.
Proof. intros Hk. unfold bind. destruct (c w) as [w' [a|e]]; auto. Qed.

Lemma validate_defaults_for_in data w :
  validate_defaults data w = for_in DefaultEntries validate_entry data w.
Proof.
  unfold validate_defaults, DefaultEntries, for_in, validate_entry. simpl.
  do 5 (apply bind_ext; intros ? ?). by rewrite bind_ret_r.
Qed.

Lemma DefaultEntries_sound : Forall entry_sound DefaultEntries.
Proof. repeat constructor; done. Qed.

Lemma DefaultEntries_NoDup : NoDup (entry_key <$> DefaultEntries).
Proof. apply (bool_decide_unpack _). by vm_compute. Qed.

Lemma for_in_validate_spec l data w :
  Forall entry_sound l → NoDup (entry_key <$> l) →
  wp (for_in l validate_entry data)
     (λ w' r,
        prefs_written w w' ∧
        ∀ data', r = Ret data' →
          Forall (λ e, entry_ok e.1.1.1 e.1.1.2 e.1.2 data') l ∧
          ∀ g i t, entry_ok g i t data → g ≠ "config_version" →
                   (g, i) ∉ entry_key <$> l → entry_ok g i t data')
     w.
Proof.
  intros Hs. revert data w. induction Hs as [|e l [Hg Hty] Hs IH];
    intros data w Hnd.
  - simpl. apply wp_ret. split; [apply prefs_written_refl|].
    intros ? [= <-]. by split.
  - simpl. apply NoDup_cons in Hnd as [Hin Hnd]. apply wp_bind.
    eapply wp_mono; [by apply (_validate_spec _ _ _ _ data w Hg Hty)|].
    intros w1 [data1|e1] [Hw1 H1]; [|by split].
    destruct (H1 _ eq_refl) as [He Hpres].
    eapply wp_mono; [by apply IH|]. simpl.
    intros w2 r [Hw2 H2]. split; [by eapply prefs_written_trans|].
    intros data2 ->. destruct (H2 _ eq_refl) as [Hl Hpres2]. split.
    + constructor; [|done]. apply Hpres2; [done..|]. apply Hin.
    + intros g i t Hok Hgc Hni. apply not_elem_of_cons in Hni as [Hne Hni].
      apply Hpres2; [|done..]. by apply Hpres.
Qed.

Lemma validate_defaults_spec data w :
  wp (validate_defaults data)
     (λ w' r, prefs_written w w' ∧ ∀ data', r = Ret data' → validated data') w.
Proof.
  unfold wp. rewrite validate_defaults_for_in.
  pose proof (for_in_validate_spec DefaultEntries data w
                DefaultEntries_sound DefaultEntries_NoDup) as [Hw H].
  split; [done|]. intros data' Hr. by apply H.
Qed.

Lemma for_in_validate_noop l data w :
  Forall entry_sound l →
  Forall (λ e, entry_ok e.1.1.1 e.1.1.2 e.1.2 data) l →
  for_in l validate_entry data w = (w, Ret data).
Proof.
  induction 1 as [|e l [Hg Hty] Hs IH]; intros Hok; [done|].
  apply Forall_cons in Hok as [He Hok]. simpl. unfold bind, validate_entry.
  rewrite _validate_noop by done. by apply IH.
Qed.

Lemma validate_defaults_noop data w :
  validated data → validate_defaults data w = (w, Ret data).
Proof.
  intros Hv. rewrite validate_defaults_for_in.
  by apply for_in_validate_noop; [apply DefaultEntries_sound|].
Qed.

Lemma _validate_total group item ty dflt m gm w :
  group ≠ "config_version" → type dflt = ty →
  creatable preferences w → group_of m group = Ret gm →
  ∃ w' m', _validate group item ty dflt (JDict m) w = (w', Ret (JDict m')) ∧
           creatable preferences w' ∧
           ∀ g x, g ≠ "config_version" → group_of m g = Ret x →
                  ∃ x', group_of m' g = Ret x'.
Proof.
  intros Hg Hty Hc Hgm. rewrite _validate_eq by done. rewrite Hgm.
  destruct (needs_repair gm item ty); [|by eauto 10].
  unfold bind, ret. rewrite save_file_preferences_dict.
  assert (Hgroups : ∀ g x, g ≠ "config_version" → group_of m g = Ret x →
            ∃ x', group_of (<["config_version":=JInt version]>
                     (<[group:=JDict (<[item:=dflt]> gm)]> m)) g = Ret x').
  { intros g x Hgc Hx. unfold group_of. rewrite lookup_insert_ne by done.
    destruct (decide (g = group)) as [->|Hne].
    - rewrite lookup_insert_eq. eauto.
    - rewrite lookup_insert_ne by done. eauto. }
  assert (Hcr : ∀ x, creatable preferences
                       (with_files w (<[preferences := x]> (files w)))).
  { intros x. left. simpl. rewrite lookup_insert_eq. eauto. }
  destruct (files w !! preferences) as [f|] eqn:Hf.
  - destruct (w_ok f); simpl; eauto 10.
  - destruct Hc as [[? Hc]|Hc]; [congruence|]. rewrite Hc. simpl. eauto 10.
Qed.

Lemma for_in_validate_total l m w :
  Forall entry_sound l → creatable preferences w →
  Forall (λ e, ∃ gm, group_of m e.1.1.1 = Ret gm) l →
  ∃ w' data', for_in l validate_entry (JDict m) w = (w', Ret data').
Proof.
  intros Hs. revert m w. induction Hs as [|e l [Hg Hty] Hs IH];
    intros m w Hc Hgr; [by eexists _, _|].
  apply Forall_cons in Hgr as [[gm Hgm] Hgr]. simpl.
  destruct (_validate_total _ e.1.1.2 _ _ _ _ _ Hg Hty Hc Hgm)
    as (w1 & m1 & Heq & Hc1 & Hpres).
  unfold bind, validate_entry. rewrite Heq. apply IH; [done|].
  clear -Hs Hgr Hpres. induction Hs as [|e' l' [Hg' _] Hs IH]; [done|].
  apply Forall_cons in Hgr as [[x Hx] Hgr].
  constructor; [by eapply Hpres|by apply IH].
Qed.

Lemma validate_defaults_total data w :
  well_grouped data → creatable preferences w →
  ∃ w' data', validate_defaults data w = (w', Ret data').
Proof.
  intros (m & -> & Hm) Hc.
  destruct (for_in_validate_total DefaultEntries m w DefaultEntries_sound Hc Hm)
    as (w' & data' & Heq).
  exists w', data'. by rewrite validate_defaults_for_in.
Qed.

Lemma _validate_persisted group item ty dflt data w :
  group ≠ "config_version" → type dflt = ty →
  wp (_validate group item ty dflt data) (persisted w data) w.
Proof.
  intros Hg Hty. unfold wp, persisted. rewrite _validate_eq by done.
  destruct data as [ | | | | |m]; try by right.
  destruct (group_of m group) as [gm|e]; [|by right].
  destruct (needs_repair gm item ty); [|by left].
  right. unfold can_write, bind, ret. rewrite save_file_preferences_dict.
  destruct (files w !! preferences) as [f|].
  - intros ->. simpl. intros ? [= <-]. by rewrite lookup_insert_eq.
  - intros ->. simpl. intros ? [= <-]. by rewrite lookup_insert_eq.
Qed.

Lemma for_in_validate_persisted l data w :
  Forall entry_sound l →
  wp (for_in l validate_entry data) (persisted w data) w.
Proof.
  intros Hs. revert data w. induction Hs as [|e l [Hg Hty] Hs IH]; intros data w.
  - by left.
  - simpl. apply wp_bind.
    pose proof (_validate_persisted _ e.1.1.2 _ _ data w Hg Hty) as H1.
    pose proof (_validate_spec _ e.1.1.2 _ _ data w Hg Hty) as H1'.
    change (_validate e.1.1.1 e.1.1.2 e.1.2 e.2 data)
      with (validate_entry data e) in H1, H1'.
    unfold wp in *.
    destruct (validate_entry data e w) as [w1 [data1|e1]]; simpl in *;
      [|by right].
    specialize (IH data1 w1). destruct H1' as [Hw1 _].
    destruct (for_in l validate_entry data1 w1) as [w2 r2]; simpl in *.
    destruct IH as [[-> ->]|IH]; [done|]. right. intros Hc. apply IH.
    by eapply prefs_written_can_write.
Qed.

Lemma validate_defaults_persisted data w :
  wp (validate_defaults data) (persisted w data) w.
Proof.
  unfold wp. rewrite validate_defaults_for_in.
  apply for_in_validate_persisted, DefaultEntries_sound.
Qed.

Lemma for_in_validate_skip l1 l2 data w :
  Forall entry_sound l1 →
  Forall (λ e, entry_ok e.1.1.1 e.1.1.2 e.1.2 data) l1 →
  for_in (l1 ++ l2) validate_entry data w = for_in l2 validate_entry data w.
Proof.
  induction 1 as [|e l [Hg Hty] Hs IH]; intros Hok; [done|].
  apply Forall_cons in Hok as [He Hok]. simpl. unfold bind, validate_entry.
  rewrite _validate_noop by done. by apply IH.
Qed.

(** ** [init_config] and [load_file] *)

(** *** Validation in closed form *)

Lemma _validate_exact e m w w' data' :
  entry_sound e →
  validate_entry (JDict m) e w = (w', Ret data') →
  data' = JDict (repaired m e).
Proof.
  destruct e as [[[g i] ty] dflt]. intros [Hg Hty]. simpl in *.
  unfold validate_entry, repaired. simpl. rewrite _validate_eq by done.
  destruct (group_of m g) as [gm|e]; [|done].
  destruct (needs_repair gm i ty); [|by intros [= <- <-]].
  unfold bind. rewrite save_file_preferences_dict. simpl.
  destruct (files w !! preferences) as [f|].
  - destruct (w_ok f); by intros [= <- <-].
  - destruct (dir_w w); by intros [= <- <-].
Qed.

Lemma for_in_validate_exact l m w w' data' :
  Forall entry_sound l →
  for_in l validate_entry (JDict m) w = (w', Ret data') →
  data' = JDict (foldl repaired m l).
Proof.
  intros Hl. revert m w. induction Hl as [|e l He Hl IH]; intros m w Hrun.
  - simpl in Hrun. unfold ret in Hrun. by simplify_eq.
  - simpl in Hrun. unfold bind in Hrun.
    destruct (validate_entry (JDict m) e w) as [w1 [data1|err]] eqn:H1; [|done].
    apply _validate_exact in H1 as ->; [|done]. simpl. by eapply IH.
Qed.

Lemma validate_defaults_exact m w w' data' :
  validate_defaults (JDict m) w = (w', Ret data') →
  data' = JDict (with_defaults m).
Proof.
  rewrite validate_defaults_for_in.
  apply for_in_validate_exact, DefaultEntries_sound.
Qed.

Lemma with_defaults_empty : with_defaults ∅ = demo_defaults.
Proof. vm_compute. reflexivity. Qed.

Lemma demo_defaults_version :
  demo_defaults !! "config_version" = Some (JInt 7).
Proof. vm_compute. reflexivity. Qed.

(** *** Validation next to a file that cannot be written *)

Lemma _validate_read_only group item ty dflt data w f :
  group ≠ "config_version" → type dflt = ty →
  files w !! preferences = Some f → w_ok f = false →
  (_validate group item ty dflt data w).1 = w.
Proof.
  intros Hg Hd Hf Hok. rewrite _validate_eq by done.
  destruct data as [| | | | |m]; try done.
  destruct (group_of m group) as [gm|e]; [|done].
  destruct (needs_repair gm item ty); [|done].
  unfold bind. rewrite save_file_preferences_dict. simpl. by rewrite Hf, Hok.
Qed.

Lemma for_in_validate_read_only l data w f :
  Forall entry_sound l →
  files w !! preferences = Some f → w_ok f = false →
  (for_in l validate_entry data w).1 = w.
Proof.
  intros Hl Hf Hok. revert data.
  induction Hl as [|e l [He1 He2] Hl IH]; intros data; [done|].
  simpl. unfold bind.
  pose proof (_validate_read_only e.1.1.1 e.1.1.2 e.1.2 e.2 data w f
                He1 He2 Hf Hok) as H1.
  change (_validate e.1.1.1 e.1.1.2 e.1.2 e.2 data) with (validate_entry data e)
    in H1.
  destruct (validate_entry data e w) as [w1 [data1|err]]; simpl in H1; subst w1;
    [apply IH|done].
Qed.

Lemma validate_defaults_read_only data w f :
  files w !! preferences = Some f → w_ok f = false →
  (validate_defaults data w).1 = w.
Proof.
  intros Hf Hok. rewrite validate_defaults_for_in.
  by eapply for_in_validate_read_only; [apply DefaultEntries_sound|..].
Qed.

(** *** [init_config] and [load_file] *)

Lemma init_config_spec filepath w :
  wp (init_config filepath)
     (λ w' r, r = Ret tt ∧ dir_w w' = dir_w w ∧
              files w' = init_files filepath w) w.
Proof.
  assert (Hst : stamped filepath (JDict ∅) = Ret (fresh_document filepath)).
  { unfold stamped, fresh_document. by case_bool_decide. }
  unfold wp, init_files, init_config, try_except_all, bind, os_path_exists,
    dbg_stdout, os_rename, ret.
  destruct (files w !! filepath) as [f|] eqn:Hf; simpl; rewrite ?Hf; simpl.
  - destruct (dir_w w) eqn:Hd; simpl; [|done].
    rewrite save_file_eq, Hst. simpl.
    rewrite lookup_insert_ne by apply bak_ne. by rewrite lookup_delete_eq.
  - rewrite save_file_eq, Hst. simpl. rewrite Hf.
    destruct (dir_w w) eqn:Hd; simpl; by rewrite ?Hd.
Qed.

Lemma load_file_json filepath w f j :
  files w !! filepath = Some f → data_of f = Json j →
  load_file filepath w =
  if bool_decide (filepath = preferences)
  then validate_defaults j w
  else (w, Ret j).
Proof.
  intros Hf Hj.
  unfold load_file, bind at 1, bind at 1, os_path_exists, try_except_all, json_load.
  simpl. rewrite Hf. simpl. rewrite Hf, Hj. by case_bool_decide.
Qed.

Lemma load_file_init filepath w :
  unreadable filepath w →
  ∃ w1, dir_w w1 = dir_w w ∧ files w1 = init_files filepath w ∧
        load_file filepath w =
        if bool_decide (filepath = preferences)
        then validate_defaults (JDict ∅) w1
        else (w1, Ret (JDict ∅)).
Proof.
  intros Hu. unfold unreadable in Hu.
  unfold load_file, bind at 1, bind at 1, os_path_exists, try_except_all, json_load.
  simpl. destruct (files w !! filepath) as [f|] eqn:Hf; simpl; rewrite ?Hf.
  - destruct Hu as [raw Hraw]. rewrite Hraw. simpl.
    unfold bind, dbg_stdout. simpl.
    match goal with |- context [init_config filepath ?w0] =>
      pose proof (init_config_spec filepath w0) as Hi; unfold wp in Hi;
      destruct (init_config filepath w0) as [w1 r] end.
    simpl in Hi. destruct Hi as (-> & Hd & Hfiles).
    exists w1. unfold init_files in *. simpl in *. rewrite Hf in *.
    split_and!; [done..|]. unfold ret. by case_bool_decide.
  - unfold bind at 1.
    pose proof (init_config_spec filepath w) as Hi. unfold wp in Hi.
    destruct (init_config filepath w) as [w1 r].
    simpl in Hi. destruct Hi as (-> & Hd & Hfiles).
    exists w1. split_and!; [done..|]. unfold ret. by case_bool_decide.
Qed.

Lemma readable_or_not filepath w :
  unreadable filepath w ∨
  ∃ f j, files w !! filepath = Some f ∧ data_of f = Json j.
Proof.
  unfold unreadable. destruct (files w !! filepath) as [[[raw|j] ok]|]; eauto.
Qed.

Lemma init_files_lookup_ne filepath w q :
  q ≠ filepath → q ≠ filepath +:+ ".bak" →
  init_files filepath w !! q = files w !! q.
Proof.
  intros H1 H2. unfold init_files. destruct (dir_w w); [|done].
  rewrite lookup_insert_ne by done.
  destruct (files w !! filepath); [|done].
  rewrite lookup_insert_ne by done. by rewrite lookup_delete_ne.
Qed.

Lemma load_file_frame filepath w :
  wp (load_file filepath)
     (λ w' _, dir_w w' = dir_w w ∧
              ∀ q, q ≠ filepath → q ≠ filepath +:+ ".bak" →
                   files w' !! q = files w !! q) w.
Proof.
  unfold wp.
  destruct (readable_or_not filepath w) as [Hu|(f & j & Hf & Hj)].
  - destruct (load_file_init _ _ Hu) as (w1 & Hd & Hfiles & ->).
    case_bool_decide as Hp; simpl.
    + destruct (validate_defaults_spec (JDict ∅) w1) as [[Hd' Hw] _].
      split; [congruence|]. intros q Hq Hb.
      rewrite (prefs_written_frame w1) by (done || congruence).
      rewrite Hfiles. by apply init_files_lookup_ne.
    + split; [done|]. intros q Hq Hb. rewrite Hfiles.
      by apply init_files_lookup_ne.
  - rewrite (load_file_json _ _ _ _ Hf Hj). case_bool_decide as Hp; [|done].
    destruct (validate_defaults_spec j w) as [[Hd' Hw] _].
    split; [done|]. intros q Hq Hb.
    by rewrite (prefs_written_frame w) by (done || congruence).
Qed.

Lemma init_files_can_write filepath w w1 :
  dir_w w1 = dir_w w → files w1 = init_files filepath w →
  can_write filepath w → can_write filepath w1.
Proof.
  unfold can_write, init_files. intros Hd ->.
  destruct (dir_w w) eqn:Hdw; [|by rewrite Hd].
  by rewrite lookup_insert_eq.
Qed.

Lemma init_files_creatable filepath w w1 :
  dir_w w1 = dir_w w → files w1 = init_files filepath w →
  creatable filepath w → creatable filepath w1.
Proof.
  unfold creatable, init_files. intros Hd ->.
  destruct (dir_w w) eqn:Hdw; [|by rewrite Hd].
  rewrite lookup_insert_eq. eauto.
Qed.

Lemma load_file_preferences_spec w :
  wp (load_file preferences)
     (λ w' r, dir_w w' = dir_w w ∧
              (can_write preferences w → can_write preferences w') ∧
              ∀ data, r = Ret data → validated data) w.
Proof.
  unfold wp.
  destruct (readable_or_not preferences w) as [Hu|(f & j & Hf & Hj)].
  - destruct (load_file_init _ _ Hu) as (w1 & Hd & Hfiles & ->).
    rewrite bool_decide_eq_true_2 by done.
    destruct (validate_defaults_spec (JDict ∅) w1) as [Hw Hv].
    split_and!; [destruct Hw; congruence| |done].
    intros Hc. eapply prefs_written_can_write; [done|].
    by eapply init_files_can_write.
  - rewrite (load_file_json _ _ _ _ Hf Hj), bool_decide_eq_true_2 by done.
    destruct (validate_defaults_spec j w) as [Hw Hv].
    split_and!; [by destruct Hw| |done].
    by apply prefs_written_can_write.
Qed.

Lemma well_grouped_empty : well_grouped (JDict ∅).
Proof.
  exists ∅. split; [done|]. apply Forall_forall. intros e _. by exists ∅.
Qed.

Lemma load_file_preferences_total w :
  creatable preferences w → preferences_well_formed w →
  ∃ w' data, load_file preferences w = (w', Ret data).
Proof.
  intros Hc Hwf.
  destruct (readable_or_not preferences w) as [Hu|(f & j & Hf & Hj)].
  - destruct (load_file_init _ _ Hu) as (w1 & Hd & Hfiles & ->).
    rewrite bool_decide_eq_true_2 by done.
    apply validate_defaults_total; [apply well_grouped_empty|].
    by eapply init_files_creatable.
  - rewrite (load_file_json _ _ _ _ Hf Hj), bool_decide_eq_true_2 by done.
    apply validate_defaults_total; [by eapply Hwf|done].
Qed.

(** ** What the specification says of loading, saving and the accessors *)

(** C6. [get(group, key, default)] never uses [default]: any two defaults
    give the same run.  It returns [document[group][key]] of the document
    that [load_file] returned, and raises [KeyError] when the group, or
    the key inside the group, is absent from it. *)
Theorem get_never_applies_default group item filepath w :
  (∀ d1 d2, get group item d1 filepath w = get group item d2 filepath w) ∧
  (∀ d w' data,
     load_file (default preferences filepath) w = (w', Ret data) →
     get group item d filepath w = (w', py_getitem2 data group item)) ∧
  (∀ d w' m,
     load_file (default preferences filepath) w = (w', Ret (JDict m)) →
     m !! group = None ∨
       (∃ gm, m !! group = Some (JDict gm) ∧ gm !! item = None) →
     get group item d filepath w = (w', Raise KeyError)).
Proof.
  split_and!.
  - done.
  - intros d w' data Hl. unfold get, bind. rewrite Hl. unfold lift, ret.
    by destruct (py_getitem2 data group item).
  - intros d w' m Hl Habs. unfold get, bind. rewrite Hl.
    unfold lift, py_getitem2, py_getitem.
    destruct Habs as [->|(gm & -> & ->)]; done.
Qed.

(** C9. [save_file] on the preferences path mutates the dictionary it was
    handed: when the call returns, the argument holds [config_version = 7]
    in place of whatever was there (and the call does return when the file
    exists or can be created); on any other path the argument comes back
    as it went in. *)
Theorem save_file_mutates_its_argument m w :
  (creatable preferences w →
   ∃ w' b, save_file preferences (JDict m) w =
           (w', Ret (JDict (<["config_version" := JInt 7]> m), b))) ∧
  (∀ w' r, save_file preferences (JDict m) w = (w', Ret r) →
           r.1 = JDict (<["config_version" := JInt 7]> m)) ∧
  (∀ filepath newdata w' r,
     filepath ≠ preferences →
     save_file filepath newdata w = (w', Ret r) → r.1 = newdata).
Proof.
  split_and!.
  - intros Hc. rewrite save_file_preferences_dict. simpl.
    destruct (files w !! preferences) as [f|] eqn:Hf.
    + destruct (w_ok f); eauto.
    + destruct Hc as [[? Hc]|Hc]; [congruence|]. rewrite Hc. eauto.
  - intros w' r. rewrite save_file_preferences_dict. simpl.
    destruct (files w !! preferences) as [f|];
      [destruct (w_ok f)|destruct (dir_w w)]; by intros [= <- <-].
  - intros filepath newdata w' r Hne. rewrite save_file_other by done.
    destruct (files w !! filepath) as [f|];
      [destruct (w_ok f)|destruct (dir_w w)]; by intros [= <- <-].
Qed.

(** [save_file] on a file that is there and not writable: it returns
    [False] and writes nothing. *)
Lemma save_file_read_only filepath newdata nd f w :
  files w !! filepath = Some f → w_ok f = false →
  stamped filepath newdata = Ret nd →
  save_file filepath newdata w = (w, Ret (nd, false)).
Proof. intros Hf Hw Hst. by rewrite save_file_eq, Hst, Hf, Hw. Qed.

(** [save_file] on a file that is missing from a directory that is not
    writable: the [open(filepath, "w")] that creates the file raises. *)
Lemma save_file_cannot_create filepath newdata nd w :
  files w !! filepath = None → dir_w w = false →
  stamped filepath newdata = Ret nd →
  save_file filepath newdata w = (w, Raise OSError).
Proof. intros Hf Hw Hst. by rewrite save_file_eq, Hst, Hf, Hw. Qed.

(** C3. When the preferences document carries an integer [config_version]
    greater than 7, a pass of [upgrade_old_pref] is the five [dbg.stdout]
    calls of the warning and nothing else; it returns, and every file,
    and the directory, is as it was: nothing is written, renamed or
    deleted. *)
Theorem upgrade_old_pref_newer_version w f m v :
  files w !! preferences = Some f →
  data_of f = Json (JDict m) →
  m !! "config_version" = Some (JInt v) →
  v > 7 →
  upgrade_old_pref w = upgrade_warn_newer v w ∧
  ∃ w', upgrade_old_pref w = (w', Ret tt) ∧
        files w' = files w ∧ dir_w w' = dir_w w ∧
        stdout w' = (stdout w ++
          [ (dbg_error, Msg "\nWARNING: Your preferences file is newer then the application!");
            (dbg_error, Msg "It's likely you're running an older version. This is unsupported.");
            (dbg_error, MsgVersion "     Current Config Version:   v." v);
            (dbg_error, MsgVersion "     Installed Config Version: v." 7);
            (dbg_plain, Msg "") ])%list.
Proof.
  intros Hf Hj Hm Hv.
  assert (Hrun : upgrade_old_pref w = upgrade_warn_newer v w).
  { unfold upgrade_old_pref, bind at 1, try_except_all, bind at 1, json_load.
    rewrite Hf, Hj. unfold bind at 1, lift at 1. simpl. rewrite Hm.
    unfold bind at 1, lift at 1. simpl. unfold ret at 1.
    rewrite bool_decide_eq_false_2 by (unfold version; lia).
    by rewrite bool_decide_eq_true_2 by (unfold version; lia). }
  split; [done|]. rewrite Hrun.
  unfold upgrade_warn_newer, bind, dbg_stdout. simpl.
  eexists. split; [done|]. simpl. by rewrite <- !app_assoc.
Qed.

(** C8. Validation is idempotent.  On a mapping whose default groups are
    mappings (with a preferences file that exists or can be created) the
    six [_validate] calls return a document; and whenever they return a
    document, it has every default entry with its type, and running them
    again on it, in any world, returns the same document and leaves the
    world as it is (so nothing is saved). *)
Theorem validate_defaults_idempotent data w :
  (well_grouped data → creatable preferences w →
   ∃ w' data', validate_defaults data w = (w', Ret data')) ∧
  (∀ w' data', validate_defaults data w = (w', Ret data') →
     validated data' ∧
     ∀ w2, validate_defaults data' w2 = (w2, Ret data')).
Proof.
  split; [apply validate_defaults_total|].
  intros w' data' Heq.
  pose proof (validate_defaults_spec data w) as Hs.
  eapply wp_elim in Hs; [|done]. destruct Hs as [_ Hv].
  split; [by apply Hv|]. intros w2. apply validate_defaults_noop. by apply Hv.
Qed.

Ltac in_defaults :=
  unfold DefaultEntries;
  repeat first [apply list_elem_of_here | apply list_elem_of_further].

(** C10 (as amended). When the preferences file exists or can be created
    and, if it parses, holds a mapping whose default groups are mappings,
    [load_file] on the preferences path returns; and whenever it returns,
    the document has all six default entries with values of their types,
    so that [exists] answers [True] and [get] returns a value of the
    expected type for each of the six. *)
Theorem load_file_preferences_defaults w :
  (creatable preferences w → preferences_well_formed w →
   ∃ w' data, load_file preferences w = (w', Ret data)) ∧
  (∀ w' data,
     load_file preferences w = (w', Ret data) →
     validated data ∧
     ∀ group item ty dflt,
       (group, item, ty, dflt) ∈ DefaultEntries →
       exists_ group item None w = (w', Ret true) ∧
       ∃ v, type v = ty ∧ ∀ d, get group item d None w = (w', Ret v)).
Proof.
  split; [apply load_file_preferences_total|].
  intros w' data Hl.
  pose proof (load_file_preferences_spec w) as Hs.
  eapply wp_elim in Hs; [|done]. destruct Hs as (_ & _ & Hv).
  specialize (Hv _ eq_refl). split; [done|].
  intros group item ty dflt Hin.
  unfold validated in Hv. rewrite Forall_forall in Hv.
  destruct (Hv _ Hin) as (v & Hget & Hty). simpl in *. split.
  - unfold exists_, bind, try_except_all, lift. simpl. by rewrite Hl, Hget.
  - exists v. split; [done|]. intros d.
    unfold get, bind, lift. simpl. by rewrite Hl, Hget.
Qed.

(** C4 (as amended). On a file that does not parse, [load_file] always
    returns a document, never the parse error: the empty document for a
    path other than the preferences path, the default document (the six
    default values and [config_version = 7]) for the preferences path.
    For a path other than the preferences path, in a writable directory,
    the old file is at the path with [.bak] appended and the path holds
    the serialised empty document.  For the preferences path, in a
    writable directory, the old file is backed up the same way, and the
    path holds the default document. *)
Theorem load_file_corrupt filepath w f raw :
  files w !! filepath = Some f → data_of f = Raw raw →
  (∃ w', load_file filepath w
         = (w', Ret (if bool_decide (filepath = preferences)
                     then JDict demo_defaults else JDict ∅))) ∧
  (filepath ≠ preferences → dir_w w = true →
   ∃ w', load_file filepath w = (w', Ret (JDict ∅)) ∧
         files w' !! (filepath +:+ ".bak") = Some f ∧
         files w' !! filepath = Some (File (Json (JDict ∅)) true)) ∧
  (filepath = preferences → dir_w w = true →
   ∃ w', load_file filepath w = (w', Ret (JDict demo_defaults)) ∧
         validated (JDict demo_defaults) ∧
         demo_defaults !! "config_version" = Some (JInt 7) ∧
         files w' !! (filepath +:+ ".bak") = Some f ∧
         files w' !! filepath = Some (File (Json (JDict demo_defaults)) true)).
Proof.
  intros Hf Hraw.
  assert (Hu : unreadable filepath w).
  { unfold unreadable. rewrite Hf. eauto. }
  destruct (load_file_init _ _ Hu) as (w1 & Hd & Hfiles & Heq).
  assert (Hbak : dir_w w = true →
            files w1 !! (filepath +:+ ".bak") = Some f ∧
            files w1 !! filepath =
              Some (File (Json (fresh_document filepath)) true)).
  { intros Hdw. rewrite Hfiles. unfold init_files. rewrite Hdw, Hf.
    rewrite lookup_insert_eq. rewrite lookup_insert_ne by (symmetry; apply bak_ne).
    by rewrite lookup_insert_eq. }
  assert (Hc1 : creatable filepath w1).
  { eapply init_files_creatable; [done..|]. left. eauto. }
  assert (Hdefaults : filepath = preferences →
            ∃ w', validate_defaults (JDict ∅) w1
                  = (w', Ret (JDict demo_defaults))).
  { intros ->.
    destruct (validate_defaults_total (JDict ∅) w1 well_grouped_empty Hc1)
      as (w' & data & Hv).
    pose proof (validate_defaults_exact _ _ _ _ Hv) as ->.
    rewrite with_defaults_empty in Hv. eauto. }
  rewrite Heq. split_and!.
  - case_bool_decide as Hp; [|by eauto]. by apply Hdefaults.
  - intros Hp Hdw. rewrite bool_decide_eq_false_2 by done.
    destruct (Hbak Hdw) as [Hb Hnew]. exists w1. split_and!; [done..|].
    rewrite Hnew. unfold fresh_document.
    by rewrite bool_decide_eq_false_2 by done.
  - intros Hp Hdw. destruct (Hdefaults Hp) as (w' & Hv). subst filepath.
    rewrite bool_decide_eq_true_2 by done.
    destruct (Hbak Hdw) as [Hb Hnew].
    pose proof (validate_defaults_spec (JDict ∅) w1) as Hs.
    pose proof (validate_defaults_persisted (JDict ∅) w1) as Hp.
    eapply wp_elim in Hs; [|exact Hv]. eapply wp_elim in Hp; [|exact Hv].
    destruct Hs as [Hw Hval]. specialize (Hval _ eq_refl).
    exists w'. split_and!; [exact Hv|exact Hval| | |].
    + apply demo_defaults_version.
    + rewrite (prefs_written_frame w1) by (done || apply bak_ne). exact Hb.
    + destruct Hp as [[_ [=]]|Hp].
      apply Hp; [|reflexivity]. unfold can_write. by rewrite Hnew.
Qed.

Lemma get_preferences_type group item ty dflt d w w' v :
  (group, item, ty, dflt) ∈ DefaultEntries →
  get group item d None w = (w', Ret v) → type v = ty.
Proof.
  intros Hin Hget. unfold get, bind in Hget. simpl in Hget.
  pose proof (load_file_preferences_spec w) as Hs. unfold wp in Hs.
  destruct (load_file preferences w) as [w1 [data|e]]; [|done].
  simpl in Hs. destruct Hs as (_ & _ & Hv). specialize (Hv _ eq_refl).
  unfold validated in Hv. rewrite Forall_forall in Hv.
  destruct (Hv _ Hin) as (v' & Hv' & Hty). simpl in *.
  unfold lift, ret in Hget. rewrite Hv' in Hget. by simplify_eq.
Qed.

(** C1 (as amended). [set("tray", "icon", "true")] followed by
    [get("tray", "icon")] never returns the boolean: whatever [get]
    returns for [tray.icon] is a string.  When the preferences file can be
    written and is well formed, [set] stores the boolean [true] in the
    file, and [get] then returns the default icon path, because the load
    inside [get] repairs the entry whose type is not [str]. *)
Theorem set_true_then_get_tray_icon w :
  (∀ d w' v,
     (set "tray" "icon" (JStr "true") None ;;; get "tray" "icon" d None) w
       = (w', Ret v) →
     type v = str) ∧
  (can_write preferences w → preferences_well_formed w →
   ∀ d, ∃ w1 w2 m tm,
     set "tray" "icon" (JStr "true") None w = (w1, Ret tt) ∧
     files w1 !! preferences = Some (File (Json (JDict m)) true) ∧
     m !! "tray" = Some (JDict tm) ∧ tm !! "icon" = Some (JBool true) ∧
     get "tray" "icon" d None w1 = (w2, Ret tray_icon_default)).
Proof.
  split.
  - intros d w' v Hrun. unfold bind in Hrun.
    destruct (set "tray" "icon" (JStr "true") None w) as [w1 [[]|e]]; [|done].
    eapply get_preferences_type; [|done]. in_defaults.
  - intros Hc Hwf d.
    (* [set] loads a validated document and can write it back *)
    destruct (load_file_preferences_total w) as (w0 & data & Hl);
      [unfold can_write, creatable in *;
       destruct (files w !! preferences); eauto|done|].
    pose proof (load_file_preferences_spec w) as Hs.
    eapply wp_elim in Hs; [|done]. destruct Hs as (_ & Hc0 & Hv).
    specialize (Hc0 Hc). specialize (Hv _ eq_refl).
    assert (Hv' := Hv). unfold validated in Hv'. rewrite Forall_forall in Hv'.
    assert (Hin : ("tray", "icon", str, tray_icon_default) ∈ DefaultEntries)
      by in_defaults.
    apply Hv', entry_ok_inv in Hin as (m & tm & v0 & -> & Hm & Hi & Hty).
    simpl in *.
    set (tm' := <["icon" := JBool true]> tm).
    set (m' := <["config_version" := JInt version]> (<["tray" := JDict tm']> m)).
    assert (Hset : ∃ w1, set "tray" "icon" (JStr "true") None w = (w1, Ret tt) ∧
              files w1 !! preferences = Some (File (Json (JDict m')) true) ∧
              dir_w w1 = dir_w w0).
    { unfold set, bind at 1. simpl. rewrite Hl.
      unfold bind, try_except_all, lift, ret, py_getitem, py_setitem2, py_setitem.
      simpl. rewrite Hm. simpl. rewrite Hm. rewrite save_file_preferences_dict.
      unfold can_write in Hc0.
      destruct (files w0 !! preferences) as [f0|].
      - rewrite Hc0. simpl. eexists. split; [done|]. simpl.
        by rewrite lookup_insert_eq.
      - rewrite Hc0. simpl. eexists. split; [done|]. simpl.
        by rewrite lookup_insert_eq. }
    destruct Hset as (w1 & Hset & Hf1 & Hd1).
    (* [get] reads it back and repairs the one entry of the wrong type *)
    assert (Hok : Forall (λ e, entry_ok e.1.1.1 e.1.1.2 e.1.2 (JDict m'))
                    (take 5 DefaultEntries)).
    { apply Forall_forall. intros e He.
      assert (He' : e ∈ DefaultEntries).
      { simpl in He. rewrite !elem_of_cons, elem_of_nil in He.
        destruct He as [->|[->|[->|[->|[->|[]]]]]]; in_defaults. }
      apply Hv', entry_ok_inv in He' as (? & gm & v & [= <-] & Hg & Hi' & Hty').
      simpl in He. rewrite !elem_of_cons, elem_of_nil in He.
      destruct He as [->|[->|[->|[->|[->|[]]]]]]; simpl in *;
        try (eapply entry_ok_intro; [|done..]; subst m';
             by rewrite !lookup_insert_ne by done).
      rewrite Hm in Hg. simplify_eq.
      eapply entry_ok_intro; [subst m'; rewrite lookup_insert_ne by done;
                              apply lookup_insert_eq| |done].
      subst tm'. by rewrite lookup_insert_ne by done. }
    assert (Hget : ∃ w2, get "tray" "icon" d None w1 = (w2, Ret tray_icon_default)).
    { unfold get, bind at 1. simpl.
      rewrite (load_file_json _ _ _ _ Hf1 eq_refl), bool_decide_eq_true_2 by done.
      rewrite validate_defaults_for_in.
      change DefaultEntries with
        (take 5 DefaultEntries ++
         [("tray", "icon", str, tray_icon_default)])%list.
      rewrite for_in_validate_skip; [| |done].
      2:{ eapply Forall_take, DefaultEntries_sound. }
      simpl. unfold validate_entry. simpl. rewrite bind_ret_r.
      rewrite _validate_eq by done. unfold group_of, needs_repair.
      subst m'. rewrite lookup_insert_ne by done. rewrite lookup_insert_eq.
      subst tm'. rewrite lookup_insert_eq. simpl.
      unfold bind at 1. rewrite save_file_preferences_dict. rewrite Hf1. simpl.
      unfold ret, bind, lift, py_getitem2, py_getitem. simpl.
      rewrite lookup_insert_ne by done. rewrite lookup_insert_eq.
      rewrite lookup_insert_eq. eauto. }
    destruct Hget as (w2 & Hget).
    exists w1, w2, m', tm'. split_and!; try done.
    + subst m'. rewrite lookup_insert_ne by done. apply lookup_insert_eq.
    + subst tm'. apply lookup_insert_eq.
Qed.

(** ** The migration *)

Lemma for_in_pure {A S} (l : list A) (body : S → A → M S) s w :
  (∀ s x w, (body s x w).1 = w) → (for_in l body s w).1 = w.
Proof.
  intros Hb. revert s. induction l as [|x l IH]; intros s; [done|].
  simpl. unfold bind. specialize (Hb s x w).
  destruct (body s x w) as [w1 [s1|e]]; simpl in *; subst; [apply IH|done].
Qed.

Lemma convert_colour_pure old_colours new_colours uuid w :
  (convert_colour old_colours new_colours uuid w).1 = w.
Proof.
  unfold convert_colour, bind, lift, ret.
  destruct (py_getitem2 old_colours uuid "name"); [|done].
  destruct (py_getitem2 old_colours uuid "col"); [|done].
  by destruct (rgb_to_hex _).
Qed.

Lemma new_tray_value_of_pure old_data w : (new_tray_value_of old_data w).1 = w.
Proof.
  unfold new_tray_value_of, try_except, bind, lift, ret.
  destruct (py_getitem2 old_data "tray_icon" "type") as [t|e]; simpl;
    [|by destruct (exn_eqb e KeyError)].
  destruct (py_eqb t (JStr "gtk")).
  { destruct (py_getitem2 old_data "tray_icon" "value") as [x|e]; simpl;
      [|by destruct (exn_eqb e KeyError)].
    destruct (get_path_from_gtk_icon_name x) as [y|e]; simpl;
      [done|by destruct (exn_eqb e KeyError)]. }
  destruct (py_eqb t (JStr "custom")).
  { destruct (py_getitem2 old_data "tray_icon" "value") as [x|e]; simpl;
      [done|by destruct (exn_eqb e KeyError)]. }
  destruct (py_eqb t (JStr "builtin")); [|done].
  destruct (py_getitem2 old_data "tray_icon" "value") as [x|e]; simpl.
  - destruct (mapping_getitem x) as [y|e]; simpl; [done|].
    destruct (exn_eqb e KeyError); simpl; [done|].
    by destruct (exn_eqb e KeyError).
  - destruct (exn_eqb e KeyError) eqn:He; simpl; [done|]. by rewrite He.
Qed.

Lemma upgrade_colours_frame w :
  wp upgrade_colours
     (λ w' _, dir_w w' = dir_w w ∧
              files w' !! preferences = files w !! preferences) w.
Proof.
  unfold upgrade_colours. apply wp_bind.
  eapply wp_mono; [apply load_file_frame|].
  intros w1 [old_colours|e] [Hd Hframe]; simpl;
    (assert (Hp : files w1 !! preferences = files w !! preferences)
       by (apply Hframe; [apply not_eq_sym, colours_ne_preferences
                         |apply not_eq_sym, colours_bak_ne_preferences]));
    [|done].
  destruct (py_eqb old_colours old_colour_json).
  - unfold wp, os_remove. destruct (files w1 !! colours); [|done].
    destruct (dir_w w1) eqn:Hd1; simpl; [|by rewrite Hd1].
    split; [congruence|].
    rewrite lookup_delete_ne by apply colours_ne_preferences. done.
  - destruct (negb _); [|done]. apply wp_bind, wp_lift.
    destruct (sorted_keys old_colours) as [old_ids|e]; [|done].
    unfold wp, bind.
    pose proof (for_in_pure old_ids (convert_colour old_colours) [] w1
                  (convert_colour_pure old_colours)) as Hpure.
    destruct (for_in old_ids _ [] w1) as [w2 [new_colours|e]];
      simpl in *; subst w2; [|done].
    rewrite save_file_other by apply colours_ne_preferences.
    destruct (files w1 !! colours) as [fc|];
      [destruct (w_ok fc)|destruct (dir_w w1) eqn:Hd1]; simpl;
      rewrite ?lookup_insert_ne by apply colours_ne_preferences;
      split; congruence.
Qed.

Lemma wp_os_path_exists p (Q : world → outcome bool → Prop) w :
  Q w (Ret (bool_decide (is_Some (files w !! p)))) → wp (os_path_exists p) Q w.
Proof. done. Qed.

Lemma os_remove_frame p q w :
  q ≠ p →
  wp (os_remove p)
     (λ w' _, dir_w w' = dir_w w ∧ files w' !! q = files w !! q) w.
Proof.
  intros Hq. unfold wp, os_remove. destruct (files w !! p); [|done].
  destruct (dir_w w) eqn:Hd; simpl; [|by rewrite Hd].
  by rewrite lookup_delete_ne.
Qed.

Lemma upgrade_step_lt7_spec w :
  wp upgrade_step_lt7
     (λ w' r, r = Ret tt → dir_w w' = true ∧
              ∃ nd, files w' !! preferences = Some (File (Json nd) true)) w.
Proof.
  unfold upgrade_step_lt7. apply wp_bind.
  eapply wp_mono; [apply load_file_frame|].
  intros w1 [old_data|e] _; [|done]. apply wp_bind.
  pose proof (new_tray_value_of_pure old_data w1) as Hpure.
  unfold wp at 1. destruct (new_tray_value_of old_data w1) as [w2 [tray|e]];
    simpl in *; subst w2; [|done].
  apply wp_bind, wp_try_except, wp_lift.
  assert (Hgo : ∀ old_live_preview,
    wp (os_remove preferences ;;;
        save_file preferences
          (JDict {[ "colours" := JDict {[ "primary" := JStr "#00FF00";
                                          "secondary" := JStr "#00FFFF" ]};
                    "effects" := JDict {[ "live_preview" := old_live_preview ]};
                    "tray" := JDict {[ "force_legacy_gtk_status" := JBool false;
                                       "icon" := tray ]} ]}) ;;;
        present <- os_path_exists old_devicestate ;;
        (if present then os_remove old_devicestate else ret tt) ;;;
        upgrade_colours)
       (λ w' r, r = Ret tt → dir_w w' = true ∧
                ∃ nd, files w' !! preferences = Some (File (Json nd) true)) w1).
  { intros old_live_preview. apply wp_bind. unfold wp at 1, os_remove.
    destruct (files w1 !! preferences) as [f1|]; [|done].
    destruct (dir_w w1) eqn:Hd1; simpl; [|done].
    apply wp_bind. unfold wp at 1. rewrite save_file_preferences_dict.
    simpl. rewrite lookup_delete_eq, Hd1. simpl.
    match goal with |- wp _ _ ?w0 =>
      assert (H3 : dir_w w0 = true ∧
                ∃ nd, files w0 !! preferences = Some (File (Json nd) true));
      [simpl; split; [done|]; eexists; apply lookup_insert_eq|];
      revert H3; generalize w0 end.
    intros w3 [Hd3 [nd Hf3]].
    apply wp_bind, wp_os_path_exists, wp_bind.
    assert (Hrm : wp (if bool_decide (is_Some (files w3 !! old_devicestate))
                      then os_remove old_devicestate else ret tt)
                    (λ w' _, dir_w w' = dir_w w3 ∧
                             files w' !! preferences =
                               files w3 !! preferences) w3).
    { destruct (bool_decide _); [|done].
      apply os_remove_frame, not_eq_sym, old_devicestate_ne_preferences. }
    eapply wp_mono; [apply Hrm|]. intros w4 [[]|e] [Hd4 Hf4]; [|done].
    eapply wp_mono; [apply upgrade_colours_frame|].
    intros w5 r [Hd5 Hf5] _. split; [congruence|]. exists nd. congruence. }
  destruct (py_getitem2 old_data "editor" "live_preview") as [lp|e]; [apply Hgo|].
  destruct (exn_eqb e KeyError); [apply wp_ret, Hgo|done].
Qed.

(** *** The colours conversion *)

Lemma sorted_keys_ascending cm :
  ascending_ids cm (merge_sort String.le (elements (dom cm))).
Proof.
  split_and!.
  - apply (Sorted_merge_sort _).
  - rewrite merge_sort_Permutation. apply NoDup_elements.
  - intros k. rewrite merge_sort_Permutation, elem_of_elements.
    apply elem_of_dom.
Qed.

Lemma ascending_ids_unique cm ids1 ids2 :
  ascending_ids cm ids1 → ascending_ids cm ids2 → ids1 = ids2.
Proof.
  intros (Hs1 & Hn1 & Hm1) (Hs2 & Hn2 & Hm2).
  apply (Sorted_unique String.le); [done..|].
  apply NoDup_Permutation; [done..|]. intros k. by rewrite Hm1, Hm2.
Qed.

Lemma convert_colour_converts cm acc uuid record w :
  converts cm uuid record →
  convert_colour (JDict cm) acc uuid w = (w, Ret (acc ++ [record])%list).
Proof.
  intros (e & name & col & hex & Hcm & Hn & Hc & Hh & ->).
  unfold convert_colour, bind, lift, ret, py_getitem2, py_getitem.
  by rewrite Hcm, Hn, Hc, Hh.
Qed.

Lemma for_in_convert_colour cm ids acc w :
  Forall (λ uuid, ∃ record, converts cm uuid record) ids →
  ∃ new, for_in ids (convert_colour (JDict cm)) acc w = (w, Ret (acc ++ new)%list) ∧
         Forall2 (converts cm) ids new.
Proof.
  intros Hids. revert acc. induction Hids as [|uuid ids [record Hr] Hids IH];
    intros acc.
  - exists []. by rewrite app_nil_r.
  - destruct (IH (acc ++ [record])%list) as (new & Heq & Hall).
    exists (record :: new). simpl. unfold bind.
    rewrite (convert_colour_converts _ _ _ _ _ Hr), Heq.
    rewrite <- app_assoc. split; [done|]. by constructor.
Qed.

Lemma upgrade_colours_legacy w fc cm :
  files w !! colours = Some fc → data_of fc = Json (JDict cm) →
  w_ok fc = true →
  py_eqb (JDict cm) old_colour_json = false →
  legacy_palette cm →
  ∃ w' new_colours,
    upgrade_colours w = (w', Ret tt) ∧
    files w' = <[colours := File (Json (JList new_colours)) true]> (files w) ∧
    dir_w w' = dir_w w ∧
    Forall2 (converts cm) (merge_sort String.le (elements (dom cm))) new_colours.
Proof.
  intros Hf Hj Hw Hne Hleg.
  destruct (for_in_convert_colour cm (merge_sort String.le (elements (dom cm)))
              [] w) as (new & Heq & Hall).
  { apply Forall_forall. intros k Hk. apply Hleg.
    by apply (sorted_keys_ascending cm). }
  exists (with_files w (<[colours := File (Json (JList new)) true]> (files w))), new.
  split_and!; [|done..].
  unfold upgrade_colours, bind at 1.
  rewrite (load_file_json _ _ _ _ Hf Hj).
  rewrite bool_decide_eq_false_2 by apply colours_ne_preferences.
  rewrite Hne. simpl. unfold bind, lift. simpl. rewrite Heq. simpl.
  rewrite save_file_other by apply colours_ne_preferences.
  by rewrite Hf, Hw.
Qed.

(** *** The whole pass *)

Lemma entry_ok_stamp group item ty m :
  group ≠ "config_version" →
  entry_ok group item ty (JDict m) →
  entry_ok group item ty (JDict (<["config_version" := JInt version]> m)).
Proof.
  intros Hg (m' & gm & v & [= <-] & Hm & Hi & Hty)%entry_ok_inv.
  eapply entry_ok_intro; [|done..]. by rewrite lookup_insert_ne.
Qed.

Lemma validated_stamp m :
  validated (JDict m) →
  validated (JDict (<["config_version" := JInt version]> m)).
Proof.
  unfold validated. rewrite !Forall_forall. intros Hv e He.
  apply entry_ok_stamp; [|by apply Hv].
  pose proof DefaultEntries_sound as Hs. rewrite Forall_forall in Hs.
  by destruct (Hs e He).
Qed.

Lemma validated_dict data : validated data → ∃ m, data = JDict m.
Proof.
  unfold validated. rewrite Forall_forall. intros Hv.
  assert (Hin : ("tray", "icon", str, tray_icon_default) ∈ DefaultEntries)
    by in_defaults.
  apply Hv, entry_ok_inv in Hin as (m & _ & _ & -> & _). eauto.
Qed.

Lemma upgrade_write_version_spec w :
  wp upgrade_write_version
     (λ w' r, r = Ret tt → can_write preferences w →
              ∃ m', files w' !! preferences = Some (File (Json (JDict m')) true) ∧
                    m' !! "config_version" = Some (JInt 7) ∧
                    validated (JDict m')) w.
Proof.
  unfold upgrade_write_version. apply wp_bind.
  eapply wp_mono; [apply load_file_preferences_spec|].
  intros w1 [data|e] (Hd & Hc & Hv); [|done].
  destruct (validated_dict data (Hv _ eq_refl)) as [m ->].
  apply wp_bind, wp_lift. simpl. apply wp_bind.
  unfold wp at 1. rewrite save_file_preferences_dict.
  assert (Hres : ∀ w2 r, r = Ret tt → can_write preferences w →
            files w2 = <[preferences := File (Json (JDict
                (<["config_version":=JInt version]>
                   (<["config_version":=JInt version]> m)))) true]> (files w1) →
            ∃ m', files w2 !! preferences = Some (File (Json (JDict m')) true) ∧
                  m' !! "config_version" = Some (JInt 7) ∧ validated (JDict m')).
  { intros w2 r _ _ ->. eexists. rewrite !lookup_insert_eq.
    split_and!; [done..|]. by apply validated_stamp, validated_stamp, Hv. }
  destruct (files w1 !! preferences) as [f1|] eqn:Hf1.
  - destruct (w_ok f1) eqn:Hw1; simpl.
    + intros Hr Hcw. by eapply Hres.
    + intros _ Hcw. specialize (Hc Hcw). unfold can_write in Hc.
      rewrite Hf1 in Hc. congruence.
  - destruct (dir_w w1) eqn:Hd1; simpl; [|done].
    intros Hr Hcw. by eapply Hres.
Qed.

Lemma upgrade_old_pref_older w f m v :
  files w !! preferences = Some f → data_of f = Json (JDict m) →
  m !! "config_version" = Some (JInt v) → v < 7 →
  upgrade_old_pref w =
  (dbg_stdout (MsgUpgrading v version) dbg_action ;;;
   (if bool_decide (v < 5) then upgrade_step_lt5 else ret tt) ;;;
   if bool_decide (v = 6) then upgrade_step_eq6
   else upgrade_step_lt7 ;;; upgrade_write_version) w.
Proof.
  intros Hf Hj Hm Hv.
  unfold upgrade_old_pref, bind at 1, try_except_all, bind at 1, json_load.
  rewrite Hf, Hj. unfold bind at 1, lift at 1. simpl. rewrite Hm.
  unfold bind at 1, lift at 1. simpl. unfold ret at 1.
  rewrite bool_decide_eq_false_2 by (unfold version; lia).
  rewrite bool_decide_eq_false_2 by (unfold version; lia).
  by rewrite (bool_decide_eq_true_2 (v < 7)) by done.
Qed.

Lemma upgrade_step_eq6_spec w :
  dir_w w = true →
  ∃ w', upgrade_step_eq6 w = (w', Ret tt) ∧
        files w' = delete old_devicestate (delete colours
                     (delete preferences (files w))).
Proof.
  intros Hd.
  assert (Hrm : ∀ p w0, dir_w w0 = true →
            ∃ w1, (present <- os_path_exists p ;;
                   if present then os_remove p else ret tt) w0 = (w1, Ret tt) ∧
                  files w1 = delete p (files w0) ∧ dir_w w1 = true).
  { intros p w0 Hd0. unfold bind, os_path_exists, os_remove, ret.
    destruct (files w0 !! p) as [x|] eqn:Hp.
    - rewrite bool_decide_eq_true_2 by eauto. rewrite Hp, Hd0. eauto.
    - rewrite bool_decide_eq_false_2 by (by intros [? ?]).
      exists w0. by rewrite delete_id. }
  unfold upgrade_step_eq6, bind at 1, dbg_stdout. simpl.
  unfold bind at 1.
  match goal with |- context [ bind (os_path_exists preferences) _ ?w0 ] =>
    destruct (Hrm preferences w0 Hd) as (w1 & -> & Hf1 & Hd1) end.
  unfold bind at 1.
  destruct (Hrm colours w1 Hd1) as (w2 & -> & Hf2 & Hd2).
  unfold bind at 1.
  destruct (Hrm old_devicestate w2 Hd2) as (w3 & -> & Hf3 & Hd3).
  exists w3. split; [done|]. by rewrite Hf3, Hf2, Hf1.
Qed.

(** *** A pass that runs to the end *)

Lemma _validate_other_key group item ty dflt m w k :
  group ≠ "config_version" → type dflt = ty →
  k ≠ group → k ≠ "config_version" →
  wp (_validate group item ty dflt (JDict m))
     (λ _ r, ∀ data', r = Ret data' → ∃ m', data' = JDict m' ∧ m' !! k = m !! k) w.
Proof.
  intros Hg Hty Hk Hkc. unfold wp. rewrite _validate_eq by done.
  destruct (group_of m group) as [gm|e]; [|done].
  destruct (needs_repair gm item ty); [|by intros ? [= <-]; eauto].
  unfold bind, ret. rewrite save_file_preferences_dict.
  destruct (files w !! preferences) as [f|];
    [destruct (w_ok f)|destruct (dir_w w)]; simpl; try done;
    intros ? [= <-]; eexists; (split; [done|]);
    by rewrite !lookup_insert_ne by done.
Qed.

Lemma for_in_validate_other_key l m w k :
  Forall entry_sound l → k ≠ "config_version" →
  Forall (λ e, e.1.1.1 ≠ k) l →
  wp (for_in l validate_entry (JDict m))
     (λ _ r, ∀ data', r = Ret data' → ∃ m', data' = JDict m' ∧ m' !! k = m !! k) w.
Proof.
  intros Hs Hkc. revert m w. induction Hs as [|e l [Hg Hty] Hs IH];
    intros m w Hl.
  - intros ? [= <-]. eauto.
  - apply Forall_cons in Hl as [Hk Hl]. simpl. apply wp_bind.
    eapply wp_mono;
      [apply (_validate_other_key _ e.1.1.2 _ _ m w k Hg Hty); done|].
    intros w1 [data1|e1] H1; [|done].
    destruct (H1 _ eq_refl) as (m1 & -> & Hm1).
    eapply wp_mono; [by apply IH|]. simpl.
    intros w2 r H2 data2 ->. destruct (H2 _ eq_refl) as (m2 & -> & Hm2).
    exists m2. split; [done|]. congruence.
Qed.

Lemma validate_defaults_other_key m w w' data' k :
  untouched_key k →
  validate_defaults (JDict m) w = (w', Ret data') →
  ∃ m', data' = JDict m' ∧ m' !! k = m !! k.
Proof.
  intros [Hkc Hk] Hrun. rewrite validate_defaults_for_in in Hrun.
  pose proof (for_in_validate_other_key DefaultEntries m w k
                DefaultEntries_sound Hkc Hk) as Hs.
  eapply wp_elim in Hs; [|done]. by apply Hs.
Qed.

Lemma validated_well_grouped data : validated data → well_grouped data.
Proof.
  intros Hv. destruct (validated_dict _ Hv) as [m ->].
  exists m. split; [done|]. unfold validated in Hv.
  eapply Forall_impl; [done|]. simpl.
  intros e (m' & gm & v & [= <-] & Hm & _)%entry_ok_inv.
  exists gm. unfold group_of. by rewrite Hm.
Qed.

Lemma untouched_editor : untouched_key "editor".
Proof. split; [done|]. repeat constructor; done. Qed.
Lemma untouched_tray_icon : untouched_key "tray_icon".
Proof. split; [done|]. repeat constructor; done. Qed.

Lemma validate_defaults_legacy m d w w' d' :
  legacy_document m d →
  validate_defaults d w = (w', Ret d') →
  legacy_document m d'.
Proof.
  intros (md & -> & Hwg & He & Ht) Hrun.
  pose proof (validate_defaults_spec (JDict md) w) as Hs.
  eapply wp_elim in Hs; [|done]. destruct Hs as [_ Hv].
  destruct (validate_defaults_other_key _ _ _ _ _ untouched_editor Hrun)
    as (m1 & -> & He1).
  destruct (validate_defaults_other_key _ _ _ _ _ untouched_tray_icon Hrun)
    as (m2 & [= <-] & Ht1).
  exists m1. split_and!; [done| |..].
  - by apply validated_well_grouped, Hv.
  - unfold editor_ok. by rewrite He1.
  - congruence.
Qed.

Lemma well_grouped_insert k v m :
  untouched_key k ∨ k = "config_version" →
  well_grouped (JDict m) → well_grouped (JDict (<[k := v]> m)).
Proof.
  intros Hk (m' & [= <-] & Hg). exists (<[k := v]> m). split; [done|].
  pose proof DefaultEntries_sound as Hs.
  rewrite Forall_forall in *. intros e He. destruct (Hg e He) as [gm Hgm].
  exists gm. unfold group_of in *. rewrite lookup_insert_ne; [done|].
  destruct Hk as [[_ Hk]| ->].
  - rewrite Forall_forall in Hk. by apply not_eq_sym, Hk.
  - destruct (Hs e He) as [Hne _]. by apply not_eq_sym.
Qed.

Lemma legacy_document_stamp m md :
  legacy_document m (JDict md) →
  legacy_document m (JDict (<["config_version" := JInt version]> md)).
Proof.
  intros (md' & [= <-] & Hwg & He & Ht).
  exists (<["config_version" := JInt version]> md). split_and!; [done| |..].
  - apply well_grouped_insert; [by right|done].
  - unfold editor_ok. by rewrite lookup_insert_ne.
  - by rewrite lookup_insert_ne.
Qed.

Lemma upgrade_editor_key_legacy m md key w :
  legacy_document m (JDict md) →
  ∃ md', upgrade_editor_key (JDict md) key w = (w, Ret (JDict md')) ∧
         legacy_document m (JDict md').
Proof.
  intros Hl.
  assert (Hset : ∀ e b, md !! "editor" = Some (JDict e) →
            legacy_document m
              (JDict (<["editor" := JDict (<[key := JBool b]> e)]> md))).
  { intros e b He. destruct Hl as (md' & [= <-] & Hwg & _ & Ht).
    eexists. split_and!; [done| |..].
    - apply well_grouped_insert; [left; apply untouched_editor|done].
    - right. rewrite lookup_insert_eq. eauto.
    - by rewrite lookup_insert_ne. }
  unfold upgrade_editor_key, try_except_all, bind, lift, ret,
    py_getitem2, py_setitem2, py_getitem, py_setitem.
  destruct (md !! "editor") as [[ | | | | |e]|] eqn:He; simpl; eauto.
  destruct (e !! key) as [value|]; simpl; eauto.
  destruct (py_type_eqb (type value) str); simpl; eauto.
  destruct (py_eqb value (JStr "true") || py_eqb value (JStr "True")); simpl;
    eauto.
Qed.

Lemma load_file_preferences_legacy m w :
  preferences_hold m w →
  ∃ w' md, load_file preferences w = (w', Ret (JDict md)) ∧
           legacy_document m (JDict md) ∧ preferences_hold m w' ∧
           ∀ q, q ≠ preferences → files w' !! q = files w !! q.
Proof.
  intros (Hd & d & ok & Hf & Hl).
  rewrite (load_file_json _ _ _ _ Hf eq_refl), bool_decide_eq_true_2 by done.
  assert (Hwg : well_grouped d) by (by destruct Hl as (? & _ & ? & _)).
  destruct (validate_defaults_total d w Hwg) as (w' & d' & Hrun).
  { left. eauto. }
  pose proof (validate_defaults_spec d w) as Hs.
  pose proof (validate_defaults_persisted d w) as Hp.
  eapply wp_elim in Hs; [|done]. eapply wp_elim in Hp; [|done].
  destruct Hs as [Hw Hv].
  pose proof (validate_defaults_legacy _ _ _ _ _ Hl Hrun) as Hl'.
  destruct (validated_dict _ (Hv _ eq_refl)) as [md ->].
  exists w', md. split_and!; [done..| |].
  - split; [destruct Hw; congruence|]. destruct ok.
    + destruct Hp as [[-> [= <-]]|Hp]; [by eauto|].
      exists (JDict md), true. split; [|done]. apply Hp; [|done].
      unfold can_write. by rewrite Hf.
    + pose proof (validate_defaults_read_only d w _ Hf eq_refl) as Hro.
      rewrite Hrun in Hro. simpl in Hro. subst w'. eauto.
  - intros q Hq. by eapply prefs_written_frame.
Qed.

Lemma upgrade_step_lt5_legacy m w :
  preferences_hold m w →
  ∃ w', upgrade_step_lt5 w = (w', Ret tt) ∧ preferences_hold m w' ∧
        ∀ q, q ≠ preferences → files w' !! q = files w !! q.
Proof.
  intros Hh.
  destruct (load_file_preferences_legacy m w Hh)
    as (w1 & md & Hload & Hl & Hh1 & Hframe).
  pose proof Hh1 as (Hd1 & d1 & ok1 & Hf1 & _).
  destruct (upgrade_editor_key_legacy m md "activate_on_save" w1 Hl)
    as (md1 & Hk1 & Hl1).
  destruct (upgrade_editor_key_legacy m md1 "live_switch" w1 Hl1)
    as (md2 & Hk2 & Hl2).
  destruct (upgrade_editor_key_legacy m md2 "live_preview" w1 Hl2)
    as (md3 & Hk3 & Hl3).
  unfold upgrade_step_lt5, bind at 1. rewrite Hload. simpl.
  unfold bind at 1, bind at 1. rewrite Hk1.
  unfold bind at 1. rewrite Hk2. unfold bind at 1. rewrite Hk3.
  unfold ret at 1. unfold bind. rewrite save_file_preferences_dict, Hf1.
  simpl. destruct ok1; [|by eauto].
  eexists. split; [done|]. split.
  - split; [done|]. simpl. eexists _, _. rewrite lookup_insert_eq.
    split; [done|]. by apply legacy_document_stamp.
  - intros q Hq. simpl. rewrite lookup_insert_ne by done. by apply Hframe.
Qed.

Lemma new_tray_value_of_ext d1 d2 w :
  py_getitem d1 "tray_icon" = py_getitem d2 "tray_icon" →
  new_tray_value_of d1 w = new_tray_value_of d2 w.
Proof.
  intros Heq. unfold new_tray_value_of, py_getitem2. by rewrite Heq.
Qed.

Lemma well_grouped_new_data lp tray :
  well_grouped
    (JDict (<["config_version" := JInt version]>
       {[ "colours" := JDict {[ "primary" := JStr "#00FF00";
                                "secondary" := JStr "#00FFFF" ]};
          "effects" := JDict {[ "live_preview" := lp ]};
          "tray" := JDict {[ "force_legacy_gtk_status" := JBool false;
                             "icon" := tray ]} ]})).
Proof.
  eexists. split; [done|].
  repeat constructor; simpl; unfold group_of; by eexists.
Qed.

Lemma upgrade_step_lt7_reaches_colours m w :
  preferences_hold m w → tray_icon_ok m →
  ∃ w4 nd,
    upgrade_step_lt7 w = upgrade_colours w4 ∧ dir_w w4 = true ∧
    files w4 !! preferences = Some (File (Json nd) true) ∧ well_grouped nd ∧
    ∀ q, q ≠ preferences → q ≠ old_devicestate →
         files w4 !! q = files w !! q.
Proof.
  intros Hh [t Ht].
  destruct (load_file_preferences_legacy m w Hh)
    as (w1 & md & Hload & Hl & (Hd1 & d1 & ok1 & Hf1 & _) & Hframe).
  destruct Hl as (md' & [= <-] & _ & He & Htray).
  assert (Htv : new_tray_value_of (JDict md) w1 = (w1, Ret t)).
  { rewrite <- (Ht w1). apply new_tray_value_of_ext. simpl. by rewrite Htray. }
  assert (Hlp : ∃ lp, try_except
                        (lift (py_getitem2 (JDict md) "editor" "live_preview"))
                        KeyError (ret (JBool false)) w1 = (w1, Ret lp)).
  { unfold try_except, lift, ret, py_getitem2, py_getitem.
    destruct He as [->|[e ->]]; simpl; [by eauto|].
    destruct (e !! "live_preview"); simpl; eauto. }
  destruct Hlp as [lp Hlp].
  unfold upgrade_step_lt7, bind at 1. rewrite Hload.
  unfold bind at 1. rewrite Htv. unfold bind at 1. rewrite Hlp.
  unfold bind at 1, os_remove at 1. rewrite Hf1, Hd1.
  unfold bind at 1. rewrite save_file_preferences_dict. simpl.
  rewrite lookup_delete_eq, Hd1.
  unfold bind at 1, os_path_exists at 1.
  set (w3 := with_files _ _).
  assert (H3 : dir_w w3 = true ∧
               (∀ q, q ≠ preferences → files w3 !! q = files w !! q) ∧
               ∃ nd, files w3 !! preferences = Some (File (Json nd) true) ∧
                     well_grouped nd).
  { subst w3. simpl. split_and!; [done| |].
    - intros q Hq. rewrite lookup_insert_ne by done.
      rewrite lookup_delete_ne by done. by apply Hframe.
    - eexists. rewrite lookup_insert_eq. split; [done|].
      apply well_grouped_new_data. }
  clearbody w3. destruct H3 as (Hd3 & Hframe3 & nd & Hf3 & Hwg).
  assert (H4 : ∃ w4, (if bool_decide (is_Some (files w3 !! old_devicestate))
                      then os_remove old_devicestate else ret tt) w3 = (w4, Ret tt) ∧
                     dir_w w4 = true ∧
                     (∀ q, q ≠ old_devicestate → files w4 !! q = files w3 !! q)).
  { case_bool_decide as Hex; [|by exists w3].
    destruct Hex as [x Hx]. unfold os_remove. rewrite Hx, Hd3.
    eexists. split; [done|]. simpl. split; [done|].
    intros q Hq. by rewrite lookup_delete_ne. }
  destruct H4 as (w4 & Hrm & Hd4 & Hframe4).
  simpl. unfold bind at 1. rewrite Hrm.
  exists w4, nd. split_and!; [done..| | |].
  - rewrite Hframe4 by apply not_eq_sym, old_devicestate_ne_preferences. done.
  - done.
  - intros q Hq Hq'. rewrite Hframe4 by done. by apply Hframe3.
Qed.

Lemma upgrade_step_lt7_legacy m w fc cm :
  preferences_hold m w → tray_icon_ok m →
  files w !! colours = Some fc → data_of fc = Json (JDict cm) →
  w_ok fc = true →
  py_eqb (JDict cm) old_colour_json = false →
  legacy_palette cm →
  ∃ w' nd new_colours,
    upgrade_step_lt7 w = (w', Ret tt) ∧ dir_w w' = true ∧
    files w' !! preferences = Some (File (Json nd) true) ∧ well_grouped nd ∧
    files w' !! colours = Some (File (Json (JList new_colours)) true) ∧
    Forall2 (converts cm) (merge_sort String.le (elements (dom cm))) new_colours.
Proof.
  intros Hh Ht Hfc Hjc Hwc Hne Hleg.
  destruct (upgrade_step_lt7_reaches_colours m w Hh Ht)
    as (w4 & nd & -> & Hd4 & Hf4 & Hwg & Hframe).
  assert (Hc4 : files w4 !! colours = Some fc).
  { rewrite Hframe; [done|apply colours_ne_preferences|].
    apply not_eq_sym, old_devicestate_ne_colours. }
  destruct (upgrade_colours_legacy w4 fc cm Hc4 Hjc Hwc Hne Hleg)
    as (w5 & new & Hrun & Hfiles & Hd5 & Hall).
  exists w5, nd, new. rewrite Hrun, Hfiles. split_and!; try done.
  - congruence.
  - by rewrite lookup_insert_ne by apply colours_ne_preferences.
  - apply lookup_insert_eq.
Qed.

Lemma py_eqb_empty_palette : py_eqb (JDict ∅) old_colour_json = false.
Proof. by vm_compute. Qed.

Lemma upgrade_colours_total w :
  dir_w w = true → colours_convertible w →
  ∃ w', upgrade_colours w = (w', Ret tt).
Proof.
  intros Hd Hc. unfold colours_convertible in Hc.
  assert (Hinit : unreadable colours w → ∃ w', upgrade_colours w = (w', Ret tt)).
  { intros Hu. destruct (load_file_init _ _ Hu) as (w1 & Hd1 & Hfiles & Hload).
    rewrite bool_decide_eq_false_2 in Hload by apply colours_ne_preferences.
    unfold upgrade_colours, bind at 1. rewrite Hload, py_eqb_empty_palette.
    simpl. unfold bind at 1, lift at 1, sorted_keys.
    rewrite dom_empty_L, elements_empty. simpl.
    unfold bind at 1, ret at 1. unfold bind.
    rewrite save_file_other by apply colours_ne_preferences.
    rewrite Hfiles. unfold init_files. rewrite Hd, lookup_insert_eq. simpl.
    eauto. }
  destruct (files w !! colours) as [fc|] eqn:Hf.
  2:{ apply Hinit. unfold unreadable. by rewrite Hf. }
  destruct (data_of fc) as [raw|j] eqn:Hj.
  { apply Hinit. unfold unreadable. rewrite Hf, Hj. eauto. }
  unfold upgrade_colours, bind at 1.
  rewrite (load_file_json _ _ _ _ Hf Hj).
  rewrite bool_decide_eq_false_2 by apply colours_ne_preferences.
  destruct j as [ | | | |l|cm]; try done.
  - simpl. unfold ret. eauto.
  - destruct (py_eqb (JDict cm) old_colour_json) eqn:Heq.
    + unfold os_remove. rewrite Hf, Hd. eauto.
    + destruct Hc as [Hc|Hleg]; [done|].
      destruct (for_in_convert_colour cm
                  (merge_sort String.le (elements (dom cm))) [] w)
        as (new & Hnew & _).
      { apply Forall_forall. intros k Hk. apply Hleg.
        by apply (sorted_keys_ascending cm). }
      simpl. unfold bind, lift. simpl. rewrite Hnew. simpl.
      rewrite save_file_other by apply colours_ne_preferences.
      rewrite Hf. destruct (w_ok fc); eauto.
Qed.

Lemma colours_convertible_frame w w' :
  files w' !! colours = files w !! colours →
  colours_convertible w → colours_convertible w'.
Proof. unfold colours_convertible. by intros ->. Qed.

Lemma upgrade_write_version_total w nd :
  files w !! preferences = Some (File (Json nd) true) → well_grouped nd →
  ∃ w', upgrade_write_version w = (w', Ret tt) ∧
        ∀ q, q ≠ preferences → files w' !! q = files w !! q.
Proof.
  intros Hf Hwg.
  destruct (load_file_preferences_total w) as (w1 & data & Hload).
  { left. eauto. }
  { intros f j Hf' Hj. rewrite Hf in Hf'. by simplify_eq/=. }
  pose proof (load_file_preferences_spec w) as Hs.
  pose proof (load_file_frame preferences w) as Hfr.
  eapply wp_elim in Hs; [|done]. eapply wp_elim in Hfr; [|done].
  destruct Hs as (Hd & Hc & Hv). destruct (validated_dict _ (Hv _ eq_refl)) as [m ->].
  assert (Hframe : ∀ q, q ≠ preferences → files w1 !! q = files w !! q).
  { intros q Hq. rewrite (load_file_json _ _ _ _ Hf eq_refl) in Hload.
    rewrite bool_decide_eq_true_2 in Hload by done.
    pose proof (validate_defaults_spec nd w) as Hs.
    eapply wp_elim in Hs; [|done]. destruct Hs as [Hw _].
    by eapply prefs_written_frame. }
  assert (Hc1 : can_write preferences w1).
  { apply Hc. unfold can_write. by rewrite Hf. }
  unfold upgrade_write_version, bind at 1. rewrite Hload.
  unfold bind at 1, lift at 1. simpl. unfold bind at 1.
  rewrite save_file_preferences_dict. unfold can_write in Hc1.
  unfold dbg_stdout.
  destruct (files w1 !! preferences) as [f1|]; rewrite Hc1; simpl;
    (eexists; split; [done|]); intros q Hq; simpl;
    rewrite lookup_insert_ne by done; by apply Hframe.
Qed.

Lemma upgrade_old_pref_completes w f m v :
  files w !! preferences = Some f → data_of f = Json (JDict m) →
  dir_w w = true →
  m !! "config_version" = Some (JInt v) → v < 7 → v ≠ 6 →
  well_grouped (JDict m) → editor_ok m → tray_icon_ok m →
  colours_convertible w →
  ∃ w', upgrade_old_pref w = (w', Ret tt).
Proof.
  intros Hf Hj Hd Hm Hv Hv6 Hwg He Ht Hcol.
  rewrite (upgrade_old_pref_older _ _ _ _ Hf Hj Hm Hv).
  rewrite (bool_decide_eq_false_2 (v = 6)) by done.
  unfold bind at 1, dbg_stdout at 1. simpl.
  set (w0 := {| files := files w |}).
  assert (H0 : preferences_hold m w0 ∧
               files w0 !! colours = files w !! colours).
  { split; [|done]. split; [done|]. destruct f as [c ok]. simpl in Hj. subst c.
    exists (JDict m), ok. split; [done|]. by exists m. }
  clearbody w0. destruct H0 as [Hh0 Hc0].
  assert (H1 : ∃ w1, (if bool_decide (v < 5) then upgrade_step_lt5 else ret tt) w0
                       = (w1, Ret tt) ∧
                     preferences_hold m w1 ∧
                     files w1 !! colours = files w !! colours).
  { case_bool_decide; [|by exists w0].
    destruct (upgrade_step_lt5_legacy m w0 Hh0) as (w1 & Hrun & Hh1 & Hframe).
    exists w1. split_and!; [done..|].
    by rewrite Hframe by apply colours_ne_preferences. }
  destruct H1 as (w1 & Hrun1 & Hh1 & Hc1).
  unfold bind at 1. rewrite Hrun1.
  destruct (upgrade_step_lt7_reaches_colours m w1 Hh1 Ht)
    as (w4 & nd & Hrun4 & Hd4 & Hf4 & Hwg4 & Hframe4).
  assert (Hc4 : files w4 !! colours = files w !! colours).
  { rewrite Hframe4; [done|apply colours_ne_preferences|].
    apply not_eq_sym, old_devicestate_ne_colours. }
  destruct (upgrade_colours_total w4 Hd4) as (w5 & Hrun5).
  { by eapply colours_convertible_frame. }
  pose proof (upgrade_colours_frame w4) as Hfr.
  eapply wp_elim in Hfr; [|done]. destruct Hfr as [Hd5 Hf5].
  unfold bind at 1. rewrite Hrun4, Hrun5.
  destruct (upgrade_write_version_total w5 nd) as (w6 & Hrun6 & _);
    [congruence|done|].
  eauto.
Qed.

(** C2. Let the preferences document be a mapping with an integer
    [config_version = v < 7].  If [v <> 6], a pass of [upgrade_old_pref]
    that returns without raising leaves a writable preferences file
    holding a validated document with [config_version = 7]; and the pass
    does return when the directory is writable, the groups of the
    document are mappings, the tray icon can be derived and the colours
    file is one the step can deal with.  If [v = 6], a pass that returns
    leaves the preferences, colours and device-state files deleted and
    no other file changed, so that no version is stamped; and the pass
    does return when the directory is writable. *)
Theorem upgrade_old_pref_older_version w f m v :
  files w !! preferences = Some f → data_of f = Json (JDict m) →
  m !! "config_version" = Some (JInt v) → v < 7 →
  (v ≠ 6 → dir_w w = true →
   well_grouped (JDict m) → editor_ok m → tray_icon_ok m →
   colours_convertible w →
   ∃ w', upgrade_old_pref w = (w', Ret tt)) ∧
  (v ≠ 6 →
   ∀ w', upgrade_old_pref w = (w', Ret tt) →
         ∃ m', files w' !! preferences = Some (File (Json (JDict m')) true) ∧
               m' !! "config_version" = Some (JInt 7) ∧
               validated (JDict m')) ∧
  (v = 6 → dir_w w = true →
   ∃ w', upgrade_old_pref w = (w', Ret tt) ∧
         files w' = delete old_devicestate (delete colours
                      (delete preferences (files w))) ∧
         files w' !! preferences = None ∧
         files w' !! colours = None ∧
         files w' !! old_devicestate = None) ∧
  (v = 6 →
   ∀ w', upgrade_old_pref w = (w', Ret tt) →
         dir_w w = true ∧
         files w' = delete old_devicestate (delete colours
                      (delete preferences (files w)))).
Proof.
  intros Hf Hj Hm Hv. split_and!.
  - intros Hv6 Hd Hwg He Ht Hcol.
    by eapply upgrade_old_pref_completes.
  - intros Hv6 w' Hrun.
    rewrite (upgrade_old_pref_older _ _ _ _ Hf Hj Hm Hv) in Hrun.
    rewrite (bool_decide_eq_false_2 (v = 6)) in Hrun by done.
    match type of Hrun with ?c w = _ =>
      assert (Hwp : wp c (λ w' r, r = Ret tt →
        ∃ m', files w' !! preferences = Some (File (Json (JDict m')) true) ∧
              m' !! "config_version" = Some (JInt 7) ∧
              validated (JDict m')) w) end;
      [|eapply wp_elim in Hwp; [|exact Hrun]; by apply Hwp].
    apply wp_bind. unfold wp at 1, dbg_stdout. simpl.
    apply wp_bind.
    match goal with |- wp ?c _ ?w0 =>
      apply (wp_mono c (λ _ _, True)); [done|] end.
    intros w1 [[]|e] _; [|done]. apply wp_bind.
    eapply wp_mono; [apply upgrade_step_lt7_spec|].
    intros w2 [[]|e] H2; [|done]. destruct (H2 eq_refl) as [Hd2 [nd Hf2]].
    eapply wp_mono; [apply upgrade_write_version_spec|].
    intros w3 r H3 Hr. apply H3; [done|]. unfold can_write. by rewrite Hf2.
  - intros -> Hd.
    rewrite (upgrade_old_pref_older _ _ _ _ Hf Hj Hm Hv).
    rewrite bool_decide_eq_false_2 by lia.
    rewrite bool_decide_eq_true_2 by done.
    unfold bind at 1, dbg_stdout. simpl. unfold bind at 1, ret at 1.
    match goal with |- context [ upgrade_step_eq6 ?w0 ] =>
      destruct (upgrade_step_eq6_spec w0 Hd) as (w' & Heq & Hfiles) end.
    exists w'. split_and!; [done..| | |]; rewrite Hfiles.
    + rewrite lookup_delete_ne by apply old_devicestate_ne_preferences.
      rewrite lookup_delete_ne by apply colours_ne_preferences.
      apply lookup_delete_eq.
    + rewrite lookup_delete_ne by apply old_devicestate_ne_colours.
      apply lookup_delete_eq.
    + apply lookup_delete_eq.
  - intros -> w'.
    rewrite (upgrade_old_pref_older _ _ _ _ Hf Hj Hm Hv).
    rewrite bool_decide_eq_false_2 by lia.
    rewrite bool_decide_eq_true_2 by done.
    unfold bind at 1, dbg_stdout. simpl. unfold bind at 1, ret at 1.
    destruct (dir_w w) eqn:Hd.
    + match goal with |- context [ upgrade_step_eq6 ?w0 ] =>
        destruct (upgrade_step_eq6_spec w0 eq_refl) as (w1 & -> & Hfiles) end.
      intros [= <-]. done.
    + unfold upgrade_step_eq6, bind at 1, dbg_stdout. simpl.
      unfold bind at 1, bind at 1, os_path_exists. simpl.
      rewrite bool_decide_eq_true_2 by (rewrite Hf; eauto).
      unfold os_remove. simpl. by rewrite Hf.
Qed.

(** *** What a pass leaves alone *)

Lemma bind_ret_inv {A B} (c : M A) (k : A → M B) w w' b :
  bind c k w = (w', Ret b) →
  ∃ a w1, c w = (w1, Ret a) ∧ k a w1 = (w', Ret b).
Proof. unfold bind. destruct (c w) as [w1 [a|e]]; [eauto|done]. Qed.

Lemma save_file_frame filepath newdata w :
  wp (save_file filepath newdata)
     (λ w' _, ∀ q, q ≠ filepath → files w' !! q = files w !! q) w.
Proof.
  unfold wp. rewrite save_file_eq.
  destruct (stamped filepath newdata) as [nd|e]; [|done].
  destruct (files w !! filepath) as [f|];
    [destruct (w_ok f)|destruct (dir_w w)]; simpl; try done;
    intros q Hq; by rewrite lookup_insert_ne.
Qed.

Lemma os_remove_others p w :
  wp (os_remove p) (λ w' _, ∀ q, q ≠ p → files w' !! q = files w !! q) w.
Proof.
  unfold wp, os_remove. destruct (files w !! p); [|done].
  destruct (dir_w w); simpl; [|done]. intros q Hq. by rewrite lookup_delete_ne.
Qed.

Lemma upgrade_editor_key_pure data key w :
  (upgrade_editor_key data key w).1 = w.
Proof.
  unfold upgrade_editor_key, try_except_all, bind, lift, ret.
  destruct (py_getitem2 data "editor" key) as [value|e]; simpl; [|done].
  destruct (py_type_eqb (type value) str); [|done].
  destruct (py_eqb value (JStr "true") || py_eqb value (JStr "True"));
    by destruct (py_setitem2 data "editor" key _).
Qed.

Lemma upgrade_step_lt5_frame w :
  wp upgrade_step_lt5
     (λ w' _, ∀ q, q ≠ preferences → q ≠ preferences +:+ ".bak" →
                   files w' !! q = files w !! q) w.
Proof.
  unfold upgrade_step_lt5. apply wp_bind.
  eapply wp_mono; [apply load_file_frame|].
  intros w1 [data|e] [_ Hframe]; [|done]. apply wp_bind.
  pose proof (for_in_pure ["activate_on_save"; "live_switch"; "live_preview"]
                upgrade_editor_key data w1 upgrade_editor_key_pure) as Hpure.
  unfold wp at 1.
  destruct (for_in _ upgrade_editor_key data w1) as [w2 [data2|e]];
    simpl in Hpure; subst w2; [|done].
  cbn beta iota. apply wp_bind.
  eapply wp_mono; [apply save_file_frame|].
  intros w3 [r|e] Hframe3; [|by intros q Hq Hb; rewrite Hframe3, Hframe].
  apply wp_ret. intros q Hq Hb. by rewrite Hframe3, Hframe.
Qed.

Lemma upgrade_step_lt7_frame w :
  wp upgrade_step_lt7
     (λ w' r, r = Ret tt →
        ∃ w4, upgrade_colours w4 = (w', Ret tt) ∧
              ∀ q, q ≠ preferences → q ≠ preferences +:+ ".bak" →
                   q ≠ old_devicestate → files w4 !! q = files w !! q) w.
Proof.
  unfold upgrade_step_lt7. apply wp_bind.
  eapply wp_mono; [apply load_file_frame|].
  intros w1 [old_data|e] [_ Hframe1]; [|done]. apply wp_bind.
  pose proof (new_tray_value_of_pure old_data w1) as Hpure.
  unfold wp at 1. destruct (new_tray_value_of old_data w1) as [w2 [tray|e]];
    simpl in *; subst w2; [|done].
  apply wp_bind, wp_try_except, wp_lift.
  assert (Hgo : ∀ old_live_preview,
    wp (os_remove preferences ;;;
        save_file preferences
          (JDict {[ "colours" := JDict {[ "primary" := JStr "#00FF00";
                                          "secondary" := JStr "#00FFFF" ]};
                    "effects" := JDict {[ "live_preview" := old_live_preview ]};
                    "tray" := JDict {[ "force_legacy_gtk_status" := JBool false;
                                       "icon" := tray ]} ]}) ;;;
        present <- os_path_exists old_devicestate ;;
        (if present then os_remove old_devicestate else ret tt) ;;;
        upgrade_colours)
       (λ w' r, r = Ret tt →
          ∃ w4, upgrade_colours w4 = (w', Ret tt) ∧
                ∀ q, q ≠ preferences → q ≠ preferences +:+ ".bak" →
                     q ≠ old_devicestate → files w4 !! q = files w !! q) w1).
  { intros old_live_preview. apply wp_bind.
    eapply wp_mono; [apply os_remove_others|].
    intros w2 [[]|e] Hframe2; [|done]. apply wp_bind.
    eapply wp_mono; [apply save_file_frame|].
    intros w3 [r|e] Hframe3; [|done].
    apply wp_bind, wp_os_path_exists, wp_bind.
    assert (Hrm : wp (if bool_decide (is_Some (files w3 !! old_devicestate))
                      then os_remove old_devicestate else ret tt)
                    (λ w' _, ∀ q, q ≠ old_devicestate →
                                  files w' !! q = files w3 !! q) w3).
    { destruct (bool_decide _); [apply os_remove_others|done]. }
    eapply wp_mono; [apply Hrm|]. intros w4 [[]|e] Hframe4; [|done].
    apply wp_intro. intros w5 r5 Hrun ->. exists w4. split; [done|].
    intros q Hq Hb Hq'.
    by rewrite Hframe4, Hframe3, Hframe2, Hframe1. }
  destruct (py_getitem2 old_data "editor" "live_preview") as [lp|e]; [apply Hgo|].
  destruct (exn_eqb e KeyError); [apply wp_ret, Hgo|done].
Qed.

Lemma upgrade_write_version_frame w :
  wp upgrade_write_version
     (λ w' _, ∀ q, q ≠ preferences → q ≠ preferences +:+ ".bak" →
                   files w' !! q = files w !! q) w.
Proof.
  unfold upgrade_write_version. apply wp_bind.
  eapply wp_mono; [apply load_file_frame|].
  intros w1 [data|e] [_ Hframe]; [|done]. apply wp_bind, wp_lift.
  destruct (py_setitem data "config_version" (JInt version)) as [data1|e];
    [|done].
  apply wp_bind. eapply wp_mono; [apply save_file_frame|].
  intros w2 [r|e] Hframe2; [|by intros q Hq Hb; rewrite Hframe2, Hframe].
  unfold wp, dbg_stdout. simpl. intros q Hq Hb. by rewrite Hframe2, Hframe.
Qed.

(** C7 (as amended). Let the preferences file hold a mapping with an
    integer [config_version < 7], other than 6, and let the colours file
    be writable and hold a legacy mapping that differs from the known
    nine-entry palette and whose entries each have a name and a colour
    that converts.  Then after a pass that returns the colours file holds
    the list of [{name, hex}] records of the entries, taken by ascending
    ID in string order (character by character, so that "10" comes before
    "2").  The pass does return when the directory is writable, the
    default groups and [editor], where present, are mappings, and the tray
    icon can be derived from [tray_icon] without an error. *)
Theorem upgrade_old_pref_converts_colours w f m v fc cm :
  files w !! preferences = Some f → data_of f = Json (JDict m) →
  m !! "config_version" = Some (JInt v) → v < 7 → v ≠ 6 →
  files w !! colours = Some fc → data_of fc = Json (JDict cm) →
  w_ok fc = true →
  py_eqb (JDict cm) old_colour_json = false →
  legacy_palette cm →
  (∀ w', upgrade_old_pref w = (w', Ret tt) →
     ∃ ids new_colours,
       files w' !! colours = Some (File (Json (JList new_colours)) true) ∧
       ascending_ids cm ids ∧
       Forall2 (converts cm) ids new_colours) ∧
  (dir_w w = true → well_grouped (JDict m) → editor_ok m → tray_icon_ok m →
   ∃ w', upgrade_old_pref w = (w', Ret tt)).
Proof.
  intros Hf Hj Hm Hv Hv6 Hfc Hjc Hwc Hne Hleg. split.
  - intros w' Hrun.
    rewrite (upgrade_old_pref_older _ _ _ _ Hf Hj Hm Hv) in Hrun.
    rewrite (bool_decide_eq_false_2 (v = 6)) in Hrun by done.
    apply bind_ret_inv in Hrun as ([] & w0 & Hlog & Hrun).
    apply bind_ret_inv in Hrun as ([] & w1 & Hrun1 & Hrun).
    apply bind_ret_inv in Hrun as ([] & w5 & Hrun5 & Hrun6).
    assert (Hc0 : files w0 !! colours = Some fc).
    { unfold dbg_stdout in Hlog. by simplify_eq. }
    assert (Hc1 : files w1 !! colours = Some fc).
    { case_bool_decide; [|unfold ret in Hrun1; by simplify_eq].
      pose proof (upgrade_step_lt5_frame w0) as Hfr.
      eapply wp_elim in Hfr; [|exact Hrun1].
      rewrite Hfr; [done|apply colours_ne_preferences|].
      apply not_eq_sym, preferences_bak_ne_colours. }
    pose proof (upgrade_step_lt7_frame w1) as Hfr.
    eapply wp_elim in Hfr; [|exact Hrun5].
    destruct (Hfr eq_refl) as (w4 & Hrun4 & Hframe4).
    assert (Hc4 : files w4 !! colours = Some fc).
    { rewrite Hframe4; [done|apply colours_ne_preferences| |].
      - apply not_eq_sym, preferences_bak_ne_colours.
      - apply not_eq_sym, old_devicestate_ne_colours. }
    destruct (upgrade_colours_legacy w4 fc cm Hc4 Hjc Hwc Hne Hleg)
      as (w5' & new & Hrun4' & Hfiles & _ & Hall).
    rewrite Hrun4 in Hrun4'. injection Hrun4' as <-.
    pose proof (upgrade_write_version_frame w5) as Hfr6.
    eapply wp_elim in Hfr6; [|exact Hrun6].
    exists (merge_sort String.le (elements (dom cm))), new.
    split_and!; [|apply sorted_keys_ascending|done].
    rewrite Hfr6; [|apply colours_ne_preferences|].
    + rewrite Hfiles. apply lookup_insert_eq.
    + apply not_eq_sym, preferences_bak_ne_colours.
  - intros Hd Hwg He Ht.
    eapply upgrade_old_pref_completes; try done.
    unfold colours_convertible. rewrite Hfc, Hjc. by right.
Qed.

(** *** Deciding the hypotheses on a given input *)

Lemma well_groupedb_spec d : well_groupedb d = true → well_grouped d.
Proof.
  unfold well_groupedb. destruct d as [ | | | | |m]; try discriminate.
  intros H. exists m. split; [done|]. apply Forall_forall. intros e He.
  rewrite forallb_forall in H. specialize (H e).
  destruct (group_of m e.1.1.1) as [gm|]; [eauto|].
  apply list_elem_of_In in He. by specialize (H He).
Qed.

Lemma legacy_palette_check cm :
  map_Forall (λ _ v, palette_entry_ok v = true) cm → legacy_palette cm.
Proof.
  intros Hall uuid [v Hv]. specialize (Hall _ _ Hv).
  unfold palette_entry_ok in Hall.
  destruct v as [ | | | | |e]; try done.
  destruct (e !! "name") as [name|] eqn:Hn; [|done].
  destruct (e !! "col") as [col|] eqn:Hc; [|done].
  destruct (rgb_to_hex col) as [hex|] eqn:Hh; [|done].
  eexists. by exists e, name, col, hex.
Qed.

Lemma preferences_well_formed_absent w :
  files w !! preferences = None → preferences_well_formed w.
Proof. intros Hf f j Hf'. congruence. Qed.

Lemma preferences_well_formed_json w ok j :
  files w !! preferences = Some (File (Json j) ok) →
  well_groupedb j = true → preferences_well_formed w.
Proof.
  intros Hf Hj f j' Hf' Hj'. rewrite Hf in Hf'. simplify_eq/=.
  by apply well_groupedb_spec.
Qed.

(** * Further properties of the module *)

Lemma validatedb_spec data : validatedb data = true → validated data.
Proof.
  unfold validatedb, validated. rewrite forallb_forall, Forall_forall.
  intros H e He. apply list_elem_of_In in He. specialize (H e He).
  unfold entry_ok. destruct (py_getitem2 data e.1.1.1 e.1.1.2) as [v|]; [|done].
  exists v. split; [done|]. by apply py_type_eqb_eq.
Qed.

Lemma bind_ext_run {A B} (c : M A) (k k' : A → M B) w :
  (∀ a w', c w = (w', Ret a) → k a w' = k' a w') →
  bind c k w = bind c k' w.
Proof. intros Hk. unfold bind. destruct (c w) as [w' [a|e]]; auto. Qed.

(** ** The paths *)

Lemma dir_app_inj : Inj (=) (=) (λ name, dir +:+ name).
Proof. intros a b Heq. by apply String.app_inj in Heq. Qed.

Lemma old_devicestate_ne_colours_bak : old_devicestate ≠ colours +:+ ".bak".
Proof.
  rewrite old_devicestate_eq, colours_eq, string_app_assoc.
  by apply dir_app_neq.
Qed.

(** X1. Whatever the home directory and the XDG variables are, the
    preferences file, the colours file, the legacy device-state file and
    the three backup paths [p + ".bak"] that [init_config] may write are
    six different paths: no backup lands on another document. *)

Theorem paths_pairwise_distinct :
  NoDup [ preferences; colours; old_devicestate;
          preferences +:+ ".bak"; colours +:+ ".bak";
          old_devicestate +:+ ".bak" ].
Proof.
  rewrite preferences_eq, colours_eq, old_devicestate_eq, !string_app_assoc.
  pose proof dir_app_inj as Hinj.
  apply (NoDup_fmap_2 (λ name, dir +:+ name)
           [ "preferences.json"; "colours.json"; "devicestate.json";
             "preferences.json" +:+ ".bak"; "colours.json" +:+ ".bak";
             "devicestate.json" +:+ ".bak" ]).
  apply (bool_decide_unpack _). vm_compute. reflexivity.
Qed.

(** ** [save_file] *)

(** X2. [save_file] changes no other path, neither the directory
    permission nor the log.  When it returns [True] the path holds exactly
    the document it was handed (with the version stamped for the
    preferences path); when it returns [False] nothing changed and the
    file was there and not writable; when it raises nothing changed. *)

Theorem save_file_reports_what_it_did filepath newdata w w' r :
  save_file filepath newdata w = (w', r) →
  dir_w w' = dir_w w ∧ stdout w' = stdout w ∧
  (∀ q, q ≠ filepath → files w' !! q = files w !! q) ∧
  match r with
  | Ret (nd, true) =>
      stamped filepath newdata = Ret nd ∧
      files w' !! filepath = Some (File (Json nd) true)
  | Ret (nd, false) =>
      stamped filepath newdata = Ret nd ∧ w' = w ∧
      ∃ f, files w !! filepath = Some f ∧ w_ok f = false
  | Raise e => w' = w
  end.
Proof.
  rewrite save_file_eq. destruct (stamped filepath newdata) as [nd|e] eqn:Hst.
  - destruct (files w !! filepath) as [f|] eqn:Hf.
    + destruct (w_ok f) eqn:Hok; intros [= <- <-]; simpl.
      * split_and!; [done..| |done|by rewrite lookup_insert_eq].
        intros q Hq. by rewrite lookup_insert_ne.
      * split_and!; eauto.
    + destruct (dir_w w) eqn:Hd; intros [= <- <-]; simpl.
      * split_and!; [done..| |done|by rewrite lookup_insert_eq].
        intros q Hq. by rewrite lookup_insert_ne.
      * done.
  - intros [= <- <-]. done.
Qed.

(** X3. Round trip: after [save_file] has returned [True], [load_file]
    on the same path returns the saved document without touching
    anything, for a path other than the preferences path and, on the
    preferences path, for a document that has the six default entries. *)

Theorem save_file_then_load_file filepath newdata w w' nd :
  save_file filepath newdata w = (w', Ret (nd, true)) →
  filepath ≠ preferences ∨ validated nd →
  load_file filepath w' = (w', Ret nd) ∧
  (filepath ≠ preferences → nd = newdata).
Proof.
  intros Hs Hv.
  assert (files w' !! filepath = Some (File (Json nd) true) ∧
          stamped filepath newdata = Ret nd) as [Hf Hst].
  { revert Hs. rewrite save_file_eq.
    destruct (stamped filepath newdata) as [nd'|e]; [|done].
    destruct (files w !! filepath) as [f|].
    - destruct (w_ok f); intros [= <- <-]. simpl.
      by rewrite lookup_insert_eq.
    - destruct (dir_w w); intros [= <- <-]. simpl.
      by rewrite lookup_insert_eq. }
  split.
  - rewrite (load_file_json _ _ _ _ Hf eq_refl).
    case_bool_decide as Hp; [|done].
    destruct Hv as [Hv|Hv]; [done|]. by apply validate_defaults_noop.
  - intros Hp. unfold stamped in Hst.
    rewrite bool_decide_eq_false_2 in Hst by done. congruence.
Qed.

(** ** [init_config] and [load_file] *)

(** X4. [init_config] never raises and leaves the directory permission
    alone.  In a directory it cannot write it changes no file; in a
    writable one the path afterwards holds the fresh document (empty, or
    with the version for the preferences path), the former file is kept
    under [filepath + ".bak"], and no other path changes. *)

Theorem init_config_never_raises filepath w :
  ∃ w', init_config filepath w = (w', Ret tt) ∧ dir_w w' = dir_w w ∧
        (dir_w w = false → files w' = files w) ∧
        (dir_w w = true →
         files w' !! filepath
           = Some (File (Json (fresh_document filepath)) true) ∧
         (∀ f, files w !! filepath = Some f →
               files w' !! (filepath +:+ ".bak") = Some f) ∧
         ∀ q, q ≠ filepath → q ≠ filepath +:+ ".bak" →
              files w' !! q = files w !! q).
Proof.
  pose proof (init_config_spec filepath w) as Hi. unfold wp in Hi.
  destruct (init_config filepath w) as [w' r]. simpl in Hi.
  destruct Hi as (-> & Hd & Hfiles). exists w'.
  split_and!; [done..| |].
  - intros Hdw. rewrite Hfiles. unfold init_files. by rewrite Hdw.
  - intros Hdw. split_and!.
    + rewrite Hfiles. unfold init_files. by rewrite Hdw, lookup_insert_eq.
    + intros f Hf. rewrite Hfiles. unfold init_files. rewrite Hdw, Hf.
      rewrite lookup_insert_ne by (intros Heq; by apply (bak_ne filepath)).
      by rewrite lookup_insert_eq.
    + intros q Hq Hb. rewrite Hfiles. by apply init_files_lookup_ne.
Qed.

(** X5. [load_file] on a missing file other than the preferences file
    returns the empty document; in a writable directory it creates the
    file holding [{}], in a read-only one it changes no file, and in
    neither case does it raise. *)

Theorem load_file_missing filepath w :
  files w !! filepath = None → filepath ≠ preferences →
  ∃ w', load_file filepath w = (w', Ret (JDict ∅)) ∧ dir_w w' = dir_w w ∧
        files w' = if dir_w w
                   then <[filepath := File (Json (JDict ∅)) true]> (files w)
                   else files w.
Proof.
  intros Hf Hp.
  destruct (load_file_init filepath w) as (w1 & Hd & Hfiles & ->).
  { unfold unreadable. by rewrite Hf. }
  rewrite bool_decide_eq_false_2 by done. exists w1.
  split_and!; [done..|]. rewrite Hfiles. unfold init_files, fresh_document.
  by rewrite Hf, bool_decide_eq_false_2.
Qed.

(** X6. When the preferences file is missing and cannot be created,
    [load_file] on the preferences path raises [OSError] (from the
    [save_file] of the first [_validate], after [init_config] has
    swallowed its own failure) and leaves the files as they were. *)

Theorem load_file_preferences_cannot_create w :
  files w !! preferences = None → dir_w w = false →
  ∃ w', load_file preferences w = (w', Raise OSError) ∧ files w' = files w.
Proof.
  intros Hf Hdw.
  destruct (load_file_init preferences w) as (w1 & Hd & Hfiles & ->).
  { unfold unreadable. by rewrite Hf. }
  rewrite bool_decide_eq_true_2 by done.
  unfold init_files in Hfiles. rewrite Hdw in Hfiles.
  exists w1. unfold validate_defaults, bind at 1.
  rewrite _validate_eq by done. unfold group_of. rewrite lookup_empty.
  unfold needs_repair. rewrite lookup_empty. unfold bind at 1.
  rewrite save_file_preferences_dict. simpl.
  by rewrite Hfiles, Hf, Hd, Hdw.
Qed.

(** X7. [load_file] is a pure read of a file that parses: it returns
    the document the file holds and changes nothing, for any path other
    than the preferences path, and for the preferences path when the
    document has the six default entries. *)

Theorem load_file_reads_only filepath w f j :
  files w !! filepath = Some f → data_of f = Json j →
  filepath ≠ preferences ∨ validated j →
  load_file filepath w = (w, Ret j).
Proof.
  intros Hf Hj Hv. rewrite (load_file_json _ _ _ _ Hf Hj).
  case_bool_decide as Hp; [|done].
  destruct Hv as [Hv|Hv]; [done|]. by apply validate_defaults_noop.
Qed.

(** X8. In a directory that cannot be written, a file that does not
    parse is not backed up.  For a path other than the preferences path
    [load_file] returns the empty document and leaves the files as they
    were; for the preferences path, if the file itself is writable, the
    unparsable content is overwritten in place by the validated document
    and the backup path is left as it was. *)

Theorem load_file_corrupt_read_only_directory filepath w f raw :
  files w !! filepath = Some f → data_of f = Raw raw → dir_w w = false →
  (filepath ≠ preferences →
   ∃ w', load_file filepath w = (w', Ret (JDict ∅)) ∧ files w' = files w) ∧
  (filepath = preferences → w_ok f = true →
   ∃ w' data, load_file filepath w = (w', Ret data) ∧ validated data ∧
      files w' !! filepath = Some (File (Json data) true) ∧
      files w' !! (filepath +:+ ".bak") = files w !! (filepath +:+ ".bak")).
Proof.
  intros Hf Hraw Hdw.
  destruct (load_file_init filepath w) as (w1 & Hd & Hfiles & Hl).
  { unfold unreadable. rewrite Hf. eauto. }
  unfold init_files in Hfiles. rewrite Hdw in Hfiles. split.
  - intros Hp. rewrite bool_decide_eq_false_2 in Hl by done. eauto.
  - intros -> Hok. rewrite bool_decide_eq_true_2 in Hl by done. rewrite Hl.
    assert (Hc : can_write preferences w1).
    { unfold can_write. by rewrite Hfiles, Hf. }
    destruct (validate_defaults_total (JDict ∅) w1) as (w' & data & Hrun).
    { apply well_grouped_empty. }
    { left. rewrite Hfiles, Hf. eauto. }
    pose proof (validate_defaults_spec (JDict ∅) w1) as Hs.
    pose proof (validate_defaults_persisted (JDict ∅) w1) as Hp.
    eapply wp_elim in Hs; [|exact Hrun]. eapply wp_elim in Hp; [|exact Hrun].
    destruct Hs as [Hw Hv]. specialize (Hv _ eq_refl).
    exists w', data. split_and!; [done..| |].
    + destruct Hp as [[-> [= ->]]|Hp]; [|by apply Hp].
      apply Forall_inv in Hv. destruct Hv as (v & Hv & _).
      unfold py_getitem2, py_getitem in Hv. by rewrite lookup_empty in Hv.
    + rewrite (prefs_written_frame w1) by (done || apply bak_ne).
      by rewrite Hfiles.
Qed.

Lemma load_file_can_write filepath w w' r :
  load_file filepath w = (w', r) →
  can_write filepath w → can_write filepath w'.
Proof.
  intros Hrun Hc. destruct (decide (filepath = preferences)) as [->|Hp].
  - pose proof (load_file_preferences_spec w) as Hs.
    eapply wp_elim in Hs; [|exact Hrun]. by apply Hs.
  - destruct (readable_or_not filepath w) as [Hu|(f & j & Hf & Hj)].
    + destruct (load_file_init _ _ Hu) as (w1 & Hd & Hfiles & Hl).
      rewrite bool_decide_eq_false_2 in Hl by done.
      rewrite Hl in Hrun. simplify_eq. by eapply init_files_can_write.
    + rewrite (load_file_json _ _ _ _ Hf Hj) in Hrun.
      rewrite bool_decide_eq_false_2 in Hrun by done. by simplify_eq.
Qed.

(** ** The default document *)



(** X9. On a missing or unparsable preferences file that exists or can
    be created, [load_file] returns exactly the default document: the
    six default values and [config_version = 7]; and where [save_file]
    can write, that document is what the preferences file holds
    afterwards. *)

Theorem load_file_preferences_first_run w :
  unreadable preferences w → creatable preferences w →
  ∃ w', load_file preferences w = (w', Ret (JDict demo_defaults)) ∧
        (can_write preferences w →
         files w' !! preferences
           = Some (File (Json (JDict demo_defaults)) true)).
Proof.
  intros Hu Hc.
  destruct (load_file_init _ _ Hu) as (w1 & Hd & Hfiles & ->).
  rewrite bool_decide_eq_true_2 by done.
  destruct (validate_defaults_total (JDict ∅) w1) as (w' & data & Hrun).
  { apply well_grouped_empty. }
  { by eapply init_files_creatable. }
  pose proof (validate_defaults_exact _ _ _ _ Hrun) as ->.
  rewrite with_defaults_empty in Hrun. exists w'. split; [done|].
  intros Hcw. pose proof (validate_defaults_persisted (JDict ∅) w1) as Hp.
  eapply wp_elim in Hp; [|exact Hrun].
  destruct Hp as [[_ [=]]|Hp].
  apply Hp; [|done]. by eapply init_files_can_write.
Qed.

(** ** Validation keeps what it does not own, and puts the default elsewhere *)

Lemma _validate_keeps group item ty dflt data w w' data' g i v :
  group ≠ "config_version" → type dflt = ty →
  _validate group item ty dflt data w = (w', Ret data') →
  g ≠ "config_version" →
  py_getitem2 data g i = Ret v →
  ((g, i) = (group, item) → type v = ty) →
  py_getitem2 data' g i = Ret v.
Proof.
  intros Hg Hd Hrun Hcv Hv Hty. rewrite _validate_eq in Hrun by done.
  destruct data as [| | | | |m]; try done.
  destruct (group_of m group) as [gm|e] eqn:Hgm; [|done].
  destruct (needs_repair gm item ty) eqn:Hn; [|by simplify_eq].
  assert (data' = JDict (<["config_version" := JInt version]>
                    (<[group := JDict (<[item := dflt]> gm)]> m))) as ->.
  { revert Hrun. unfold bind. rewrite save_file_preferences_dict. simpl.
    destruct (files w !! preferences) as [f|].
    - destruct (w_ok f); by intros [= <- <-].
    - destruct (dir_w w); by intros [= <- <-]. }
  revert Hv. unfold py_getitem2, py_getitem.
  rewrite lookup_insert_ne by done.
  destruct (decide (g = group)) as [->|Hne].
  - rewrite lookup_insert_eq. unfold group_of in Hgm.
    destruct (m !! group) as [[| | | | |gm']|] eqn:Hm; try done.
    simplify_eq. destruct (decide (i = item)) as [->|Hi].
    + destruct (gm !! item) as [x|] eqn:Hx; [|done]. intros [= ->].
      unfold needs_repair in Hn. rewrite Hx, Hty in Hn by done.
      by destruct (type dflt).
    + by rewrite lookup_insert_ne.
  - by rewrite lookup_insert_ne.
Qed.

Lemma for_in_validate_keeps l data w w' data' g i v :
  Forall entry_sound l →
  for_in l validate_entry data w = (w', Ret data') →
  g ≠ "config_version" →
  py_getitem2 data g i = Ret v →
  (∀ e, e ∈ l → entry_key e = (g, i) → type v = e.1.2) →
  py_getitem2 data' g i = Ret v.
Proof.
  intros Hl. revert data w. induction Hl as [|e l [He1 He2] Hl IH];
    intros data w Hrun Hcv Hv Hty.
  - simpl in Hrun. unfold ret in Hrun. by simplify_eq.
  - simpl in Hrun. unfold bind in Hrun.
    destruct (validate_entry data e w) as [w1 [data1|err]] eqn:H1; [|done].
    eapply IH; [exact Hrun|done| |].
    + eapply _validate_keeps; [exact He1|exact He2|exact H1|done..|].
      intros Heq. apply (Hty e); [left|]. unfold entry_key. congruence.
    + intros e' He'. apply Hty. by right.
Qed.

Lemma validate_defaults_keeps data w w' data' group item v :
  validate_defaults data w = (w', Ret data') →
  group ≠ "config_version" →
  py_getitem2 data group item = Ret v →
  (∀ ty dflt, (group, item, ty, dflt) ∈ DefaultEntries → type v = ty) →
  py_getitem2 data' group item = Ret v.
Proof.
  rewrite validate_defaults_for_in. intros Hrun Hcv Hv Hty.
  eapply for_in_validate_keeps; [apply DefaultEntries_sound|done..|].
  intros [[[g i] ty] dflt] He [= -> ->]. by eapply Hty.
Qed.

(** X10. Validation keeps what it does not own: every
    [document[group][item]] of the preferences file, outside
    [config_version], is returned unchanged by [load_file], unless it is
    a default entry whose value is not of the expected type. *)

Theorem load_file_keeps_settings w f j w' data group item v :
  files w !! preferences = Some f → data_of f = Json j →
  load_file preferences w = (w', Ret data) →
  group ≠ "config_version" →
  py_getitem2 j group item = Ret v →
  (∀ ty dflt, (group, item, ty, dflt) ∈ DefaultEntries → type v = ty) →
  py_getitem2 data group item = Ret v.
Proof.
  intros Hf Hj. rewrite (load_file_json _ _ _ _ Hf Hj).
  rewrite bool_decide_eq_true_2 by done. apply validate_defaults_keeps.
Qed.

Lemma _validate_sets_default group item ty dflt data w w' data' :
  group ≠ "config_version" → type dflt = ty →
  _validate group item ty dflt data w = (w', Ret data') →
  (∀ v, py_getitem2 data group item = Ret v → type v ≠ ty) →
  py_getitem2 data' group item = Ret dflt.
Proof.
  intros Hg Hd Hrun Hbad. rewrite _validate_eq in Hrun by done.
  destruct data as [| | | | |m]; try done.
  destruct (group_of m group) as [gm|e] eqn:Hgm; [|done].
  destruct (needs_repair gm item ty) eqn:Hn.
  - assert (data' = JDict (<["config_version" := JInt version]>
                      (<[group := JDict (<[item := dflt]> gm)]> m))) as ->.
    { revert Hrun. unfold bind. rewrite save_file_preferences_dict. simpl.
      destruct (files w !! preferences) as [f|].
      - destruct (w_ok f); by intros [= <- <-].
      - destruct (dir_w w); by intros [= <- <-]. }
    unfold py_getitem2, py_getitem.
    rewrite lookup_insert_ne by done. by rewrite !lookup_insert_eq.
  - exfalso. unfold needs_repair in Hn.
    destruct (gm !! item) as [v|] eqn:Hv; [|done].
    apply (Hbad v).
    + unfold group_of in Hgm. unfold py_getitem2, py_getitem.
      destruct (m !! group) as [[| | | | |gm']|]; simplify_eq.
      by rewrite Hv.
    + apply py_type_eqb_eq. by destruct (py_type_eqb (type v) ty).
Qed.

Lemma _validate_from_input group item ty dflt data w w' data' g i v :
  group ≠ "config_version" → type dflt = ty →
  _validate group item ty dflt data w = (w', Ret data') →
  g ≠ "config_version" → (g, i) ≠ (group, item) →
  py_getitem2 data' g i = Ret v → py_getitem2 data g i = Ret v.
Proof.
  intros Hg Hd Hrun Hcv Hne. rewrite _validate_eq in Hrun by done.
  destruct data as [| | | | |m]; try done.
  destruct (group_of m group) as [gm|e] eqn:Hgm; [|done].
  destruct (needs_repair gm item ty) eqn:Hn; [|by simplify_eq].
  assert (data' = JDict (<["config_version" := JInt version]>
                    (<[group := JDict (<[item := dflt]> gm)]> m))) as ->.
  { revert Hrun. unfold bind. rewrite save_file_preferences_dict. simpl.
    destruct (files w !! preferences) as [f|].
    - destruct (w_ok f); by intros [= <- <-].
    - destruct (dir_w w); by intros [= <- <-]. }
  unfold py_getitem2, py_getitem. rewrite lookup_insert_ne by done.
  destruct (decide (g = group)) as [->|Hgg].
  - rewrite lookup_insert_eq, lookup_insert_ne by congruence.
    unfold group_of in Hgm.
    destruct (m !! group) as [[| | | | |gm']|]; simplify_eq; [done|].
    by rewrite lookup_empty.
  - by rewrite lookup_insert_ne.
Qed.

Lemma for_in_validate_default l data w w' data' g i ty dflt :
  Forall entry_sound l → NoDup (entry_key <$> l) →
  (g, i, ty, dflt) ∈ l →
  for_in l validate_entry data w = (w', Ret data') →
  (∀ v, py_getitem2 data g i = Ret v → type v ≠ ty) →
  py_getitem2 data' g i = Ret dflt.
Proof.
  intros Hl. revert data w. induction Hl as [|e l [He1 He2] Hl IH];
    intros data w Hnd Hin Hrun Hbad.
  { by apply elem_of_nil in Hin. }
  simpl in Hrun. unfold bind in Hrun.
  destruct (validate_entry data e w) as [w1 [data1|err]] eqn:H1; [|done].
  apply NoDup_cons in Hnd as [Hnotin Hnd].
  apply elem_of_cons in Hin as [<-|Hin].
  - simpl in *. eapply for_in_validate_keeps; [done|exact Hrun|done| |].
    + eapply _validate_sets_default; [exact He1|exact He2|exact H1|done].
    + intros e' He' Hkey. exfalso. apply Hnotin.
      apply list_elem_of_fmap. exists e'. split; [|done].
      by rewrite Hkey.
  - eapply IH; [done..|exact Hrun|].
    intros v Hv. apply Hbad.
    eapply _validate_from_input; [exact He1|exact He2|exact H1| | |exact Hv].
    + rewrite Forall_forall in Hl. by destruct (Hl _ Hin).
    + intros Heq. apply Hnotin. apply list_elem_of_fmap.
      exists (g, i, ty, dflt). split; [|done]. unfold entry_key. simpl.
      by rewrite Heq.
Qed.

Lemma validate_defaults_default data w w' data' g i ty dflt :
  validate_defaults data w = (w', Ret data') →
  (g, i, ty, dflt) ∈ DefaultEntries →
  (∀ v, py_getitem2 data g i = Ret v → type v ≠ ty) →
  py_getitem2 data' g i = Ret dflt.
Proof.
  rewrite validate_defaults_for_in. intros Hrun Hin Hbad.
  eapply for_in_validate_default;
    [apply DefaultEntries_sound|apply DefaultEntries_NoDup|done..].
Qed.

Lemma NoDup_fmap_elem_of_inj {A B} (f : A → B) (l : list A) x y :
  NoDup (f <$> l) → x ∈ l → y ∈ l → f x = f y → x = y.
Proof.
  induction l as [|a l IH]; intros Hnd Hx Hy Heq.
  { by apply elem_of_nil in Hx. }
  rewrite fmap_cons in Hnd. apply NoDup_cons in Hnd as [Hn Hnd].
  apply elem_of_cons in Hx as [->|Hx]; apply elem_of_cons in Hy as [->|Hy].
  - done.
  - exfalso. apply Hn. rewrite Heq. apply list_elem_of_fmap. eauto.
  - exfalso. apply Hn. rewrite <- Heq. apply list_elem_of_fmap. eauto.
  - by apply IH.
Qed.

Lemma validate_defaults_typed data w w' data' g i ty dflt v :
  validate_defaults data w = (w', Ret data') →
  (g, i, ty, dflt) ∈ DefaultEntries →
  py_getitem2 data g i = Ret v →
  py_getitem2 data' g i = Ret (if py_type_eqb (type v) ty then v else dflt).
Proof.
  intros Hrun Hin Hv.
  assert (Hg : g ≠ "config_version").
  { pose proof DefaultEntries_sound as Hs. rewrite Forall_forall in Hs.
    by destruct (Hs _ Hin). }
  destruct (py_type_eqb (type v) ty) eqn:Hty.
  - apply py_type_eqb_eq in Hty.
    eapply validate_defaults_keeps; [done..|].
    intros ty' dflt' Hin'.
    pose proof DefaultEntries_NoDup as Hnd.
    assert (Heq : (g, i, ty, dflt) = (g, i, ty', dflt')); [|congruence].
    by eapply (NoDup_fmap_elem_of_inj entry_key DefaultEntries).
  - eapply validate_defaults_default; [done..|].
    intros v' Hv'. rewrite Hv in Hv'. injection Hv' as <-.
    intros Heq. apply py_type_eqb_eq in Heq. congruence.
Qed.

(** X11. For each of the six default entries, if the preferences file
    has no value there, or one of another type, the document [load_file]
    returns has the default value there. *)

Theorem load_file_puts_defaults w w' data group item ty dflt :
  load_file preferences w = (w', Ret data) →
  (group, item, ty, dflt) ∈ DefaultEntries →
  (∀ f j v, files w !! preferences = Some f → data_of f = Json j →
            py_getitem2 j group item = Ret v → type v ≠ ty) →
  py_getitem2 data group item = Ret dflt.
Proof.
  intros Hrun Hin Hbad.
  destruct (readable_or_not preferences w) as [Hu|(f & j & Hf & Hj)].
  - destruct (load_file_init _ _ Hu) as (w1 & _ & _ & Hl).
    rewrite bool_decide_eq_true_2 in Hl by done. rewrite Hl in Hrun.
    rewrite validate_defaults_for_in in Hrun.
    eapply for_in_validate_default;
      [apply DefaultEntries_sound|apply DefaultEntries_NoDup|done..|].
    intros v Hv. unfold py_getitem2, py_getitem in Hv.
    by rewrite lookup_empty in Hv.
  - rewrite (load_file_json _ _ _ _ Hf Hj) in Hrun.
    rewrite bool_decide_eq_true_2 in Hrun by done.
    rewrite validate_defaults_for_in in Hrun.
    eapply for_in_validate_default;
      [apply DefaultEntries_sound|apply DefaultEntries_NoDup|done..|].
    intros v. by apply (Hbad f j).
Qed.

Lemma validated_size data :
  validated data → ∃ m, data = JDict m ∧ (4 ≤ size m)%nat.
Proof.
  intros Hv.
  assert (Hin : ∀ g i ty dflt, (g, i, ty, dflt) ∈ DefaultEntries →
                entry_ok g i ty data).
  { intros g i ty dflt He. unfold validated in Hv.
    rewrite Forall_forall in Hv. apply (Hv _ He). }
  destruct (validated_dict _ Hv) as [m ->]. exists m. split; [done|].
  assert (Hdom : ({[ "colours"; "effects"; "general"; "tray" ]} : gset string)
                 ⊆ dom m).
  { assert (∀ g i ty dflt, (g, i, ty, dflt) ∈ DefaultEntries → g ∈ dom m)
      as Hg.
    { intros g i ty dflt He.
      destruct (entry_ok_inv _ _ _ _ (Hin _ _ _ _ He))
        as (m' & gm & v & [= <-] & Hm & _).
      apply elem_of_dom. eauto. }
    intros k Hk. rewrite !elem_of_union, !elem_of_singleton in Hk.
    destruct Hk as [[[->| ->]| ->]| ->].
    - eapply (Hg _ "primary"). in_defaults.
    - eapply (Hg _ "live_preview"). in_defaults.
    - eapply (Hg _ "landing_tab"). in_defaults.
    - eapply (Hg _ "icon"). in_defaults. }
  apply subseteq_size in Hdom. rewrite size_dom in Hdom.
  etrans; [|exact Hdom]. by vm_compute.
Qed.

Lemma load_file_preferences_len w w' data :
  load_file preferences w = (w', Ret data) →
  ∃ n, py_len data = Ret n ∧ 2 < n.
Proof.
  intros Hrun. pose proof (load_file_preferences_spec w) as Hs.
  eapply wp_elim in Hs; [|exact Hrun]. destruct Hs as (_ & _ & Hv).
  destruct (validated_size _ (Hv _ eq_refl)) as (m & -> & Hsize).
  eexists. split; [done|]. lia.
Qed.

(** ** [exists], [get] and [set] *)

(** X12. [exists] and [get] agree: from the same world, [exists]
    returns [True] exactly when [get] returns a value, [False] exactly
    when the load returned and [get] raises, and it raises exactly what
    [load_file] raises; the final worlds are the same. *)

Theorem exists_agrees_with_get group item d filepath w w' :
  (exists_ group item filepath w = (w', Ret true) ↔
   ∃ v, get group item d filepath w = (w', Ret v)) ∧
  (exists_ group item filepath w = (w', Ret false) ↔
   ∃ data e, load_file (default preferences filepath) w = (w', Ret data) ∧
             get group item d filepath w = (w', Raise e)) ∧
  (∀ e, exists_ group item filepath w = (w', Raise e) ↔
        load_file (default preferences filepath) w = (w', Raise e)).
Proof.
  unfold exists_, get, bind, try_except_all, lift, ret.
  destruct (load_file (default preferences filepath) w) as [w1 [data|e]].
  - destruct (py_getitem2 data group item) as [v|e].
    + split_and!.
      * split; [intros [= <-]; eauto|]. by intros [v' [= <- <-]].
      * split; [done|]. by intros (? & ? & _ & ?).
      * done.
    + split_and!.
      * split; [done|]. by intros [v' ?].
      * split; [intros [= <-]; eauto|]. by intros (? & ? & [= <- <-] & ?).
      * done.
  - split_and!.
    + split; [done|]. by intros [v' ?].
    + split; [done|]. by intros (? & ? & ? & ?).
    + intros e'. split; intros [= <- <-]; done.
Qed.

Lemma entry_ok_set g i t group item v m gm :
  group_of m group = Ret gm →
  entry_ok g i t (JDict m) →
  ((g, i) = (group, item) → type v = t) →
  entry_ok g i t (JDict (<[group := JDict (<[item := v]> gm)]> m)).
Proof.
  intros Hgm Hok Hty.
  destruct (entry_ok_inv _ _ _ _ Hok) as (m' & gm' & x & [= <-] & Hm & Hx & Hxt).
  destruct (decide (g = group)) as [->|Hg].
  - unfold group_of in Hgm. rewrite Hm in Hgm. simplify_eq.
    destruct (decide (i = item)) as [->|Hi].
    + eapply entry_ok_intro; [apply lookup_insert_eq|apply lookup_insert_eq|].
      by apply Hty.
    + eapply entry_ok_intro; [apply lookup_insert_eq| |done].
      by rewrite lookup_insert_ne.
  - eapply entry_ok_intro; [|exact Hx|done]. by rewrite lookup_insert_ne.
Qed.

Lemma set_eq group item value filepath w w0 m0 gm :
  load_file (default preferences filepath) w = (w0, Ret (JDict m0)) →
  group_of m0 group = Ret gm →
  set group item value filepath w =
  try_except_all
    (save_file (default preferences filepath)
       (JDict (<[group := JDict (<[item := coerced value]> gm)]> m0)) ;;;
     ret tt)
    (λ _, dbg_stdout (MsgWriteError (coerced value) item group
                        (default preferences filepath)) dbg_error) w0.
Proof.
  intros Hload Hgm. unfold set. unfold bind at 1. rewrite Hload.
  fold (coerced value). unfold group_of in Hgm.
  unfold bind at 1, try_except_all at 1, bind at 1, lift, py_getitem, ret.
  destruct (m0 !! group) as [x|] eqn:Hx.
  - destruct x as [| | | | |gm']; try done. simplify_eq.
    unfold try_except_all, bind at 1 3. unfold py_setitem2. rewrite Hx. done.
  - simplify_eq. unfold py_setitem.
    unfold try_except_all, bind at 1 3. unfold py_setitem2.
    rewrite lookup_insert_eq. unfold py_setitem. by rewrite insert_insert_eq.
Qed.

(** X13. Round trip of [set] and [get].  When the file can be written,
    the loaded document is a mapping and [group] in it is missing or a
    mapping (and, on the preferences path, [group] is not
    [config_version] and a default entry is given a value of its type),
    [set] returns, the file holds the loaded document with
    [group][item] set to the value (the strings "true" and "false" made
    booleans), and [get] then returns that value without writing. *)

Theorem set_then_get group item value filepath w w0 m0 gm :
  let fp := default preferences filepath in
  load_file fp w = (w0, Ret (JDict m0)) →
  can_write fp w →
  group_of m0 group = Ret gm →
  (fp = preferences →
   group ≠ "config_version" ∧
   ∀ ty dflt, (group, item, ty, dflt) ∈ DefaultEntries →
              type (coerced value) = ty) →
  ∃ w1 nd,
    set group item value filepath w = (w1, Ret tt) ∧
    stamped fp (JDict (<[group := JDict (<[item := coerced value]> gm)]> m0))
      = Ret nd ∧
    files w1 !! fp = Some (File (Json nd) true) ∧
    ∀ d, get group item d filepath w1 = (w1, Ret (coerced value)).
Proof.
  intros fp Hload Hc Hgm Hprefs.
  rewrite (set_eq _ _ _ _ _ _ _ _ Hload Hgm). fold fp.
  apply (load_file_can_write _ _ _ _ Hload) in Hc.
  set (m3 := <[group := JDict (<[item := coerced value]> gm)]> m0).
  assert (∃ nd, stamped fp (JDict m3) = Ret nd ∧
                py_getitem2 nd group item = Ret (coerced value) ∧
                (fp = preferences → validated nd)) as (nd & Hst & Hget & Hval).
  { unfold stamped. case_bool_decide as Hp.
    - destruct (Hprefs Hp) as [Hcv Hty]. eexists. split; [done|]. split.
      + unfold py_getitem2, py_getitem. rewrite lookup_insert_ne by done.
        unfold m3. by rewrite !lookup_insert_eq.
      + intros _. apply validated_stamp.
        pose proof (load_file_preferences_spec w) as Hs. rewrite <- Hp in Hs.
        eapply wp_elim in Hs; [|exact Hload].
        destruct Hs as (_ & _ & Hv). specialize (Hv _ eq_refl).
        unfold validated in *. rewrite Forall_forall in *.
        intros [[[g i] ty] dflt] He. simpl. apply entry_ok_set; [done| |].
        * apply (Hv _ He).
        * intros [= -> ->]. by eapply Hty.
    - eexists. split; [done|]. split; [|done].
      unfold py_getitem2, py_getitem, m3. by rewrite !lookup_insert_eq. }
  unfold try_except_all, bind. rewrite save_file_eq, Hst.
  assert (∀ fs, fs !! fp = Some (File (Json nd) true) →
            ∀ d, get group item d filepath (with_files w0 fs)
                 = (with_files w0 fs, Ret (coerced value))) as Hg.
  { intros fs Hfs d. unfold get. fold fp. unfold bind at 1.
    rewrite (load_file_json fp (with_files w0 fs) _ nd Hfs eq_refl).
    case_bool_decide as Hp.
    - rewrite validate_defaults_noop by auto.
      unfold bind, lift, ret. by rewrite Hget.
    - unfold bind, lift, ret. by rewrite Hget. }
  unfold can_write in Hc. destruct (files w0 !! fp) as [f|] eqn:Hf.
  - rewrite Hc. eexists _, nd. split_and!; [done..| |].
    + simpl. by rewrite lookup_insert_eq.
    + apply Hg. by rewrite lookup_insert_eq.
  - rewrite Hc. eexists _, nd. split_and!; [done..| |].
    + simpl. by rewrite lookup_insert_eq.
    + apply Hg. by rewrite lookup_insert_eq.
Qed.

(** X14. [set] on a document whose [group] is present and not a mapping
    writes nothing: it reports the write error on the log and returns.
    On a document that is not a mapping at all it raises [TypeError]
    (the assignment after the bare [except] is not guarded). *)

Theorem set_without_a_mapping group item value filepath w w0 :
  let fp := default preferences filepath in
  (∀ m0 x,
     load_file fp w = (w0, Ret (JDict m0)) →
     m0 !! group = Some x → type x ≠ dict →
     ∃ w1, set group item value filepath w = (w1, Ret tt) ∧
           files w1 = files w0 ∧
           stdout w1 = (stdout w0 ++
             [(dbg_error, MsgWriteError (coerced value) item group fp)])%list) ∧
  (∀ data,
     load_file fp w = (w0, Ret data) → type data ≠ dict →
     set group item value filepath w = (w0, Raise TypeError)).
Proof.
  intros fp. split.
  - intros m0 x Hload Hx Hty. unfold set. fold fp. unfold bind at 1.
    rewrite Hload. fold (coerced value).
    unfold bind at 1, try_except_all at 1, bind at 1, lift, py_getitem, ret.
    rewrite Hx. unfold try_except_all, bind at 1. unfold py_setitem2.
    rewrite Hx. destruct x; try done; unfold py_setitem, dbg_stdout; eauto.
  - intros data Hload Hty. unfold set. fold fp. unfold bind at 1.
    rewrite Hload.
    unfold bind at 1, try_except_all at 1, bind at 1, lift, py_getitem, ret.
    destruct data; try done.
Qed.

(** ** [upgrade_old_pref]: nothing to upgrade *)

Lemma upgrade_old_pref_at_version w f m :
  files w !! preferences = Some f → data_of f = Json (JDict m) →
  m !! "config_version" = Some (JInt version) →
  upgrade_old_pref w = (w, Ret tt).
Proof.
  intros Hf Hj Hm.
  unfold upgrade_old_pref, bind at 1, try_except_all, bind at 1, json_load.
  rewrite Hf, Hj. unfold bind, lift, ret, py_getitem. by rewrite Hm.
Qed.

(** X15. [upgrade_old_pref] returns at once, changing and logging
    nothing, unless the preferences file parses and carries a
    [config_version] that [int] accepts and that differs from 7: a
    missing or unparsable file, a document without the key, a version
    that is not a number, and the current version all end the pass. *)

Theorem upgrade_old_pref_nothing_to_do w :
  (∀ f j v, files w !! preferences = Some f → data_of f = Json j →
            py_getitem j "config_version" = Ret v →
            py_int v = Ret version ∨ ∃ e, py_int v = Raise e) →
  upgrade_old_pref w = (w, Ret tt).
Proof.
  intros H.
  unfold upgrade_old_pref, bind at 1, try_except_all, bind at 1, json_load.
  destruct (files w !! preferences) as [f|] eqn:Hf; [|done].
  destruct (data_of f) as [raw|j] eqn:Hj; [done|].
  unfold bind at 1, lift at 1.
  destruct (py_getitem j "config_version") as [v|e] eqn:Hv; [|done].
  unfold bind at 1, lift at 1.
  destruct (H f j v eq_refl Hj Hv) as [->|[e ->]]; [|done].
  unfold ret, bind. by rewrite bool_decide_eq_true_2.
Qed.

(** ** [upgrade_old_pref]: the migration, step by step *)

Lemma old_live_preview_of_stamp md :
  old_live_preview_of (<["config_version" := JInt version]> md)
  = old_live_preview_of md.
Proof. unfold old_live_preview_of. by rewrite lookup_insert_ne. Qed.

Lemma load_file_preferences_lp m lp w :
  preferences_hold_lp m lp w →
  ∃ w' md, load_file preferences w = (w', Ret (JDict md)) ∧
           legacy_document m (JDict md) ∧ old_live_preview_of md = lp ∧
           preferences_hold_lp m lp w' ∧
           ∀ q, q ≠ preferences → files w' !! q = files w !! q.
Proof.
  intros (Hd & md0 & Hf & Hl & Hlp).
  rewrite (load_file_json _ _ _ _ Hf eq_refl), bool_decide_eq_true_2 by done.
  assert (Hwg : well_grouped (JDict md0)) by (by destruct Hl as (? & _ & ? & _)).
  destruct (validate_defaults_total _ w Hwg) as (w' & d' & Hrun).
  { left. eauto. }
  pose proof (validate_defaults_spec (JDict md0) w) as Hs.
  pose proof (validate_defaults_persisted (JDict md0) w) as Hp.
  eapply wp_elim in Hs; [|done]. eapply wp_elim in Hp; [|done].
  destruct Hs as [Hw Hv].
  pose proof (validate_defaults_legacy _ _ _ _ _ Hl Hrun) as Hl'.
  destruct (validate_defaults_other_key _ _ _ _ _ untouched_editor Hrun)
    as (md & -> & He).
  assert (Hlp' : old_live_preview_of md = lp).
  { rewrite <- Hlp. unfold old_live_preview_of. by rewrite He. }
  exists w', md. split_and!; [done..| |].
  - split; [destruct Hw; congruence|].
    destruct Hp as [[-> [= <-]]|Hp]; [by eauto|].
    exists md. split_and!; [|done..]. apply Hp; [|done].
    unfold can_write. by rewrite Hf.
  - intros q Hq. by eapply prefs_written_frame.
Qed.

Lemma upgrade_editor_key_lp m md key w :
  legacy_document m (JDict md) →
  ∃ md', upgrade_editor_key (JDict md) key w = (w, Ret (JDict md')) ∧
         legacy_document m (JDict md') ∧
         old_live_preview_of md' =
           if bool_decide (key = "live_preview")
           then as_flag (old_live_preview_of md)
           else old_live_preview_of md.
Proof.
  intros Hl.
  assert (Hset : ∀ e b, md !! "editor" = Some (JDict e) →
            legacy_document m
              (JDict (<["editor" := JDict (<[key := JBool b]> e)]> md))).
  { intros e b He. destruct Hl as (md' & [= <-] & Hwg & _ & Ht).
    eexists. split_and!; [done| |..].
    - apply well_grouped_insert; [left; apply untouched_editor|done].
    - right. rewrite lookup_insert_eq. eauto.
    - by rewrite lookup_insert_ne. }
  assert (Hed : editor_ok md) by (by destruct Hl as (? & [= <-] & _ & ? & _)).
  unfold upgrade_editor_key, try_except_all, bind, lift, ret,
    py_getitem2, py_setitem2, py_getitem, py_setitem, old_live_preview_of.
  destruct Hed as [He|[e He]]; rewrite He; simpl.
  { exists md. rewrite He. split_and!; [done..|]. by case_bool_decide. }
  destruct (e !! key) as [value|] eqn:Hk; simpl.
  2:{ exists md. rewrite He. split_and!; [done..|].
      case_bool_decide as Hkey; [|done]. subst key. by rewrite Hk. }
  destruct value as [|b|z|s|l|d]; simpl;
    try (exists md; rewrite He; split_and!; [done..|];
         case_bool_decide as Hkey; [subst key; by rewrite Hk|done]).
  destruct (bool_decide (s = "true") || bool_decide (s = "True")) eqn:Hb;
    simpl; (eexists; split_and!; [done|by apply Hset|]);
    rewrite lookup_insert_eq;
    (destruct (decide (key = "live_preview")) as [->|Hkey];
     [rewrite bool_decide_eq_true_2 by done;
      rewrite lookup_insert_eq, Hk; simpl; by rewrite Hb
     |rewrite bool_decide_eq_false_2 by done;
      by rewrite lookup_insert_ne by done]).
Qed.

Lemma upgrade_step_lt5_lp m lp w :
  preferences_hold_lp m lp w →
  ∃ w', upgrade_step_lt5 w = (w', Ret tt) ∧
        preferences_hold_lp m (as_flag lp) w' ∧
        ∀ q, q ≠ preferences → files w' !! q = files w !! q.
Proof.
  intros Hh.
  destruct (load_file_preferences_lp m lp w Hh)
    as (w1 & md & Hload & Hl & Hlp & (Hd1 & d1 & Hf1 & _) & Hframe).
  destruct (upgrade_editor_key_lp m md "activate_on_save" w1 Hl)
    as (md1 & Hk1 & Hl1 & Hlp1).
  destruct (upgrade_editor_key_lp m md1 "live_switch" w1 Hl1)
    as (md2 & Hk2 & Hl2 & Hlp2).
  destruct (upgrade_editor_key_lp m md2 "live_preview" w1 Hl2)
    as (md3 & Hk3 & Hl3 & Hlp3).
  rewrite bool_decide_eq_false_2 in Hlp1, Hlp2 by done.
  rewrite bool_decide_eq_true_2 in Hlp3 by done.
  unfold upgrade_step_lt5, bind at 1. rewrite Hload. simpl.
  unfold bind at 1, bind at 1. rewrite Hk1.
  unfold bind at 1. rewrite Hk2. unfold bind at 1. rewrite Hk3.
  unfold ret at 1. unfold bind. rewrite save_file_preferences_dict, Hf1.
  simpl. eexists. split; [done|]. split.
  - split; [done|]. simpl. eexists. rewrite lookup_insert_eq.
    split_and!; [done|by apply legacy_document_stamp|].
    rewrite old_live_preview_of_stamp. congruence.
  - intros q Hq. simpl. rewrite lookup_insert_ne by done. by apply Hframe.
Qed.

Lemma upgrade_step_lt7_exact m lp t w :
  preferences_hold_lp m lp w →
  (∀ w, new_tray_value_of (JDict m) w = (w, Ret t)) →
  ∃ w4,
    upgrade_step_lt7 w = upgrade_colours w4 ∧ dir_w w4 = true ∧
    files w4 !! preferences
      = Some (File (Json (JDict (<["config_version" := JInt version]>
                                   (new_data lp t)))) true) ∧
    files w4 !! old_devicestate = None ∧
    ∀ q, q ≠ preferences → q ≠ old_devicestate →
         files w4 !! q = files w !! q.
Proof.
  intros Hh Ht.
  destruct (load_file_preferences_lp m lp w Hh)
    as (w1 & md & Hload & Hl & Hlp & (Hd1 & d1 & Hf1 & _) & Hframe).
  destruct Hl as (md' & [= <-] & _ & He & Htray).
  assert (Htv : new_tray_value_of (JDict md) w1 = (w1, Ret t)).
  { rewrite <- (Ht w1). apply new_tray_value_of_ext. simpl. by rewrite Htray. }
  assert (Hlp' : try_except
                   (lift (py_getitem2 (JDict md) "editor" "live_preview"))
                   KeyError (ret (JBool false)) w1 = (w1, Ret lp)).
  { rewrite <- Hlp.
    unfold try_except, lift, ret, py_getitem2, py_getitem, old_live_preview_of.
    destruct He as [->|[e ->]]; simpl; [done|].
    by destruct (e !! "live_preview"). }
  unfold upgrade_step_lt7, bind at 1. rewrite Hload.
  unfold bind at 1. rewrite Htv. unfold bind at 1. rewrite Hlp'.
  unfold bind at 1, os_remove at 1. rewrite Hf1, Hd1.
  unfold bind at 1. rewrite save_file_preferences_dict. simpl.
  rewrite lookup_delete_eq, Hd1.
  unfold bind at 1, os_path_exists at 1.
  set (w3 := with_files _ _).
  assert (H3 : dir_w w3 = true ∧
               (∀ q, q ≠ preferences → files w3 !! q = files w !! q) ∧
               files w3 !! preferences
                 = Some (File (Json (JDict (<["config_version" := JInt version]>
                                              (new_data lp t)))) true)).
  { subst w3. simpl. split_and!; [done| |].
    - intros q Hq. rewrite lookup_insert_ne by done.
      rewrite lookup_delete_ne by done. by apply Hframe.
    - by rewrite lookup_insert_eq. }
  clearbody w3. destruct H3 as (Hd3 & Hframe3 & Hf3).
  assert (H4 : ∃ w4, (if bool_decide (is_Some (files w3 !! old_devicestate))
                      then os_remove old_devicestate else ret tt) w3 = (w4, Ret tt) ∧
                     dir_w w4 = true ∧
                     files w4 !! old_devicestate = None ∧
                     (∀ q, q ≠ old_devicestate → files w4 !! q = files w3 !! q)).
  { case_bool_decide as Hex.
    - destruct Hex as [x Hx]. unfold os_remove. rewrite Hx, Hd3.
      eexists. split; [done|]. simpl. split_and!; [done| |].
      + by rewrite lookup_delete_eq.
      + intros q Hq. by rewrite lookup_delete_ne.
    - exists w3. split_and!; [done..| |done].
      by apply eq_None_not_Some. }
  destruct H4 as (w4 & Hrm & Hd4 & Hgone & Hframe4).
  simpl. unfold bind at 1. rewrite Hrm.
  exists w4. split_and!; [done..| |done|].
  - rewrite Hframe4 by apply not_eq_sym, old_devicestate_ne_preferences. done.
  - intros q Hq Hq'. rewrite Hframe4 by done. by apply Hframe3.
Qed.

Lemma upgrade_colours_frame_others w :
  wp upgrade_colours
     (λ w' _, dir_w w' = dir_w w ∧
              ∀ q, q ≠ colours → q ≠ colours +:+ ".bak" →
                   files w' !! q = files w !! q) w.
Proof.
  unfold upgrade_colours. apply wp_bind.
  eapply wp_mono; [apply load_file_frame|].
  intros w1 [old_colours|e] [Hd Hframe]; simpl; [|done].
  destruct (py_eqb old_colours old_colour_json).
  - unfold wp, os_remove. destruct (files w1 !! colours); [|done].
    destruct (dir_w w1) eqn:Hd1; simpl; [|by rewrite Hd1].
    split; [congruence|]. intros q Hq Hb.
    rewrite lookup_delete_ne by done. by apply Hframe.
  - destruct (negb _); [|done]. apply wp_bind, wp_lift.
    destruct (sorted_keys old_colours) as [old_ids|e]; [|done].
    unfold wp, bind.
    pose proof (for_in_pure old_ids (convert_colour old_colours) [] w1
                  (convert_colour_pure old_colours)) as Hpure.
    destruct (for_in old_ids _ [] w1) as [w2 [new_colours|e]];
      simpl in *; subst w2; [|done].
    rewrite save_file_other by apply colours_ne_preferences.
    destruct (files w1 !! colours) as [fc|];
      [destruct (w_ok fc)|destruct (dir_w w1) eqn:Hd1]; simpl;
      (split; [congruence|]); intros q Hq Hb;
      rewrite ?lookup_insert_ne by done; by apply Hframe.
Qed.

Lemma upgrade_write_version_exact w nd :
  files w !! preferences = Some (File (Json (JDict nd)) true) →
  well_grouped (JDict nd) →
  ∃ w1 w',
    validate_defaults (JDict nd) w = (w1, Ret (JDict (with_defaults nd))) ∧
    upgrade_write_version w = (w', Ret tt) ∧
    files w' !! preferences
      = Some (File (Json (JDict (<["config_version" := JInt version]>
                                   (with_defaults nd)))) true) ∧
    dir_w w' = dir_w w ∧
    ∀ q, q ≠ preferences → files w' !! q = files w !! q.
Proof.
  intros Hf Hwg.
  pose proof (load_file_json _ _ _ _ Hf eq_refl) as Hload.
  rewrite bool_decide_eq_true_2 in Hload by done.
  destruct (validate_defaults_total (JDict nd) w Hwg) as (w1 & data & Hrun).
  { left. eauto. }
  pose proof (validate_defaults_exact _ _ _ _ Hrun) as ->.
  pose proof (validate_defaults_spec (JDict nd) w) as Hs.
  eapply wp_elim in Hs; [|done]. destruct Hs as [Hw _].
  assert (Hc1 : can_write preferences w1).
  { eapply prefs_written_can_write; [done|]. unfold can_write. by rewrite Hf. }
  rewrite Hrun in Hload. exists w1.
  unfold upgrade_write_version, bind at 1. rewrite Hload.
  unfold bind at 1, lift at 1. simpl. unfold bind at 1.
  rewrite save_file_preferences_dict. unfold can_write in Hc1.
  unfold dbg_stdout. rewrite insert_insert_eq.
  pose proof (proj1 Hw) as Hdw.
  destruct (files w1 !! preferences) as [f1|]; rewrite Hc1; simpl;
    (eexists; split; [done|]; split; [done|]); simpl; rewrite lookup_insert_eq;
    (split_and!; [done..|]); intros q Hq;
    rewrite lookup_insert_ne by done;
    by eapply prefs_written_frame.
Qed.

Lemma upgrade_old_pref_run w m v t :
  files w !! preferences = Some (File (Json (JDict m)) true) →
  dir_w w = true →
  m !! "config_version" = Some (JInt v) → v < 7 → v ≠ 6 →
  well_grouped (JDict m) → editor_ok m →
  (∀ w, new_tray_value_of (JDict m) w = (w, Ret t)) →
  colours_convertible w →
  ∃ w4 w5 w' wv wv' d,
    upgrade_old_pref w = (w', Ret tt) ∧
    upgrade_colours w4 = (w5, Ret tt) ∧
    dir_w w4 = true ∧
    (∀ q, q ≠ preferences → q ≠ old_devicestate →
          files w4 !! q = files w !! q) ∧
    validate_defaults
      (JDict (<["config_version" := JInt version]>
                (new_data
                   (if bool_decide (v < 5) then as_flag (old_live_preview_of m)
                    else old_live_preview_of m) t))) wv
      = (wv', Ret (JDict d)) ∧
    files w' !! preferences
      = Some (File (Json (JDict (<["config_version" := JInt version]> d)))
                true) ∧
    files w' !! old_devicestate = None ∧
    (∀ q, q ≠ preferences → files w' !! q = files w5 !! q).
Proof.
  intros Hf Hd Hm Hv Hv6 Hwg He Ht Hcol.
  rewrite (upgrade_old_pref_older _ _ _ _ Hf eq_refl Hm Hv).
  rewrite (bool_decide_eq_false_2 (v = 6)) by done.
  unfold bind at 1, dbg_stdout at 1. simpl.
  set (w0 := {| files := files w |}).
  assert (H0 : preferences_hold_lp m (old_live_preview_of m) w0 ∧
               ∀ q, files w0 !! q = files w !! q).
  { split; [|done]. split; [done|]. exists m. split_and!; [done| |done].
    by exists m. }
  clearbody w0. destruct H0 as [Hh0 Hc0].
  set (lp := if bool_decide (v < 5) then as_flag (old_live_preview_of m)
             else old_live_preview_of m).
  assert (H1 : ∃ w1, (if bool_decide (v < 5) then upgrade_step_lt5 else ret tt) w0
                       = (w1, Ret tt) ∧
                     preferences_hold_lp m lp w1 ∧
                     ∀ q, q ≠ preferences → files w1 !! q = files w !! q).
  { subst lp. case_bool_decide; [|by exists w0].
    destruct (upgrade_step_lt5_lp m _ w0 Hh0) as (w1 & Hrun & Hh1 & Hframe).
    exists w1. split_and!; [done..|].
    intros q Hq. by rewrite Hframe. }
  destruct H1 as (w1 & Hrun1 & Hh1 & Hc1).
  unfold bind at 1. rewrite Hrun1.
  destruct (upgrade_step_lt7_exact m lp t w1 Hh1 Ht)
    as (w4 & Hrun4 & Hd4 & Hf4 & Hgone4 & Hframe4).
  assert (Hc4 : ∀ q, q ≠ preferences → q ≠ old_devicestate →
                     files w4 !! q = files w !! q).
  { intros q Hq Hq'. rewrite Hframe4 by done. by apply Hc1. }
  destruct (upgrade_colours_total w4 Hd4) as (w5 & Hrun5).
  { eapply colours_convertible_frame; [|done].
    apply Hc4; [apply colours_ne_preferences|].
    apply not_eq_sym, old_devicestate_ne_colours. }
  pose proof (upgrade_colours_frame w4) as Hfr.
  pose proof (upgrade_colours_frame_others w4) as Hfo.
  eapply wp_elim in Hfr; [|done]. eapply wp_elim in Hfo; [|done].
  destruct Hfr as [Hd5 Hf5]. destruct Hfo as [_ Hfo].
  unfold bind at 1. rewrite Hrun4, Hrun5.
  destruct (upgrade_write_version_exact w5 (<["config_version" := JInt version]>
                                              (new_data lp t)))
    as (wv' & w6 & Hval & Hrun6 & Hf6 & _ & Hframe6).
  { congruence. }
  { apply well_grouped_new_data. }
  exists w4, w5, w6, w5, wv',
    (with_defaults (<["config_version" := JInt version]> (new_data lp t))).
  split_and!; [done..| |done].
  rewrite Hframe6 by apply old_devicestate_ne_preferences.
  rewrite Hfo; [done|apply old_devicestate_ne_colours|].
  apply old_devicestate_ne_colours_bak.
Qed.

(** X16. What a completed pass from a version below 6 leaves in a
    writable preferences file: a document with [config_version = 7], the
    colours "#00FF00" and "#00FFFF", the landing tab "devices",
    [tray.force_legacy_gtk_status = False], [effects.live_preview] taken
    from the legacy [editor.live_preview] (below version 5 a string is
    first made a boolean; a value that is no boolean becomes [True]) and
    [tray.icon] derived from the legacy [tray_icon] group (a value that is
    no string becomes the default icon); every other top-level key of the
    old document is dropped.  The legacy device-state file is gone, and
    no path besides the preferences, device-state and colours files and
    the colours backup has changed. *)

Theorem upgrade_old_pref_migrates_preferences w m v t :
  files w !! preferences = Some (File (Json (JDict m)) true) →
  dir_w w = true →
  m !! "config_version" = Some (JInt v) → v < 7 → v ≠ 6 →
  well_grouped (JDict m) → editor_ok m →
  (∀ w, new_tray_value_of (JDict m) w = (w, Ret t)) →
  colours_convertible w →
  let lp := if bool_decide (v < 5) then as_flag (old_live_preview_of m)
            else old_live_preview_of m in
  ∃ w' d,
    upgrade_old_pref w = (w', Ret tt) ∧
    files w' !! preferences = Some (File (Json (JDict d)) true) ∧
    d !! "config_version" = Some (JInt 7) ∧
    py_getitem2 (JDict d) "colours" "primary" = Ret (JStr "#00FF00") ∧
    py_getitem2 (JDict d) "colours" "secondary" = Ret (JStr "#00FFFF") ∧
    py_getitem2 (JDict d) "effects" "live_preview"
      = Ret (if py_type_eqb (type lp) bool_ then lp else JBool true) ∧
    py_getitem2 (JDict d) "general" "landing_tab" = Ret (JStr "devices") ∧
    py_getitem2 (JDict d) "tray" "force_legacy_gtk_status"
      = Ret (JBool false) ∧
    py_getitem2 (JDict d) "tray" "icon"
      = Ret (if py_type_eqb (type t) str then t else tray_icon_default) ∧
    (∀ k, k ∉ ["colours"; "config_version"; "effects"; "general"; "tray"] →
          d !! k = None) ∧
    files w' !! old_devicestate = None ∧
    ∀ q, q ≠ preferences → q ≠ old_devicestate →
         q ≠ colours → q ≠ colours +:+ ".bak" →
         files w' !! q = files w !! q.
Proof.
  intros Hf Hd Hm Hv Hv6 Hwg He Ht Hcol lp.
  destruct (upgrade_old_pref_run w m v t)
    as (w4 & w5 & w' & wv & wv' & d & Hrun & Hrun5 & Hd4 & Hframe4 & Hval
        & Hp & Hgone & Hframe); try done.
  fold lp in Hval.
  set (nd := <["config_version" := JInt version]> (new_data lp t)) in Hval.
  assert (Hstamp : ∀ g i, g ≠ "config_version" →
            py_getitem2 (JDict (<["config_version" := JInt version]> d)) g i
            = py_getitem2 (JDict d) g i).
  { intros g i Hg. unfold py_getitem2, py_getitem.
    by rewrite lookup_insert_ne. }
  assert (Hnd : ∀ g i, g ≠ "config_version" →
            py_getitem2 (JDict nd) g i = py_getitem2 (JDict (new_data lp t)) g i).
  { intros g i Hg. unfold py_getitem2, py_getitem, nd.
    by rewrite lookup_insert_ne. }
  exists w', (<["config_version" := JInt version]> d).
  split_and!; [done|done|apply lookup_insert_eq|..|done|].
  - rewrite Hstamp by done.
    rewrite (validate_defaults_typed _ _ _ _ "colours" "primary" str
               (JStr "#00FF00") (JStr "#00FF00") Hval); [done|in_defaults|].
    by rewrite Hnd.
  - rewrite Hstamp by done.
    rewrite (validate_defaults_typed _ _ _ _ "colours" "secondary" str
               (JStr "#FF0000") (JStr "#00FFFF") Hval); [done|in_defaults|].
    by rewrite Hnd.
  - rewrite Hstamp by done.
    rewrite (validate_defaults_typed _ _ _ _ "effects" "live_preview" bool_
               (JBool true) lp Hval); [done|in_defaults|].
    by rewrite Hnd.
  - rewrite Hstamp by done.
    eapply validate_defaults_default; [exact Hval|in_defaults|].
    intros x Hx. rewrite Hnd in Hx by done. done.
  - rewrite Hstamp by done.
    rewrite (validate_defaults_typed _ _ _ _ "tray" "force_legacy_gtk_status"
               bool_ (JBool false) (JBool false) Hval); [done|in_defaults|].
    by rewrite Hnd.
  - rewrite Hstamp by done.
    rewrite (validate_defaults_typed _ _ _ _ "tray" "icon" str
               tray_icon_default t Hval); [done|in_defaults|].
    by rewrite Hnd.
  - intros k Hk.
    assert (Hne : k ≠ "colours" ∧ k ≠ "config_version" ∧ k ≠ "effects" ∧
                  k ≠ "general" ∧ k ≠ "tray").
    { split_and!; intros ->; apply Hk;
        repeat first [apply list_elem_of_here | apply list_elem_of_further]. }
    destruct Hne as (H1 & H2 & H3 & H4 & H5).
    rewrite lookup_insert_ne by done.
    destruct (validate_defaults_other_key nd wv wv' (JDict d) k)
      as (d' & [= <-] & ->); [|done|].
    { split; [done|]. repeat constructor; simpl; congruence. }
    unfold nd, new_data. rewrite !lookup_insert_ne by done.
    by rewrite lookup_singleton_ne.
  - intros q Hq Hq' Hc Hb.
    pose proof (upgrade_colours_frame_others w4) as Hfo.
    eapply wp_elim in Hfo; [|done]. destruct Hfo as [_ Hfo].
    rewrite Hframe, Hfo by done. by apply Hframe4.
Qed.




(** X17. What a completed pass from a version below 6 does to the
    colours file: a list is left as it is; a document equal to the known
    legacy palette is removed; a missing or unparsable file ends up
    holding the empty list, the unparsable content kept under
    [colours + ".bak"]. *)


(** ** [upgrade_old_pref]: a pass that fails after the v0.3.12 step *)

Lemma new_tray_value_of_not_mapping m x w :
  m !! "tray_icon" = Some x → type x ≠ dict →
  new_tray_value_of (JDict m) w = (w, Raise TypeError).
Proof.
  intros Hx Hty.
  unfold new_tray_value_of, try_except, bind, lift, py_getitem2, py_getitem.
  rewrite Hx. by destruct x.
Qed.


(** X18. A pass from a version below 5 that fails in the v1.0.0 step is
    not retried.  With a [tray_icon] that is not a mapping the pass
    raises [TypeError], but the v0.3.12 step has already saved the
    document with [config_version = 7] and the offending [tray_icon]
    still in it; a second pass finds the current version and returns
    without doing anything. *)


(** X19. The derivation of the tray icon changes nothing in the world
    and never raises [KeyError]: a missing [tray_icon] group, or one
    without a [type], gives the empty string.  A [tray_icon] that is not
    a mapping raises [TypeError], which is not caught. *)

Theorem new_tray_value_of_discards_invalid_data old_data w :
  (new_tray_value_of old_data w).1 = w ∧
  (new_tray_value_of old_data w).2 ≠ Raise KeyError ∧
  (∀ m, old_data = JDict m →
        m !! "tray_icon" = None ∨
          (∃ t, m !! "tray_icon" = Some (JDict t) ∧ t !! "type" = None) →
        new_tray_value_of old_data w = (w, Ret (JStr ""))) ∧
  (∀ m x, old_data = JDict m → m !! "tray_icon" = Some x → type x ≠ dict →
          new_tray_value_of old_data w = (w, Raise TypeError)).
Proof.
  split_and!.
  - apply new_tray_value_of_pure.
  - unfold new_tray_value_of, try_except, bind, lift, ret.
    destruct (py_getitem2 old_data "tray_icon" "type") as [t|e]; simpl;
      [|by destruct e].
    destruct (py_eqb t (JStr "gtk")).
    { destruct (py_getitem2 old_data "tray_icon" "value") as [x|e]; simpl;
        [|by destruct e].
      destruct (get_path_from_gtk_icon_name x) as [y|e]; simpl;
        [done|by destruct e]. }
    destruct (py_eqb t (JStr "custom")).
    { destruct (py_getitem2 old_data "tray_icon" "value") as [x|e]; simpl;
        [done|by destruct e]. }
    destruct (py_eqb t (JStr "builtin")); [|done].
    destruct (py_getitem2 old_data "tray_icon" "value") as [x|e]; simpl.
    + destruct (mapping_getitem x) as [y|e]; simpl; [done|]. by destruct e.
    + by destruct e.
  - intros m -> Hm.
    unfold new_tray_value_of, try_except, bind, lift, ret,
      py_getitem2, py_getitem.
    destruct Hm as [->|(t & -> & ->)]; done.
  - intros m x -> Hx Hty. by eapply new_tray_value_of_not_mapping.
Qed.

(** ** [start_initalization] *)

(** X20. The reset of the preferences in [start_initalization] is dead
    code: a document returned by [load_file] for the preferences path
    has at least four top-level keys, so [len(data) <= 2] is false and
    [save_file(path.preferences, {})] is never called.  The function is
    equal to itself without that statement. *)

Theorem start_initalization_never_resets create_folders tr w :
  start_initalization create_folders tr w =
  (create_folders ;;;
   for_in [preferences]
     (fun _ json_path =>
        present <- os_path_exists json_path ;;
        if negb present then init_config json_path else ret tt) tt ;;;
   upgrade_old_pref ;;;
   load_file preferences ;;;
   data <- load_file colours ;;
   n <- lift (py_len data) ;;
   if bool_decide (n ≤ 2)
   then save_file colours (default_data tr) ;;; ret tt
   else ret tt) w.
Proof.
  unfold start_initalization.
  apply bind_ext. intros _ w1. apply bind_ext. intros _ w2.
  apply bind_ext. intros _ w3. apply bind_ext_run. intros data w4 Hload.
  destruct (load_file_preferences_len _ _ _ Hload) as (n & Hn & Hlt).
  unfold bind at 1, lift at 1. rewrite Hn.
  rewrite bool_decide_eq_false_2 by lia. done.
Qed.



(** X21. Once [start_initalization] has returned, a writable colours
    file holds a document with more than two entries (the default
    palette, if what was loaded had two or fewer). *)


(** X22. A saved palette of at most two colours does not survive the
    next start: with the folder loop changing no file, current and
    valid preferences, and a writable colours file holding a list of at
    most two entries, [start_initalization] returns and the only change
    to the files is that the colours file holds the twelve default
    colours. *)

Theorem start_initalization_short_palette create_folders tr w w0 fp m fc l :
  create_folders w = (w0, Ret tt) → files w0 = files w →
  files w !! preferences = Some fp → data_of fp = Json (JDict m) →
  m !! "config_version" = Some (JInt version) → validated (JDict m) →
  files w !! colours = Some fc → data_of fc = Json (JList l) →
  w_ok fc = true → (length l ≤ 2)%nat →
  ∃ w', start_initalization create_folders tr w = (w', Ret tt) ∧
        files w' = <[colours := File (Json (default_data tr)) true]> (files w).
Proof.
  intros Hcf Hfiles Hfp Hjp Hm Hv Hfc Hjc Hok Hl.
  rewrite <- Hfiles in Hfp, Hfc.
  destruct (validated_size _ Hv) as (m' & [= <-] & Hsize).
  unfold start_initalization.
  unfold bind at 1. rewrite Hcf.
  unfold bind at 1. simpl. unfold bind at 1 2, os_path_exists at 1.
  rewrite Hfp, bool_decide_eq_true_2 by eauto. simpl. unfold ret at 1 2.
  unfold bind at 1. rewrite (upgrade_old_pref_at_version _ _ _ Hfp Hjp Hm).
  unfold bind at 1. rewrite (load_file_json _ _ _ _ Hfp Hjp).
  rewrite bool_decide_eq_true_2, validate_defaults_noop by done.
  unfold bind at 1, lift at 1. simpl py_len. cbv beta iota.
  rewrite bool_decide_eq_false_2 by lia. unfold bind at 1.
  unfold bind at 1. rewrite (load_file_json _ _ _ _ Hfc Hjc).
  rewrite bool_decide_eq_false_2 by apply colours_ne_preferences.
  unfold bind at 1, lift at 1. simpl.
  rewrite bool_decide_eq_true_2 by lia.
  unfold bind. rewrite save_file_other by apply colours_ne_preferences.
  rewrite Hfc, Hok. eexists. split; [done|]. simpl. by rewrite Hfiles.
Qed.

End Proofs.

(** * The theorems at work on given inputs *)

#[local] Transparent preferences colours old_devicestate.
#[local] Existing Instance demo.

(** ** C1 *)

(** C1, the claim as stated fails: from an empty configuration directory,
    [set("tray", "icon", "true")] and then [get("tray", "icon")] returns
    the default icon path, not the boolean [true]. *)
Lemma set_true_then_get_tray_icon_counterexample :
  snd ((set "tray" "icon" (JStr "true") None ;;;
        get "tray" "icon" (JStr "") None) w_empty) = Ret tray_icon_default ∧
  snd ((set "tray" "icon" (JStr "true") None ;;;
        get "tray" "icon" (JStr "") None) w_empty) ≠ Ret (JBool true).
Proof.
  assert (Hrun : snd ((set "tray" "icon" (JStr "true") None ;;;
                       get "tray" "icon" (JStr "") None) w_empty)
                 = Ret tray_icon_default) by (vm_compute; reflexivity).
  split; [exact Hrun|]. rewrite Hrun. discriminate.
Qed.

Lemma set_true_then_get_tray_icon_witness :
  type tray_icon_default = str ∧
  ∃ w1 w2 m tm,
    set "tray" "icon" (JStr "true") None w_empty = (w1, Ret tt) ∧
    files w1 !! preferences = Some (File (Json (JDict m)) true) ∧
    m !! "tray" = Some (JDict tm) ∧ tm !! "icon" = Some (JBool true) ∧
    get "tray" "icon" (JStr "") None w1 = (w2, Ret tray_icon_default).
Proof.
  destruct (set_true_then_get_tray_icon w_empty) as [Htype Hdefault]. split.
  - apply (Htype (JStr "")
             (fst ((set "tray" "icon" (JStr "true") None ;;;
                    get "tray" "icon" (JStr "") None) w_empty))).
    vm_compute. reflexivity.
  - apply Hdefault.
    + vm_compute. reflexivity.
    + apply preferences_well_formed_absent. vm_compute. reflexivity.
Defined.

(** ** C2 *)

Lemma upgrade_old_pref_older_version_witness :
  (∃ w', upgrade_old_pref w_v4 = (w', Ret tt)) ∧
  (∃ m', files (fst (upgrade_old_pref w_v4)) !! preferences
           = Some (File (Json (JDict m')) true) ∧
         m' !! "config_version" = Some (JInt 7) ∧ validated (JDict m')) ∧
  (∃ w', upgrade_old_pref w_v6 = (w', Ret tt) ∧
         files w' = delete old_devicestate (delete colours
                      (delete preferences (files w_v6))) ∧
         files w' !! preferences = None ∧
         files w' !! colours = None ∧
         files w' !! old_devicestate = None) ∧
  (dir_w w_v6 = true ∧
   files (fst (upgrade_old_pref w_v6))
     = delete old_devicestate (delete colours
         (delete preferences (files w_v6)))).
Proof.
  split; [|split; [|split]].
  - destruct (upgrade_old_pref_older_version w_v4
                (File (Json (JDict doc_v4)) true) doc_v4 4)
      as (Hruns & _ & _ & _).
    + vm_compute. reflexivity.
    + reflexivity.
    + vm_compute. reflexivity.
    + lia.
    + apply Hruns.
      * lia.
      * reflexivity.
      * apply well_groupedb_spec. vm_compute. reflexivity.
      * right. eexists. vm_compute. reflexivity.
      * exists (JStr ""). intros w. vm_compute. reflexivity.
      * vm_compute. exact I.
  - destruct (upgrade_old_pref_older_version w_v4
                (File (Json (JDict doc_v4)) true) doc_v4 4)
      as (_ & Hstamp & _ & _).
    + vm_compute. reflexivity.
    + reflexivity.
    + vm_compute. reflexivity.
    + lia.
    + apply Hstamp; [lia|]. vm_compute. reflexivity.
  - destruct (upgrade_old_pref_older_version w_v6
                (File (Json (JDict doc_v6)) true) doc_v6 6)
      as (_ & _ & Hreset & _).
    + vm_compute. reflexivity.
    + reflexivity.
    + vm_compute. reflexivity.
    + lia.
    + apply Hreset; reflexivity.
  - destruct (upgrade_old_pref_older_version w_v6
                (File (Json (JDict doc_v6)) true) doc_v6 6)
      as (_ & _ & _ & Hdeleted).
    + vm_compute. reflexivity.
    + reflexivity.
    + vm_compute. reflexivity.
    + lia.
    + apply Hdeleted; [reflexivity|]. vm_compute. reflexivity.
Defined.

(** ** C3 *)

Lemma upgrade_old_pref_newer_version_witness :
  upgrade_old_pref w_v9 = upgrade_warn_newer 9 w_v9 ∧
  ∃ w', upgrade_old_pref w_v9 = (w', Ret tt) ∧
        files w' = files w_v9 ∧ dir_w w' = dir_w w_v9 ∧
        stdout w' = (stdout w_v9 ++
          [ (dbg_error, Msg "\nWARNING: Your preferences file is newer then the application!");
            (dbg_error, Msg "It's likely you're running an older version. This is unsupported.");
            (dbg_error, MsgVersion "     Current Config Version:   v." 9);
            (dbg_error, MsgVersion "     Installed Config Version: v." 7);
            (dbg_plain, Msg "") ])%list.
Proof.
  apply (upgrade_old_pref_newer_version w_v9
           (File (Json (JDict doc_v9)) true) doc_v9 9).
  - vm_compute. reflexivity.
  - reflexivity.
  - vm_compute. reflexivity.
  - lia.
Defined.

(** ** C4 *)

(** C4, the claim as stated fails: on a preferences file that does not
    parse, [load_file] returns the six defaults and the version, not an
    empty document, and that is what the path holds afterwards. *)
Lemma load_file_corrupt_counterexample :
  snd (load_file preferences w_raw) = Ret (JDict demo_defaults) ∧
  files (fst (load_file preferences w_raw)) !! preferences
    = Some (File (Json (JDict demo_defaults)) true) ∧
  JDict demo_defaults ≠ JDict ∅.
Proof.
  split_and!; [vm_compute; reflexivity..|].
  intros H. vm_compute in H. discriminate H.
Qed.

Lemma load_file_corrupt_witness :
  (∃ w', load_file colours w_raw_colours = (w', Ret (JDict ∅)) ∧
         files w' !! (colours +:+ ".bak") = Some (File (Raw "{not json") true) ∧
         files w' !! colours = Some (File (Json (JDict ∅)) true)) ∧
  (∃ w', load_file preferences w_raw = (w', Ret (JDict demo_defaults)) ∧
         validated (JDict demo_defaults) ∧
         demo_defaults !! "config_version" = Some (JInt 7) ∧
         files w' !! (preferences +:+ ".bak") = Some (File (Raw "{not json") true) ∧
         files w' !! preferences
           = Some (File (Json (JDict demo_defaults)) true)).
Proof.
  split.
  - destruct (load_file_corrupt colours w_raw_colours
                (File (Raw "{not json") true) "{not json") as (_ & Hother & _).
    + vm_compute. reflexivity.
    + reflexivity.
    + apply Hother; [|reflexivity].
      intros Heq. vm_compute in Heq. discriminate Heq.
  - destruct (load_file_corrupt preferences w_raw
                (File (Raw "{not json") true) "{not json") as (_ & _ & Hprefs).
    + vm_compute. reflexivity.
    + reflexivity.
    + apply Hprefs; reflexivity.
Defined.

(** ** C5 *)

(** C5, where the code departs from its docstring: asked to save a file
    that is missing from a directory in which nothing can be created,
    [save_file] raises instead of returning [False]. *)
Theorem save_file_raises_when_it_cannot_create :
  save_file colours (JList []) w_read_only = (w_read_only, Raise OSError) ∧
  save_file preferences (JDict ∅) w_read_only = (w_read_only, Raise OSError).
Proof.
  split.
  - by apply (save_file_cannot_create _ _ (JList [])).
  - by apply (save_file_cannot_create _ _
                (JDict {[ "config_version" := JInt version ]})).
Qed.

(** ** C6 *)

Lemma get_never_applies_default_witness :
  get "tray" "icon" (JStr "a") None w_empty
    = get "tray" "icon" (JStr "b") None w_empty ∧
  get "tray" "icon" (JStr "a") None w_empty
    = (fst (load_file preferences w_empty),
       py_getitem2 (JDict demo_defaults) "tray" "icon") ∧
  get "tray" "theme" (JStr "a") None w_empty
    = (fst (load_file preferences w_empty), Raise KeyError).
Proof.
  destruct (get_never_applies_default "tray" "icon" None w_empty)
    as (Hsame & Hvalue & _).
  destruct (get_never_applies_default "tray" "theme" None w_empty)
    as (_ & _ & Habsent).
  split_and!.
  - apply Hsame.
  - apply Hvalue. vm_compute. reflexivity.
  - apply (Habsent _ _ demo_defaults); [vm_compute; reflexivity|].
    right. eexists. split; vm_compute; reflexivity.
Defined.

(** ** C7 *)

(** C7, the claim as stated fails when its order is the numeric one: for
    the IDs "2" and "10" the pass writes the entry of "10" first, while
    ascending ID numbers put the entry of "2" first. *)
Lemma upgrade_old_pref_converts_colours_counterexample :
  files (fst (upgrade_old_pref w_v5)) !! colours
    = Some (File (Json (JList [record_teal; record_red])) true) ∧
  numeric_order_conversion palette_2_10 = [record_red; record_teal] ∧
  JList [record_teal; record_red]
    ≠ JList (numeric_order_conversion palette_2_10).
Proof.
  assert (Hspec : numeric_order_conversion palette_2_10
                  = [record_red; record_teal]) by (vm_compute; reflexivity).
  split_and!; [vm_compute; reflexivity|exact Hspec|].
  rewrite Hspec. intros Heq. vm_compute in Heq. discriminate Heq.
Qed.

Lemma upgrade_old_pref_converts_colours_witness :
  (∃ ids new_colours,
     files (fst (upgrade_old_pref w_v5)) !! colours
       = Some (File (Json (JList new_colours)) true) ∧
     ascending_ids palette_2_10 ids ∧
     Forall2 (converts palette_2_10) ids new_colours) ∧
  (∃ w', upgrade_old_pref w_v5 = (w', Ret tt)).
Proof.
  destruct (upgrade_old_pref_converts_colours w_v5
              (File (Json (JDict doc_v5)) true) doc_v5 5
              (File (Json (JDict palette_2_10)) true) palette_2_10)
    as [Hconverted Hreturns].
  - vm_compute. reflexivity.
  - reflexivity.
  - vm_compute. reflexivity.
  - lia.
  - lia.
  - vm_compute. reflexivity.
  - reflexivity.
  - reflexivity.
  - vm_compute. reflexivity.
  - apply legacy_palette_check, (bool_decide_unpack _).
    vm_compute. reflexivity.
  - split.
    + apply Hconverted. vm_compute. reflexivity.
    + apply Hreturns.
      * reflexivity.
      * apply well_groupedb_spec. vm_compute. reflexivity.
      * left. vm_compute. reflexivity.
      * exists (JStr ""). intros w. vm_compute. reflexivity.
Defined.

(** ** C8 *)

Lemma validate_defaults_idempotent_witness :
  ∃ w' data',
    validate_defaults (JDict ∅) w_empty = (w', Ret data') ∧
    validated data' ∧
    validate_defaults data' w_empty = (w_empty, Ret data').
Proof.
  destruct (validate_defaults_idempotent (JDict ∅) w_empty) as [Hruns Hagain].
  destruct Hruns as (w' & data' & Hrun).
  - apply well_groupedb_spec. vm_compute. reflexivity.
  - right. reflexivity.
  - exists w', data'. destruct (Hagain w' data' Hrun) as [Hvalid Hnoop].
    split_and!; [exact Hrun|exact Hvalid|apply Hnoop].
Defined.

(** ** C9 *)

Lemma save_file_mutates_its_argument_witness :
  (∃ w' b, save_file preferences (JDict doc_v4) w_empty
           = (w', Ret (JDict (<["config_version" := JInt 7]> doc_v4), b))) ∧
  (∃ w' r, save_file preferences (JDict doc_v4) w_empty = (w', Ret r) ∧
           r.1 = JDict (<["config_version" := JInt 7]> doc_v4)) ∧
  (∃ w' r, save_file colours (JDict doc_v4) w_empty = (w', Ret r) ∧
           r.1 = JDict doc_v4).
Proof.
  destruct (save_file_mutates_its_argument doc_v4 w_empty)
    as (Hreturns & Hstamped & Hother).
  split_and!.
  - apply Hreturns. right. reflexivity.
  - exists (save_file preferences (JDict doc_v4) w_empty).1,
      (JDict (<["config_version" := JInt 7]> doc_v4), true).
    split; [vm_compute; reflexivity|].
    apply (Hstamped (save_file preferences (JDict doc_v4) w_empty).1).
    vm_compute. reflexivity.
  - exists (save_file colours (JDict doc_v4) w_empty).1, (JDict doc_v4, true).
    split; [vm_compute; reflexivity|].
    apply (Hother colours (JDict doc_v4)
             (save_file colours (JDict doc_v4) w_empty).1).
    + intros Heq. vm_compute in Heq. discriminate Heq.
    + vm_compute. reflexivity.
Defined.

(** ** C10 *)

(** C10, the claim as stated fails: with a JSON list in the preferences
    file, [load_file], [exists] and [get] all raise [TypeError]. *)
Lemma load_file_preferences_defaults_counterexample :
  load_file preferences w_list = (w_list, Raise TypeError) ∧
  exists_ "tray" "icon" None w_list = (w_list, Raise TypeError) ∧
  get "tray" "icon" (JStr "") None w_list = (w_list, Raise TypeError).
Proof. split_and!; vm_compute; reflexivity. Qed.

Lemma load_file_preferences_defaults_witness :
  ∃ w' data,
    load_file preferences w_empty = (w', Ret data) ∧
    validated data ∧
    exists_ "tray" "icon" None w_empty = (w', Ret true) ∧
    ∃ v, type v = str ∧ get "tray" "icon" (JStr "") None w_empty = (w', Ret v).
Proof.
  destruct (load_file_preferences_defaults w_empty) as [Hruns Hhas].
  destruct Hruns as (w' & data & Hrun).
  - right. reflexivity.
  - apply preferences_well_formed_absent. vm_compute. reflexivity.
  - exists w', data. destruct (Hhas w' data Hrun) as [Hvalid Heach].
    destruct (Heach "tray" "icon" str tray_icon_default) as (Hex & v & Hty & Hget).
    { unfold DefaultEntries.
      repeat first [apply list_elem_of_here | apply list_elem_of_further]. }
    split_and!; [exact Hrun|exact Hvalid|exact Hex|].
    exists v. split; [exact Hty|apply Hget].
Defined.

(** ** Further runs *)

Lemma editor_zoom_is_no_default ty dflt :
  ("editor", "zoom", ty, dflt) ∉ DefaultEntries.
Proof.
  intros Hin. unfold DefaultEntries in Hin.
  repeat (apply elem_of_cons in Hin as [Hin|Hin]; [discriminate Hin|]).
  exact (proj1 (elem_of_nil _) Hin).
Qed.

Lemma save_file_reports_what_it_did_witness :
  dir_w (save_file preferences (JDict ∅) w_empty).1 = dir_w w_empty ∧
  stdout (save_file preferences (JDict ∅) w_empty).1 = stdout w_empty ∧
  (∀ q, q ≠ preferences →
        files (save_file preferences (JDict ∅) w_empty).1 !! q
          = files w_empty !! q) ∧
  stamped preferences (JDict ∅)
    = Ret (JDict {[ "config_version" := JInt 7 ]}) ∧
  files (save_file preferences (JDict ∅) w_empty).1 !! preferences
    = Some (File (Json (JDict {[ "config_version" := JInt 7 ]})) true).
Proof.
  apply (save_file_reports_what_it_did preferences (JDict ∅) w_empty
           (save_file preferences (JDict ∅) w_empty).1
           (Ret (JDict {[ "config_version" := JInt 7 ]}, true))).
  vm_compute. reflexivity.
Defined.

Lemma save_file_then_load_file_witness :
  load_file preferences (save_file preferences (JDict demo_defaults) w_empty).1
    = ((save_file preferences (JDict demo_defaults) w_empty).1,
       Ret (JDict demo_defaults)) ∧
  (preferences ≠ preferences → JDict demo_defaults = JDict demo_defaults).
Proof.
  apply (save_file_then_load_file preferences (JDict demo_defaults) w_empty).
  - vm_compute. reflexivity.
  - right. apply validatedb_spec. vm_compute. reflexivity.
Defined.

Lemma load_file_missing_witness :
  ∃ w', load_file colours w_empty = (w', Ret (JDict ∅)) ∧
        dir_w w' = dir_w w_empty ∧
        files w' = if dir_w w_empty
                   then <[colours := File (Json (JDict ∅)) true]> (files w_empty)
                   else files w_empty.
Proof.
  apply (load_file_missing colours w_empty).
  - vm_compute. reflexivity.
  - intros Heq. vm_compute in Heq. discriminate Heq.
Defined.

Lemma load_file_preferences_cannot_create_witness :
  ∃ w', load_file preferences w_read_only = (w', Raise OSError) ∧
        files w' = files w_read_only.
Proof.
  apply (load_file_preferences_cannot_create w_read_only).
  - vm_compute. reflexivity.
  - reflexivity.
Defined.

Lemma load_file_reads_only_witness :
  load_file preferences w_current = (w_current, Ret (JDict demo_defaults)).
Proof.
  apply (load_file_reads_only preferences w_current
           (File (Json (JDict demo_defaults)) true)).
  - vm_compute. reflexivity.
  - reflexivity.
  - right. apply validatedb_spec. vm_compute. reflexivity.
Defined.

Lemma load_file_corrupt_read_only_directory_witness :
  ∃ w' data, load_file preferences w_raw_read_only = (w', Ret data) ∧
     validated data ∧
     files w' !! preferences = Some (File (Json data) true) ∧
     files w' !! (preferences +:+ ".bak")
       = files w_raw_read_only !! (preferences +:+ ".bak").
Proof.
  destruct (load_file_corrupt_read_only_directory preferences w_raw_read_only
              (File (Raw "{not json") true) "{not json") as [_ Hprefs].
  - vm_compute. reflexivity.
  - reflexivity.
  - reflexivity.
  - apply Hprefs; reflexivity.
Defined.

Lemma load_file_preferences_first_run_witness :
  ∃ w', load_file preferences w_raw = (w', Ret (JDict demo_defaults)) ∧
        (can_write preferences w_raw →
         files w' !! preferences
           = Some (File (Json (JDict demo_defaults)) true)).
Proof.
  apply (load_file_preferences_first_run w_raw).
  - exists "{not json". vm_compute. reflexivity.
  - right. reflexivity.
Defined.

Lemma load_file_keeps_settings_witness :
  ∃ w' data,
    load_file preferences w_user = (w', Ret data) ∧
    py_getitem2 data "editor" "zoom" = Ret (JInt 3).
Proof.
  exists (load_file preferences w_user).1, (JDict (with_defaults doc_user)).
  assert (Hrun : load_file preferences w_user
                 = ((load_file preferences w_user).1,
                    Ret (JDict (with_defaults doc_user))))
    by (vm_compute; reflexivity).
  split; [exact Hrun|].
  apply (load_file_keeps_settings w_user
           (File (Json (JDict doc_user)) true) (JDict doc_user)
           (load_file preferences w_user).1).
  - vm_compute. reflexivity.
  - reflexivity.
  - exact Hrun.
  - discriminate.
  - vm_compute. reflexivity.
  - intros ty dflt Hin. destruct (editor_zoom_is_no_default _ _ Hin).
Defined.

Lemma load_file_puts_defaults_witness :
  ∃ w' data,
    load_file preferences w_user = (w', Ret data) ∧
    py_getitem2 data "effects" "live_preview" = Ret (JBool true).
Proof.
  exists (load_file preferences w_user).1, (JDict (with_defaults doc_user)).
  assert (Hrun : load_file preferences w_user
                 = ((load_file preferences w_user).1,
                    Ret (JDict (with_defaults doc_user))))
    by (vm_compute; reflexivity).
  split; [exact Hrun|].
  apply (load_file_puts_defaults w_user (load_file preferences w_user).1
           (JDict (with_defaults doc_user)) "effects" "live_preview" bool_).
  - exact Hrun.
  - unfold DefaultEntries.
    repeat first [apply list_elem_of_here | apply list_elem_of_further].
  - intros f j v Hf Hj Hv. vm_compute in Hf. injection Hf as <-.
    simpl in Hj. injection Hj as <-. vm_compute in Hv. injection Hv as <-.
    discriminate.
Defined.

Lemma set_then_get_witness :
  ∃ w1 nd,
    set "editor" "zoom" (JStr "true") None w_user = (w1, Ret tt) ∧
    stamped preferences
      (JDict (<["editor" := JDict (<["zoom" := JBool true]>
                                     {[ "zoom" := JInt 3 ]})]>
                (with_defaults doc_user))) = Ret nd ∧
    files w1 !! preferences = Some (File (Json nd) true) ∧
    ∀ d, get "editor" "zoom" d None w1 = (w1, Ret (JBool true)).
Proof.
  apply (set_then_get "editor" "zoom" (JStr "true") None w_user
           (load_file preferences w_user).1 (with_defaults doc_user)
           {[ "zoom" := JInt 3 ]}).
  - vm_compute. reflexivity.
  - vm_compute. reflexivity.
  - vm_compute. reflexivity.
  - intros _. split; [discriminate|]. intros ty dflt Hin. destruct (editor_zoom_is_no_default _ _ Hin).
Defined.

Lemma upgrade_old_pref_nothing_to_do_witness :
  upgrade_old_pref w_current = (w_current, Ret tt).
Proof.
  apply (upgrade_old_pref_nothing_to_do w_current).
  intros f j v Hf Hj Hv. vm_compute in Hf. injection Hf as <-.
  simpl in Hj. injection Hj as <-. vm_compute in Hv. injection Hv as <-.
  left. reflexivity.
Defined.

Lemma upgrade_old_pref_migrates_preferences_witness :
  ∃ w' d,
    upgrade_old_pref w_v4 = (w', Ret tt) ∧
    files w' !! preferences = Some (File (Json (JDict d)) true) ∧
    d !! "config_version" = Some (JInt 7) ∧
    py_getitem2 (JDict d) "colours" "primary" = Ret (JStr "#00FF00") ∧
    py_getitem2 (JDict d) "colours" "secondary" = Ret (JStr "#00FFFF") ∧
    py_getitem2 (JDict d) "effects" "live_preview" = Ret (JBool true) ∧
    py_getitem2 (JDict d) "general" "landing_tab" = Ret (JStr "devices") ∧
    py_getitem2 (JDict d) "tray" "force_legacy_gtk_status"
      = Ret (JBool false) ∧
    py_getitem2 (JDict d) "tray" "icon" = Ret (JStr "") ∧
    (∀ k, k ∉ ["colours"; "config_version"; "effects"; "general"; "tray"] →
          d !! k = None) ∧
    files w' !! old_devicestate = None ∧
    ∀ q, q ≠ preferences → q ≠ old_devicestate →
         q ≠ colours → q ≠ colours +:+ ".bak" →
         files w' !! q = files w_v4 !! q.
Proof.
  apply (upgrade_old_pref_migrates_preferences w_v4 doc_v4 4 (JStr "")).
  - vm_compute. reflexivity.
  - reflexivity.
  - vm_compute. reflexivity.
  - lia.
  - lia.
  - apply well_groupedb_spec. vm_compute. reflexivity.
  - right. eexists. vm_compute. reflexivity.
  - intros w. vm_compute. reflexivity.
  - vm_compute. exact I.
Defined.




Lemma start_initalization_short_palette_witness :
  ∃ w', start_initalization (ret tt) id w_current = (w', Ret tt) ∧
        files w' = <[colours := File (Json (default_data id)) true]>
                     (files w_current).
Proof.
  apply (start_initalization_short_palette (ret tt) id w_current w_current
           (File (Json (JDict demo_defaults)) true) demo_defaults
           (File (Json (JList one_colour)) true) one_colour).
  - reflexivity.
  - reflexivity.
  - vm_compute. reflexivity.
  - reflexivity.
  - vm_compute. reflexivity.
  - apply validatedb_spec. vm_compute. reflexivity.
  - vm_compute. reflexivity.
  - reflexivity.
  - reflexivity.
  - simpl. lia.
Defined.
